(** * Orecpp time components: calendar dates, times of day and their pairing.

    A shallow embedding of [DateComponents.cpp], [TimeComponents.cpp] and
    [DateTimeComponents.cpp].  C++ [int] is a 32-bit two's complement
    integer, [long] a 64-bit one (LP64); a signed operation whose exact
    result leaves the type wraps around, as in the Java code these
    classes were ported from.  [double] is IEEE-754 binary64, modelled by
    the standard library's [spec_float] at precision 53. *)

From Stdlib Require Import ZArith Lia Bool List.
From Stdlib Require Import Floats.SpecFloat.
Import ListNotations.
Local Open Scope Z_scope.

(** ** Machine integers *)

Module Int.

Definition min_signed : Z := - 2 ^ 31.
Definition max_signed : Z := 2 ^ 31 - 1.
Definition modulus : Z := 2 ^ 32.

(** The value of type [int] congruent to [z] modulo [2^32]. *)
Definition wrap (z : Z) : Z := (z + 2 ^ 31) mod 2 ^ 32 - 2 ^ 31.

Definition in_range (z : Z) : Prop := min_signed <= z <= max_signed.

Definition add (a b : Z) : Z := wrap (a + b).
Definition sub (a b : Z) : Z := wrap (a - b).
Definition mul (a b : Z) : Z := wrap (a * b).
Definition neg (a : Z) : Z := wrap (- a).
(** [/] and [%] truncate toward zero. *)
Definition div (a b : Z) : Z := wrap (Z.quot a b).
Definition rem (a b : Z) : Z := Z.rem a b.
Definition shl (a n : Z) : Z := wrap (Z.shiftl a n).
Definition xor (a b : Z) : Z := Z.lxor a b.

End Int.

Module Long.

Definition wrap (z : Z) : Z := (z + 2 ^ 63) mod 2 ^ 64 - 2 ^ 63.
Definition add (a b : Z) : Z := wrap (a + b).
Definition sub (a b : Z) : Z := wrap (a - b).
Definition mul (a b : Z) : Z := wrap (a * b).
Definition neg (a : Z) : Z := wrap (- a).
Definition div (a b : Z) : Z := wrap (Z.quot a b).
Definition shr (a n : Z) : Z := Z.shiftr a n.
Definition xor (a b : Z) : Z := Z.lxor a b.
(** The conversion [(int)] of a [long] keeps the low 32 bits. *)
Definition to_int (a : Z) : Z := Int.wrap a.

End Long.

(** ** Month sequences: [MonthDayFactory] *)

Inductive MonthDayFactory : Type :=
| LEAP_YEAR_FACTORY
| COMMON_YEAR_FACTORY.

Module LeapYearFactory.

Definition PREVIOUS_MONTH_END_DAY : list Z :=
  [0; 0; 31; 60; 91; 121; 152; 182; 213; 244; 274; 305; 335].

Definition getMonth (dayInYear : Z) : Z :=
  if dayInYear <? 32 then 1
  else Int.div (Int.add (Int.mul 10 dayInYear) 313) 306.

End LeapYearFactory.

Module CommonYearFactory.

Definition PREVIOUS_MONTH_END_DAY : list Z :=
  [0; 0; 31; 59; 90; 120; 151; 181; 212; 243; 273; 304; 334].

Definition getMonth (dayInYear : Z) : Z :=
  if dayInYear <? 32 then 1
  else Int.div (Int.add (Int.mul 10 dayInYear) 323) 306.

End CommonYearFactory.

(** Reading [table[month]]: the arrays have 13 entries, and an index
    outside [0..12] has no defined value. *)
Definition table_at (table : list Z) (month : Z) : option Z :=
  if (0 <=? month) && (month <? 13) then nth_error table (Z.to_nat month)
  else None.

Module MonthDay.

Definition table (f : MonthDayFactory) : list Z :=
  match f with
  | LEAP_YEAR_FACTORY => LeapYearFactory.PREVIOUS_MONTH_END_DAY
  | COMMON_YEAR_FACTORY => CommonYearFactory.PREVIOUS_MONTH_END_DAY
  end.

Definition getMonth (f : MonthDayFactory) (dayInYear : Z) : Z :=
  match f with
  | LEAP_YEAR_FACTORY => LeapYearFactory.getMonth dayInYear
  | COMMON_YEAR_FACTORY => CommonYearFactory.getMonth dayInYear
  end.

Definition getDay (f : MonthDayFactory) (dayInYear month : Z) : option Z :=
  option_map (fun p => Int.sub dayInYear p) (table_at (table f) month).

Definition getDayInYear (f : MonthDayFactory) (month day : Z) : option Z :=
  option_map (fun p => Int.add day p) (table_at (table f) month).

End MonthDay.

(** ** Year sequences: [YearFactory] *)

Inductive YearFactory : Type :=
| PROLEPTIC_JULIAN_FACTORY
| JULIAN_FACTORY
| GREGORIAN_FACTORY.

Module ProlepticJulianFactory.

Definition getYear (j2000Day : Z) : Z :=
  Long.to_int
    (Long.neg (Long.div (Long.sub (Long.mul (-4) j2000Day) 2920488) 1461)).

Definition getLastJ2000DayOfYear (year : Z) : Z :=
  Int.sub (Int.add (Int.mul 365 year) (Int.div (Int.add year 1) 4)) 730123.

Definition isLeap (year : Z) : bool := Int.rem year 4 =? 0.

End ProlepticJulianFactory.

Module JulianFactory.

Definition getYear (j2000Day : Z) : Z :=
  Long.to_int (Long.div (Long.add (Long.mul 4 j2000Day) 2921948) 1461).

Definition getLastJ2000DayOfYear (year : Z) : Z :=
  Int.sub (Int.add (Int.mul 365 year) (Int.div year 4)) 730122.

Definition isLeap (year : Z) : bool := Int.rem year 4 =? 0.

End JulianFactory.

Module GregorianFactory.

Definition getLastJ2000DayOfYear (year : Z) : Z :=
  Int.sub
    (Int.add
       (Int.sub (Int.add (Int.mul 365 year) (Int.div year 4))
          (Int.div year 100))
       (Int.div year 400))
    730120.

Definition getYear (j2000Day : Z) : Z :=
  let year :=
    Long.to_int
      (Long.div (Long.add (Long.mul 400 j2000Day) 292194288) 146097) in
  if j2000Day <=? getLastJ2000DayOfYear (Int.sub year 1)
  then Int.sub year 1
  else year.

Definition isLeap (year : Z) : bool :=
  (Int.rem year 4 =? 0)
  && ((Int.rem year 400 =? 0) || negb (Int.rem year 100 =? 0)).

End GregorianFactory.

Module Year.

Definition getYear (f : YearFactory) (j2000Day : Z) : Z :=
  match f with
  | PROLEPTIC_JULIAN_FACTORY => ProlepticJulianFactory.getYear j2000Day
  | JULIAN_FACTORY => JulianFactory.getYear j2000Day
  | GREGORIAN_FACTORY => GregorianFactory.getYear j2000Day
  end.

Definition getLastJ2000DayOfYear (f : YearFactory) (year : Z) : Z :=
  match f with
  | PROLEPTIC_JULIAN_FACTORY =>
      ProlepticJulianFactory.getLastJ2000DayOfYear year
  | JULIAN_FACTORY => JulianFactory.getLastJ2000DayOfYear year
  | GREGORIAN_FACTORY => GregorianFactory.getLastJ2000DayOfYear year
  end.

Definition isLeap (f : YearFactory) (year : Z) : bool :=
  match f with
  | PROLEPTIC_JULIAN_FACTORY => ProlepticJulianFactory.isLeap year
  | JULIAN_FACTORY => JulianFactory.isLeap year
  | GREGORIAN_FACTORY => GregorianFactory.isLeap year
  end.

End Year.

(** ** A small monad for partial results *)

Definition bind {A B : Type} (x : option A) (k : A -> option B) : option B :=
  match x with
  | Some a => k a
  | None => None
  end.

Notation "x <- e ;; k" := (bind e (fun x => k))
  (at level 61, e at next level, right associativity).

(** ** [DateComponents] *)

Record DateComponents : Type := mkDate { year : Z; month : Z; day : Z }.

Module Date.

Definition MJD_TO_J2000 : Z := 51544.

(** [DateComponents(int year, int month, int day)] *)
Definition fromYMD (year month day : Z) : DateComponents :=
  mkDate year month day.

(** The year factory [DateComponents(int offset)] selects. *)
Definition offsetFactory (offset : Z) : YearFactory :=
  if offset <? -152384 then
    if offset >? -730122 then JULIAN_FACTORY else PROLEPTIC_JULIAN_FACTORY
  else GREGORIAN_FACTORY.

(** [DateComponents(int offset)] *)
Definition fromOffset (offset : Z) : option DateComponents :=
  let yFactory := offsetFactory offset in
  let year := Year.getYear yFactory offset in
  let dayInYear :=
    Int.sub offset (Year.getLastJ2000DayOfYear yFactory (Int.sub year 1)) in
  let mdFactory :=
    if Year.isLeap yFactory year then LEAP_YEAR_FACTORY
    else COMMON_YEAR_FACTORY in
  let month := MonthDay.getMonth mdFactory dayInYear in
  day <- MonthDay.getDay mdFactory dayInYear month ;;
  Some (mkDate year month day).

Definition getYear (d : DateComponents) : Z := year d.
Definition getMonth (d : DateComponents) : Z := month d.
Definition getDay (d : DateComponents) : Z := day d.

(** The year factory [getJ2000Day] selects. *)
Definition tripleFactory (d : DateComponents) : YearFactory :=
  if year d <? 1583 then
    if year d <? 1 then PROLEPTIC_JULIAN_FACTORY
    else if (year d <? 1582) || (month d <? 10)
            || ((month d <? 11) && (day d <? 5))
         then JULIAN_FACTORY
         else GREGORIAN_FACTORY
  else GREGORIAN_FACTORY.

Definition getJ2000Day (d : DateComponents) : option Z :=
  let yFactory := tripleFactory d in
  let mdFactory :=
    if Year.isLeap yFactory (year d) then LEAP_YEAR_FACTORY
    else COMMON_YEAR_FACTORY in
  diy <- MonthDay.getDayInYear mdFactory (month d) (day d) ;;
  Some (Int.add (Year.getLastJ2000DayOfYear yFactory (Int.sub (year d) 1))
          diy).

(** [DateComponents(const DateComponents& epoch, int offset)] *)
Definition fromEpochOffset (epoch : DateComponents) (offset : Z)
  : option DateComponents :=
  e <- getJ2000Day epoch ;;
  fromOffset (Int.add e offset).

Definition J2000_EPOCH : DateComponents := fromYMD 2000 1 1.

(** [DateComponents(int year, int dayNumber)] *)
Definition fromYearDay (year dayNumber : Z) : option DateComponents :=
  e <- getJ2000Day (fromYMD (Int.sub year 1) 12 31) ;;
  fromEpochOffset J2000_EPOCH (Int.add e dayNumber).

Definition getMJD (d : DateComponents) : option Z :=
  j <- getJ2000Day d ;; Some (Int.add MJD_TO_J2000 j).

Definition getFirstWeekMonday (year : Z) : option Z :=
  yearFirst <- getJ2000Day (fromYMD year 1 1) ;;
  let offsetToMonday := Int.sub 4 (Int.rem (Int.add yearFirst 2) 7) in
  Some (Int.add (Int.add yearFirst offsetToMonday)
          (if offsetToMonday >? 3 then -7 else 0)).

Definition getCalendarWeek (d : DateComponents) : option Z :=
  firstWeekMonday <- getFirstWeekMonday (year d) ;;
  j <- getJ2000Day d ;;
  let daysSincefirstMonday := Int.sub j firstWeekMonday in
  daysSincefirstMonday <-
    (if daysSincefirstMonday <? 0 then
       prev <- getFirstWeekMonday (Int.sub (year d) 1) ;;
       Some (Int.add daysSincefirstMonday (Int.sub firstWeekMonday prev))
     else if daysSincefirstMonday >? 363 then
       next <- getFirstWeekMonday (Int.add (year d) 1) ;;
       let weekYearLength := Int.sub next firstWeekMonday in
       if daysSincefirstMonday >=? weekYearLength
       then Some (Int.sub daysSincefirstMonday weekYearLength)
       else Some daysSincefirstMonday
     else Some daysSincefirstMonday) ;;
  Some (Int.add 1 (Int.div daysSincefirstMonday 7)).

Definition getDayOfWeek (d : DateComponents) : option Z :=
  j <- getJ2000Day d ;;
  let dow := Int.rem (Int.add j 6) 7 in
  Some (if dow <? 1 then Int.add dow 7 else dow).

Definition getDayOfYear (d : DateComponents) : option Z :=
  j <- getJ2000Day d ;;
  e <- getJ2000Day (fromYMD (Int.sub (year d) 1) 12 31) ;;
  Some (Int.sub j e).

(** [operator<] *)
Definition lt (d other : DateComponents) : option bool :=
  j2000Day <- getJ2000Day d ;;
  otherJ2000Day <- getJ2000Day other ;;
  Some (j2000Day <? otherJ2000Day).

(** [operator==] *)
Definition eqb (d other : DateComponents) : bool :=
  (year d =? year other) && (month d =? month other)
  && (day d =? day other).

Definition hashCode (d : DateComponents) : Z :=
  Int.xor (Int.xor (Int.shl (year d) 16) (Int.shl (month d) 8)) (day d).

Definition createFromWeekComponents (wYear week dayOfWeek : Z)
  : option DateComponents :=
  m <- getFirstWeekMonday wYear ;;
  firstWeekMonday <- fromOffset m ;;
  fromEpochOffset firstWeekMonday
    (Int.sub (Int.add (Int.mul 7 week) dayOfWeek) 8).

(** [MAX_EPOCH] and [MIN_EPOCH] are built by [DateComponents(int)] in
    initialisers that run before those of the factory pointers the
    constructor reads; they have no counterpart here. *)

(** [MODIFIED_JULIAN_EPOCH], built from its three fields. *)
Definition MODIFIED_JULIAN_EPOCH : DateComponents := fromYMD 1858 11 17.

End Date.


(** ** IEEE-754 binary64 *)

Definition double : Type := spec_float.

Module Double.

Definition prec : Z := 53.
Definition emax : Z := 1024.

Definition add (x y : double) : double := SFadd prec emax x y.
Definition sub (x y : double) : double := SFsub prec emax x y.
Definition mul (x y : double) : double := SFmul prec emax x y.
Definition div (x y : double) : double := SFdiv prec emax x y.
Definition opp (x : double) : double := SFopp x.
Definition fabs (x : double) : double := SFabs x.
Definition ltb (x y : double) : bool := SFltb x y.
Definition eqb (x y : double) : bool := SFeqb x y.

Definition isnan (x : double) : bool :=
  match x with S754_nan => true | _ => false end.

(** Conversion of an integer to [double]; exact below [2^53]. *)
Definition of_int (z : Z) : double := binary_normalize prec emax z 0 false.

(** The integer part of a finite value, rounded toward minus infinity. *)
Definition floorZ (x : double) : option Z :=
  match x with
  | S754_zero _ => Some 0
  | S754_finite s m e =>
      Some (if 0 <=? e then cond_Zopp s (Z.pos m) * 2 ^ e
            else cond_Zopp s (Z.pos m) / 2 ^ (- e))
  | _ => None
  end.

(** The integer part of a finite value, rounded toward zero. *)
Definition truncZ (x : double) : option Z :=
  match x with
  | S754_zero _ => Some 0
  | S754_finite s m e =>
      Some (if 0 <=? e then cond_Zopp s (Z.pos m) * 2 ^ e
            else Z.quot (cond_Zopp s (Z.pos m)) (2 ^ (- e)))
  | _ => None
  end.

(** [std::floor]: zeros, infinities and NaN are returned unchanged; a
    positive value below one gives [+0]. *)
Definition floor (x : double) : double :=
  match x with
  | S754_finite s m e =>
      if 0 <=? e then x
      else match floorZ x with
           | Some 0 => S754_zero s
           | Some n => binary_normalize prec emax n 0 s
           | None => x
           end
  | _ => x
  end.

(** [static_cast<int>]: truncation toward zero; the conversion is
    undefined when the truncated value is not representable (also for
    infinities and NaN). *)
Definition to_int (x : double) : option Z :=
  n <- truncZ x ;;
  if (Int.min_signed <=? n) && (n <=? Int.max_signed) then Some n else None.

(** [static_cast<int64_t>] *)
Definition to_long (x : double) : option Z :=
  n <- truncZ x ;;
  if (- 2 ^ 63 <=? n) && (n <? 2 ^ 63) then Some n else None.

(** The literals [0.0000000001] and [1e-8], correctly rounded. *)
Definition lit_1e_10 : double :=
  Eval vm_compute in div (of_int 1) (of_int 10000000000).
Definition lit_1e_8 : double :=
  Eval vm_compute in div (of_int 1) (of_int 100000000).

(** [FastMath.nextDown]: the largest [double] below [x]. *)
Definition nextDown (x : double) : double := SFpred prec emax x.

End Double.

(** Modelled from the spec: [Constants::JULIAN_DAY] of [utils/Constants.h],
    the number of seconds in a day, 86400, as a [double]. *)
Definition JULIAN_DAY : double := Double.of_int 86400.

(** ** [TimeComponents] *)

Record TimeComponents : Type := mkTime {
  hour : Z;
  minute : Z;
  second : double;
  minutesFromUTC : Z
}.

Module Time.

(** [TimeComponents(int hour, int minute, double second, int minutesFromUTC)] *)
Definition fromHMSU (hour minute : Z) (second : double) (minutesFromUTC : Z)
  : TimeComponents :=
  mkTime hour minute second minutesFromUTC.

(** [TimeComponents(int hour, int minute, double second)] *)
Definition fromHMS (hour minute : Z) (second : double) : TimeComponents :=
  fromHMSU hour minute second 0.

Definition H00 : TimeComponents := fromHMS 0 0 (Double.of_int 0).
Definition H12 : TimeComponents := fromHMS 12 0 (Double.of_int 0).

(** [TimeComponents(int secondInDayA, double secondInDayB, double leap,
    int minuteDuration)] and [fromSeconds]. *)
Definition fromSeconds (secondInDayA : Z) (secondInDayB leap : double)
    (minuteDuration : Z) : option TimeComponents :=
  carry <- Double.to_int (Double.floor secondInDayB) ;;
  let wholeSeconds := Int.add secondInDayA carry in
  let fractional := Double.sub secondInDayB (Double.of_int carry) in
  let hour := Int.div wholeSeconds 3600 in
  let wholeSeconds := Int.sub wholeSeconds (Int.mul 3600 hour) in
  let minute := Int.div wholeSeconds 60 in
  let wholeSeconds := Int.sub wholeSeconds (Int.mul 60 minute) in
  let naiveSecond :=
    Double.add (Double.of_int wholeSeconds) (Double.add leap fractional) in
  let second :=
    if Double.ltb naiveSecond (Double.of_int minuteDuration)
       || Double.isnan naiveSecond
    then naiveSecond
    else Double.sub (Double.of_int minuteDuration) Double.lit_1e_10 in
  Some (mkTime hour minute second 0).

(** The test [(Constants::JULIAN_DAY - secondInDayA) - secondInDayB > 0]. *)
Definition beforeDayEnd (secondInDayA : Z) (secondInDayB : double) : bool :=
  Double.ltb (Double.of_int 0)
    (Double.sub (Double.sub JULIAN_DAY (Double.of_int secondInDayA))
       secondInDayB).

(** [TimeComponents(int secondInDayA, double secondInDayB)] *)
Definition fromSecondsAB (secondInDayA : Z) (secondInDayB : double)
  : option TimeComponents :=
  fromSeconds
    (if beforeDayEnd secondInDayA secondInDayB then secondInDayA
     else Int.sub secondInDayA 1)
    secondInDayB
    (Double.of_int (if beforeDayEnd secondInDayA secondInDayB then 0 else 1))
    (if beforeDayEnd secondInDayA secondInDayB then 60 else 61).

(** [TimeComponents(double secondInDay)] *)
Definition fromSecondInDay (secondInDay : double) : option TimeComponents :=
  fromSecondsAB 0 secondInDay.

Definition getHour (t : TimeComponents) : Z := hour t.
Definition getMinute (t : TimeComponents) : Z := minute t.
Definition getSecond (t : TimeComponents) : double := second t.
Definition getMinutesFromUTC (t : TimeComponents) : Z := minutesFromUTC t.

Definition getSecondsInLocalDay (t : TimeComponents) : double :=
  Double.add
    (Double.add (second t)
       (Double.mul (Double.of_int 60) (Double.of_int (minute t))))
    (Double.mul (Double.of_int 3600) (Double.of_int (hour t))).

Definition getSecondsInUTCDay (t : TimeComponents) : double :=
  Double.add
    (Double.add (second t)
       (Double.mul (Double.of_int 60)
          (Double.of_int (Int.sub (minute t) (minutesFromUTC t)))))
    (Double.mul (Double.of_int 3600) (Double.of_int (hour t))).

(** [operator<] *)
Definition lt (t other : TimeComponents) : bool :=
  Double.ltb (getSecondsInUTCDay t) (getSecondsInUTCDay other).

(** [operator==] *)
Definition eqb (t other : TimeComponents) : bool :=
  (hour t =? hour other)
  && (minute t =? minute other)
  && Double.ltb (Double.fabs (Double.sub (second t) (second other)))
       Double.lit_1e_8
  && (minutesFromUTC t =? minutesFromUTC other).

Definition hashCode (t : TimeComponents) : option Z :=
  bits <- Double.to_long (second t) ;;
  Some (Int.xor
          (Int.xor (Int.shl (hour t) 16)
             (Int.shl (Int.sub (minute t) (minutesFromUTC t)) 8))
          (Long.to_int (Long.xor bits (Long.shr bits 32)))).

End Time.

(** ** [DateTimeComponents] *)

Record DateTimeComponents : Type := mkDateTime {
  date : DateComponents;
  time : TimeComponents
}.

Module DateTime.

Definition fromDateTime (date : DateComponents) (time : TimeComponents)
  : DateTimeComponents :=
  mkDateTime date time.

Definition fromYMDHMS (year month day hour minute : Z) (second : double)
  : DateTimeComponents :=
  mkDateTime (Date.fromYMD year month day) (Time.fromHMS hour minute second).

Definition fromYMD (year month day : Z) : DateTimeComponents :=
  mkDateTime (Date.fromYMD year month day) Time.H00.

(** [DateTimeComponents(const DateTimeComponents& reference, double offset)] *)
Definition fromReferenceOffset (reference : DateTimeComponents)
    (offset : double) : option DateTimeComponents :=
  day <- Date.getJ2000Day (date reference) ;;
  let seconds := Time.getSecondsInLocalDay (time reference) in
  let seconds := Double.add seconds offset in
  dayShift <- Double.to_int (Double.floor (Double.div seconds JULIAN_DAY)) ;;
  let seconds :=
    Double.sub seconds (Double.mul JULIAN_DAY (Double.of_int dayShift)) in
  let day := Int.add day dayShift in
  tmpTime <- Time.fromSecondInDay seconds ;;
  date <- Date.fromOffset day ;;
  Some (mkDateTime date
          (Time.fromHMSU (Time.getHour tmpTime) (Time.getMinute tmpTime)
             (Time.getSecond tmpTime)
             (Time.getMinutesFromUTC (time reference)))).

Definition offsetFrom (a dateTime : DateTimeComponents) : option double :=
  d1 <- Date.getJ2000Day (date a) ;;
  d2 <- Date.getJ2000Day (date dateTime) ;;
  let dateOffset := Int.sub d1 d2 in
  let timeOffset :=
    Double.sub (Time.getSecondsInUTCDay (time a))
      (Time.getSecondsInUTCDay (time dateTime)) in
  Some (Double.add (Double.mul JULIAN_DAY (Double.of_int dateOffset))
          timeOffset).

Definition getDate (a : DateTimeComponents) : DateComponents := date a.
Definition getTime (a : DateTimeComponents) : TimeComponents := time a.

(** [operator<] *)
Definition lt (a other : DateTimeComponents) : option bool :=
  if Date.eqb (date a) (date other)
  then Some (Time.lt (time a) (time other))
  else Date.lt (date a) (date other).

(** [operator==] *)
Definition eqb (a other : DateTimeComponents) : bool :=
  Date.eqb (date a) (date other) && Time.eqb (time a) (time other).

Definition hashCode (a : DateTimeComponents) : option Z :=
  h <- Time.hashCode (time a) ;;
  Some (Int.xor (Int.shl (Date.hashCode (date a)) 16) h).

End DateTime.

(** * Specification-side definitions

    Exact (unbounded) counterparts of the day-number formulas, validity of
    dates and week dates, and the classes of doubles the proofs use. *)

(** The closed forms of [getLastJ2000DayOfYear], in unbounded integers. *)
Definition lastDay (f : YearFactory) (y : Z) : Z :=
  match f with
  | PROLEPTIC_JULIAN_FACTORY => 365 * y + (y + 1) ÷ 4 - 730123
  | JULIAN_FACTORY => 365 * y + y ÷ 4 - 730122
  | GREGORIAN_FACTORY => 365 * y + y ÷ 4 - y ÷ 100 + y ÷ 400 - 730120
  end.

(** Number of days of year [y] in calendar [f]. *)
Definition yearLength (f : YearFactory) (y : Z) : Z :=
  if Year.isLeap f y then 366 else 365.

(** The month sequence both constructors select for year [y]. *)
Definition mdFactoryOf (f : YearFactory) (y : Z) : MonthDayFactory :=
  if Year.isLeap f y then LEAP_YEAR_FACTORY else COMMON_YEAR_FACTORY.

Definition daysInYear (md : MonthDayFactory) : Z :=
  match md with LEAP_YEAR_FACTORY => 366 | COMMON_YEAR_FACTORY => 365 end.

(** Number of days of month [m]; 0 for a number that is no month. *)
Definition monthLength (md : MonthDayFactory) (m : Z) : Z :=
  match m with
  | 1 | 3 | 5 | 7 | 8 | 10 | 12 => 31
  | 4 | 6 | 9 | 11 => 30
  | 2 => match md with LEAP_YEAR_FACTORY => 29 | COMMON_YEAR_FACTORY => 28 end
  | _ => 0
  end.

(** What it means for [y] to be the year of day [d] in calendar [f]. *)
Definition yearOf (f : YearFactory) (d y : Z) : Prop :=
  1 <= d - lastDay f (y - 1) <= daysInYear (mdFactoryOf f y).

(** The years each calendar is in force. *)
Definition regimeYear (f : YearFactory) (y : Z) : Prop :=
  match f with
  | PROLEPTIC_JULIAN_FACTORY => y <= 0
  | JULIAN_FACTORY => 1 <= y <= 1582
  | GREGORIAN_FACTORY => 1582 <= y
  end.

(** The [n] integers from [lo] on, to check a property on an interval. *)
Definition zrange (lo : Z) (n : nat) : list Z :=
  map (fun i => lo + Z.of_nat i) (seq 0 n).

(** Day-in-year to month and day: what [getMonth] and [getDay] must give. *)
Definition monthDayOk (md : MonthDayFactory) (n : Z) : bool :=
  let m := MonthDay.getMonth md n in
  (1 <=? m) && (m <=? 12)
  && match table_at (MonthDay.table md) m with
     | Some p => (1 <=? n - p) && (n - p <=? monthLength md m)
     | None => false
     end.

(** Month and day to day-in-year: what [getDayInYear] must give. *)
Definition dayInYearOk (md : MonthDayFactory) (m dd : Z) : bool :=
  implb (dd <=? monthLength md m)
    match table_at (MonthDay.table md) m with
    | Some p => (MonthDay.getMonth md (dd + p) =? m) && (dd + p <=? daysInYear md)
    | None => false
    end.

(** The test of [getJ2000Day] that keeps a day of 1582 in the Julian
    calendar: [(month < 10) || ((month < 11) && (day < 5))]. *)
Definition julianTest (m dd : Z) : bool :=
  (m <? 10) || ((m <? 11) && (dd <? 5)).

(** What [DateComponents(d)] computes: [t] is the date, [p] the table
    entry of its month. *)
Record offsetFacts (d : Z) (t : DateComponents) (p : Z) : Prop := {
  of_year : Year.getYear (Date.offsetFactory d) d = year t;
  of_regime : regimeYear (Date.offsetFactory d) (year t);
  of_bounds : -5877490 <= year t <= 5881610;
  of_yearOf : yearOf (Date.offsetFactory d) d (year t);
  of_month : 1 <= month t <= 12;
  of_table : table_at (MonthDay.table (mdFactoryOf (Date.offsetFactory d) (year t)))
               (month t) = Some p;
  of_day : 1 <= day t <= monthLength (mdFactoryOf (Date.offsetFactory d) (year t)) (month t);
  of_sum : d = lastDay (Date.offsetFactory d) (year t - 1) + p + day t;
  of_factory : Date.tripleFactory t = Date.offsetFactory d
}.

(** Lexicographic order on (year, month, day). *)
Definition tripleLeb (a b : DateComponents) : bool :=
  (year a <? year b)
  || ((year a =? year b)
      && ((month a <? month b)
          || ((month a =? month b) && (day a <=? day b)))).

(** The ten days 1582-10-05 .. 1582-10-14 that do not exist. *)
Definition inReformGap (t : DateComponents) : bool :=
  (year t =? 1582) && (month t =? 10) && (5 <=? day t) && (day t <=? 14).

(** A valid calendar triple: a month in 1..12, a day of that month in the
    calendar that applies to the triple, no day of the reform gap, and a
    date between [MIN_EPOCH] (-5877490-03-03) and [MAX_EPOCH]
    (5881610-07-11), the dates whose day-count fits in 32 bits. *)
Definition validDate (t : DateComponents) : bool :=
  let md := mdFactoryOf (Date.tripleFactory t) (year t) in
  (1 <=? month t) && (month t <=? 12)
  && (1 <=? day t) && (day t <=? monthLength md (month t))
  && negb (inReformGap t)
  && tripleLeb (mkDate (-5877490) 3 3) t
  && tripleLeb t (mkDate 5881610 7 11).

(** Years on which the closed form of a calendar is used. *)
Definition formulaYear (f : YearFactory) (y : Z) : Prop :=
  match f with
  | PROLEPTIC_JULIAN_FACTORY => y <= 0
  | _ => 1 <= y
  end.

(** The days in year 1582 that the reform gap would occupy. *)
Definition gapDayInYear (n : Z) : bool := (278 <=? n) && (n <=? 287).

(** The exact day number of a triple whose month has table entry [p]. *)
Definition dayNumber (t : DateComponents) (p : Z) : Z :=
  lastDay (Date.tripleFactory t) (year t - 1) + p + day t.

(** What [getJ2000Day] computes on a valid triple [t]. *)
Record tripleFacts (t : DateComponents) (p : Z) : Prop := {
  tf_table : table_at (MonthDay.table (mdFactoryOf (Date.tripleFactory t) (year t)))
               (month t) = Some p;
  tf_month : MonthDay.getMonth (mdFactoryOf (Date.tripleFactory t) (year t))
               (day t + p) = month t;
  tf_diy : 1 <= day t + p <= daysInYear (mdFactoryOf (Date.tripleFactory t) (year t));
  tf_bounds : -5877490 <= year t <= 5881610;
  tf_range : Int.in_range (dayNumber t p);
  tf_factory : Date.offsetFactory (dayNumber t p) = Date.tripleFactory t
}.

(** Exact day number of January 1st of a year. *)
Definition yearStart (y : Z) : Z :=
  lastDay (Date.tripleFactory (mkDate y 1 1)) (y - 1) + 1.

(** Exact day number of the Monday that starts ISO week 1 of a year. *)
Definition firstMonday (y : Z) : Z :=
  let yearFirst := yearStart y in
  let offsetToMonday := 4 - Z.rem (yearFirst + 2) 7 in
  yearFirst + offsetToMonday + (if offsetToMonday >? 3 then -7 else 0).

(** A valid week date that the 32-bit arithmetic can handle: a day of
    week in 1..7 and a week that starts on or after the first Monday of
    [wYear] and before the first Monday of [wYear + 1], where January 1st
    of [wYear] has a 32-bit day-count (the years from -5877489 to 5881610)
    and the day-count of the day plus 6, which [getDayOfWeek] computes,
    does not exceed [INT_MAX]. *)
Definition validWeekDate (wYear week dayOfWeek : Z) : bool :=
  (-5877489 <=? wYear) && (wYear <=? 5881610)
  && (1 <=? dayOfWeek) && (dayOfWeek <=? 7)
  && (1 <=? week)
  && (firstMonday wYear + 7 * week <=? firstMonday (wYear + 1))
  && (firstMonday wYear + 7 * week + dayOfWeek - 8 + 6 <=? Int.max_signed).

(** The week round trip at one week date, and at every valid week date of
    one week-year, as boolean tests. *)
Definition weekOk (wYear week dayOfWeek : Z) : bool :=
  match Date.createFromWeekComponents wYear week dayOfWeek with
  | Some t =>
      match Date.getCalendarWeek t, Date.getDayOfWeek t with
      | Some k, Some dow => (k =? week) && (dow =? dayOfWeek)
      | _, _ => false
      end
  | None => false
  end.

Definition weekYearOk (wYear : Z) : bool :=
  forallb
    (fun week =>
       forallb
         (fun dayOfWeek =>
            negb (validWeekDate wYear week dayOfWeek)
            || weekOk wYear week dayOfWeek)
         (zrange 1 7))
    (zrange 1 53).

(** [+0] or [-0]. *)
Definition is_zero (x : double) : bool :=
  match x with S754_zero _ => true | _ => false end.

(** Equality of doubles up to the sign of zero. *)
Definition feq (x y : double) : Prop :=
  x = y \/ (is_zero x = true /\ is_zero y = true).

(** The same value: equal under [==], or both NaN. *)
Definition same (x y : double) : bool :=
  (Double.isnan x && Double.isnan y) || Double.eqb x y.

(** The right-hand side of [offsetFrom], as a function of the date offset
    and the two times of day. *)
Definition offsetValue (dateOffset : Z) (ta tb : double) : double :=
  Double.add (Double.mul JULIAN_DAY (Double.of_int dateOffset)) (Double.sub ta tb).

(** The exponent of the canonical form of a value of magnitude [2^e]. *)
Definition fexp64 : Z -> Z := fexp Double.prec Double.emax.

(** Finite or infinite, with an exponent a [double] can have. *)
Definition good (x : double) : Prop :=
  match x with
  | S754_nan => False
  | S754_finite _ _ e => -1074 <= e
  | _ => True
  end.

(** Zero or finite. *)
Definition finite (x : double) : Prop :=
  match x with
  | S754_zero _ => True
  | S754_finite _ _ e => -1074 <= e
  | _ => False
  end.

(** The sign of a non-zero value. *)
Definition sign_of (x : double) : option bool :=
  match x with
  | S754_zero _ => None
  | S754_infinity s | S754_finite s _ _ => Some s
  | S754_nan => None
  end.

(** A mantissa and exponent in canonical position. *)
Definition canonical (q : positive) (g : Z) : Prop :=
  fexp64 (Z.pos (digits2_pos q) + g) = g /\ g <= 971.

(** The canonical form of a positive integer below [2^53]. *)
Definition intMantissa (n : positive) : positive :=
  Z.to_pos (Z.pos n * 2 ^ (53 - Z.pos (digits2_pos n))).

(** Its exponent. *)
Definition intExponent (n : positive) : Z := Z.pos (digits2_pos n) - 53.

(** The seconds field chosen by [fromSeconds] from [naiveSecond]. *)
Definition clampSecond (naiveSecond : double) (minuteDuration : Z) : double :=
  if Double.ltb naiveSecond (Double.of_int minuteDuration)
     || Double.isnan naiveSecond
  then naiveSecond
  else Double.sub (Double.of_int minuteDuration) Double.lit_1e_10.

(** The doubles 1.5, 0.5 and [1 - 2^-30]. *)
Definition one_and_a_half : double := S754_finite false 6755399441055744 (-52).
Definition one_half : double := S754_finite false 4503599627370496 (-53).
Definition just_below_one : double := S754_finite false 9007199246352384 (-53).

(** A second in the documented range, [0 <= second < 61]. *)
Definition secondInRange (x : double) : bool :=
  valid_binary Double.prec Double.emax x
  && negb (Double.ltb x (Double.of_int 0))
  && Double.ltb x (Double.of_int 61).

(** ** Definitions for the further properties *)

(** Number of days of calendar year [y]: the reform year 1582 has 355. *)
Definition yearDays (y : Z) : Z :=
  if y =? 1582 then 355
  else if Year.isLeap (Date.tripleFactory (mkDate y 1 1)) y then 366 else 365.

(** Zero or finite: neither an infinity nor NaN. *)
Definition isfinite (x : double) : bool :=
  match x with
  | S754_zero _ | S754_finite _ _ _ => true
  | _ => false
  end.

(** The rank of a double in the order of [<]: a class from [-2]
    (minus infinity) to [2] (plus infinity), then exponent and mantissa,
    negated for negative values. *)
Definition rank (x : double) : option (Z * Z * Z) :=
  match x with
  | S754_nan => None
  | S754_infinity true => Some (-2, 0, 0)
  | S754_infinity false => Some (2, 0, 0)
  | S754_zero _ => Some (0, 0, 0)
  | S754_finite true m e => Some (-1, - e, - Z.pos m)
  | S754_finite false m e => Some (1, e, Z.pos m)
  end.

(** Ranks compare lexicographically. *)
Definition rank_lt (p q : Z * Z * Z) : Prop :=
  let '(a, b, c) := p in
  let '(a', b', c') := q in
  a < a' \/ (a = a' /\ (b < b' \/ (b = b' /\ c < c'))).

(** A time of day whose fields are [int]s and whose second is a whole
    number. *)
Definition wholeTime (t : TimeComponents) (s : Z) : Prop :=
  Int.in_range (hour t) /\ Int.in_range (minute t)
  /\ Int.in_range (minutesFromUTC t) /\ Int.in_range s
  /\ second t = Double.of_int s.

(** Its number of seconds in the UTC day. *)
Definition utcSeconds (t : TimeComponents) (s : Z) : Z :=
  s + 60 * Int.sub (minute t) (minutesFromUTC t) + 3600 * hour t.

(** A time of day 00:00:00 .. 23:59:59 in UTC with a whole second. *)
Definition clockTime (t : TimeComponents) (s : Z) : Prop :=
  0 <= hour t <= 23 /\ 0 <= minute t <= 59 /\ 0 <= s <= 59
  /\ minutesFromUTC t = 0 /\ second t = Double.of_int s.

(** A local clock time 00:00:00 .. 23:59:59 with a whole second, under
    any offset from UTC. *)
Definition localClock (t : TimeComponents) (s : Z) : Prop :=
  0 <= hour t <= 23 /\ 0 <= minute t <= 59 /\ 0 <= s <= 59
  /\ second t = Double.of_int s.

(** Its number of seconds in the local day. *)
Definition localSeconds (t : TimeComponents) (s : Z) : Z :=
  s + 60 * minute t + 3600 * hour t.

(** * Proofs *)

(** ** Machine integers and the closed forms of the calendars *)

Lemma wrap_small z : Int.in_range z -> Int.wrap z = z.
Proof.
  unfold Int.in_range, Int.min_signed, Int.max_signed, Int.wrap. intros H.
  rewrite Z.mod_small; lia.
Qed.

Lemma wrap_range z : Int.in_range (Int.wrap z).
Proof.
  unfold Int.in_range, Int.min_signed, Int.max_signed, Int.wrap.
  pose proof (Z.mod_pos_bound (z + 2 ^ 31) (2 ^ 32)). lia.
Qed.

Lemma wrap_eqm z : exists k, Int.wrap z = z + k * 2 ^ 32.
Proof.
  unfold Int.wrap. exists (- ((z + 2 ^ 31) / 2 ^ 32)).
  pose proof (Z.div_mod (z + 2 ^ 31) (2 ^ 32)). lia.
Qed.

Lemma wrap_shift z k : Int.wrap (z + k * 2 ^ 32) = Int.wrap z.
Proof.
  unfold Int.wrap. replace (z + k * 2 ^ 32 + 2 ^ 31) with (z + 2 ^ 31 + k * 2 ^ 32) by ring.
  now rewrite Z.mod_add by lia.
Qed.

Lemma wrap_add_l a b : Int.wrap (Int.wrap a + b) = Int.wrap (a + b).
Proof.
  destruct (wrap_eqm a) as [k ->].
  replace (a + k * 2 ^ 32 + b) with (a + b + k * 2 ^ 32) by ring. apply wrap_shift.
Qed.

Lemma wrap_add_r a b : Int.wrap (a + Int.wrap b) = Int.wrap (a + b).
Proof. rewrite Z.add_comm, wrap_add_l. f_equal. ring. Qed.

Lemma wrap_sub_l a b : Int.wrap (Int.wrap a - b) = Int.wrap (a - b).
Proof. unfold Z.sub. apply wrap_add_l. Qed.

Lemma wrap_sub_r a b : Int.wrap (a - Int.wrap b) = Int.wrap (a - b).
Proof.
  destruct (wrap_eqm b) as [k ->].
  replace (a - (b + k * 2 ^ 32)) with (a - b + (- k) * 2 ^ 32) by ring. apply wrap_shift.
Qed.

Lemma long_wrap_small z : - 2 ^ 63 <= z < 2 ^ 63 -> Long.wrap z = z.
Proof. unfold Long.wrap. intros H. rewrite Z.mod_small; lia. Qed.

Ltac qr := Z.quot_rem_to_equations.

Lemma quot_range a b : Int.in_range a -> 1 <= b -> Int.in_range (a ÷ b).
Proof.
  unfold Int.in_range, Int.min_signed, Int.max_signed. intros Ha Hb.
  destruct (Z.le_gt_cases 0 a).
  - rewrite Z.quot_div_nonneg by lia. pose proof (Z.div_pos a b). 
    assert (a / b <= a) by (apply Z.div_le_upper_bound; nia). lia.
  - pose proof (Z.quot_opp_l a b ltac:(lia)). 
    assert (a ÷ b = - ((- a) ÷ b)) by lia. rewrite H1.
    rewrite Z.quot_div_nonneg by lia. pose proof (Z.div_pos (-a) b).
    assert (-a / b <= -a) by (apply Z.div_le_upper_bound; nia). lia.
Qed.

Lemma wrap_congr a b k : a = b + k * 2 ^ 32 -> Int.wrap a = Int.wrap b.
Proof. intros ->. apply wrap_shift. Qed.

Lemma wrap_congr_mod a b : (a - b) mod 2 ^ 32 = 0 -> Int.wrap a = Int.wrap b.
Proof.
  intros H. apply (wrap_congr a b ((a - b) / 2 ^ 32)).
  pose proof (Z.div_mod (a - b) (2 ^ 32)). lia.
Qed.

Ltac wrap_inner :=
  repeat match goal with
  | |- context [Int.wrap ?a] =>
      match a with
      | context [Int.wrap ?x] =>
          lazymatch x with
          | context [Int.wrap _] => fail
          | _ => let k := fresh "k" in destruct (wrap_eqm x) as [k ->]
          end
      end
  end.

Ltac wrap_solve := wrap_inner; apply wrap_congr_mod; Z.div_mod_to_equations; lia.

Ltac last_wrap_tac y :=
  intros Hy;
  assert (Int.in_range y) by (unfold Int.in_range; lia);
  assert (Int.in_range (y + 1)) by (unfold Int.in_range; lia);
  unfold lastDay,
      ProlepticJulianFactory.getLastJ2000DayOfYear,
      JulianFactory.getLastJ2000DayOfYear,
      GregorianFactory.getLastJ2000DayOfYear,
      Int.add, Int.sub, Int.mul, Int.div;
    rewrite ?(wrap_small (y + 1)) by auto;
    repeat (rewrite (wrap_small (_ ÷ _)) by (apply quot_range; auto; lia));
    wrap_solve.

Lemma last_wrap_P y :
  Int.min_signed < y < Int.max_signed ->
  ProlepticJulianFactory.getLastJ2000DayOfYear y
  = Int.wrap (lastDay PROLEPTIC_JULIAN_FACTORY y).
Proof. last_wrap_tac y. Qed.

Lemma last_wrap_J y :
  Int.min_signed < y < Int.max_signed ->
  JulianFactory.getLastJ2000DayOfYear y = Int.wrap (lastDay JULIAN_FACTORY y).
Proof. last_wrap_tac y. Qed.

Lemma last_wrap_G y :
  Int.min_signed < y < Int.max_signed ->
  GregorianFactory.getLastJ2000DayOfYear y
  = Int.wrap (lastDay GREGORIAN_FACTORY y).
Proof. last_wrap_tac y. Qed.

Lemma last_wrap f y :
  Int.min_signed < y < Int.max_signed ->
  Year.getLastJ2000DayOfYear f y = Int.wrap (lastDay f y).
Proof.
  destruct f; unfold Year.getLastJ2000DayOfYear;
    [apply last_wrap_P | apply last_wrap_J | apply last_wrap_G].
Qed.

(** The year formulas, in unbounded integers. *)
Lemma yearJ_correct d :
  -730122 < d ->
  let y := (4 * d + 2921948) ÷ 1461 in
  1 <= y /\ 1 <= d - lastDay JULIAN_FACTORY (y - 1) <= yearLength JULIAN_FACTORY y.
Proof.
  intros Hd y.
  assert (H : 1 <= y /\ 1461 * y <= 4 * d + 2921948 < 1461 * (y + 1))
    by (subst y; qr; lia).
  clearbody y. destruct H as [Hy H]. split; [exact Hy|].
  unfold lastDay, yearLength, Year.isLeap, JulianFactory.isLeap, Int.rem.
  destruct (Z.eqb_spec (Z.rem y 4) 0); qr; lia.
Qed.

Lemma yearP_correct d :
  d <= -730122 ->
  let y := - ((-4 * d - 2920488) ÷ 1461) in
  y <= 0 /\ 1 <= d - lastDay PROLEPTIC_JULIAN_FACTORY (y - 1) <= yearLength PROLEPTIC_JULIAN_FACTORY y.
Proof.
  intros Hd y.
  assert (H : y <= 0 /\ 1461 * (- y) <= -4 * d - 2920488 < 1461 * (- y + 1))
    by (subst y; qr; lia).
  clearbody y. destruct H as [Hy H]. split; [exact Hy|].
  unfold lastDay, yearLength, Year.isLeap, ProlepticJulianFactory.isLeap, Int.rem.
  replace (y - 1 + 1) with y by ring.
  destruct (Z.eqb_spec (Z.rem y 4) 0); qr; lia.
Qed.

Lemma quot_step z k :
  1 <= z -> 1 <= k -> z ÷ k - (z - 1) ÷ k = if Z.rem z k =? 0 then 1 else 0.
Proof.
  intros Hz Hk. destruct (Z.eqb_spec (Z.rem z k) 0); qr; nia.
Qed.

Lemma rem_400_100 z : Z.rem z 400 = 0 -> Z.rem z 100 = 0.
Proof. qr. lia. Qed.

Lemma rem_100_4 z : Z.rem z 100 = 0 -> Z.rem z 4 = 0.
Proof. qr. lia. Qed.

Lemma yearG_length z :
  1 <= z ->
  lastDay GREGORIAN_FACTORY z - lastDay GREGORIAN_FACTORY (z - 1)
  = yearLength GREGORIAN_FACTORY z.
Proof.
  intros Hz.
  pose proof (quot_step z 4 Hz ltac:(lia)) as H4.
  pose proof (quot_step z 100 Hz ltac:(lia)) as H100.
  pose proof (quot_step z 400 Hz ltac:(lia)) as H400.
  pose proof (rem_400_100 z). pose proof (rem_100_4 z).
  unfold lastDay, yearLength, Year.isLeap, GregorianFactory.isLeap, Int.rem.
  destruct (Z.eqb_spec (Z.rem z 4) 0); destruct (Z.eqb_spec (Z.rem z 400) 0);
    destruct (Z.eqb_spec (Z.rem z 100) 0); cbn [andb orb negb]; lia.
Qed.

Lemma yearG_correct d :
  -152384 <= d ->
  let y0 := (400 * d + 292194288) ÷ 146097 in
  let y := if d <=? lastDay GREGORIAN_FACTORY (y0 - 1) then y0 - 1 else y0 in
  1582 <= y /\ 1 <= d - lastDay GREGORIAN_FACTORY (y - 1) <= yearLength GREGORIAN_FACTORY y.
Proof.
  intros Hd y0 y.
  assert (H : 1582 <= y0 /\ 146097 * y0 <= 400 * d + 292194288 < 146097 * (y0 + 1))
    by (subst y0; qr; lia).
  clearbody y0. destruct H as [Hy H].
  assert (Hlo : lastDay GREGORIAN_FACTORY (y0 - 2) < d) by (unfold lastDay; qr; lia).
  assert (Hhi : d <= lastDay GREGORIAN_FACTORY y0) by (unfold lastDay; qr; lia).
  subst y. destruct (Z.leb_spec d (lastDay GREGORIAN_FACTORY (y0 - 1))).
  - replace (y0 - 1 - 1) with (y0 - 2) by ring.
    assert (1582 <= y0 - 1).
    { destruct (Z.eq_dec y0 1582); [subst; unfold lastDay in *; simpl in *; lia | lia]. }
    split; [lia|]. rewrite <- yearG_length by lia. replace (y0 - 1 - 1) with (y0 - 2) by ring. lia.
  - split; [lia|]. rewrite <- yearG_length by lia. lia.
Qed.

Lemma yearLength_days f y : yearLength f y = daysInYear (mdFactoryOf f y).
Proof. unfold yearLength, mdFactoryOf. now destruct (Year.isLeap f y). Qed.

Lemma getYear_exact_P d :
  Int.in_range d ->
  ProlepticJulianFactory.getYear d = - ((-4 * d - 2920488) ÷ 1461).
Proof.
  unfold Int.in_range, Int.min_signed, Int.max_signed. intros Hd.
  unfold ProlepticJulianFactory.getYear,
    Long.to_int, Long.neg, Long.div, Long.sub, Long.add, Long.mul.
  rewrite (long_wrap_small (-4 * d)) by lia.
  rewrite (long_wrap_small (-4 * d - 2920488)) by lia.
  rewrite (long_wrap_small (_ ÷ _)) by (qr; lia).
  rewrite long_wrap_small by (qr; lia).
  apply wrap_small. unfold Int.in_range, Int.min_signed, Int.max_signed. qr. lia.
Qed.

Lemma getYear_exact_J d :
  Int.in_range d ->
  JulianFactory.getYear d = (4 * d + 2921948) ÷ 1461.
Proof.
  unfold Int.in_range, Int.min_signed, Int.max_signed. intros Hd.
  unfold JulianFactory.getYear,
    Long.to_int, Long.neg, Long.div, Long.sub, Long.add, Long.mul.
  rewrite (long_wrap_small (4 * d)) by lia.
  rewrite (long_wrap_small (4 * d + 2921948)) by lia.
  rewrite (long_wrap_small (_ ÷ _)) by (qr; lia).
  apply wrap_small. unfold Int.in_range, Int.min_signed, Int.max_signed. qr. lia.
Qed.

Lemma getYear_exact_G d :
  Int.in_range d ->
  GregorianFactory.getYear d =
      let y0 := (400 * d + 292194288) ÷ 146097 in
      if d <=? Int.wrap (lastDay GREGORIAN_FACTORY (y0 - 1)) then y0 - 1 else y0.
Proof.
  unfold Int.in_range, Int.min_signed, Int.max_signed. intros Hd.
  unfold GregorianFactory.getYear,
    Long.to_int, Long.neg, Long.div, Long.sub, Long.add, Long.mul.
  rewrite (long_wrap_small (400 * d)) by lia.
  rewrite (long_wrap_small (400 * d + 292194288)) by lia.
  rewrite (long_wrap_small (_ ÷ _)) by (qr; lia).
  cbv zeta.
  set (y0 := (400 * d + 292194288) ÷ 146097).
  assert (-5877773 <= y0 <= 5881610) by (subst y0; qr; lia).
  clearbody y0.
  rewrite (wrap_small y0) by (unfold Int.in_range, Int.min_signed, Int.max_signed; lia).
  unfold Int.sub. 
  rewrite (wrap_small (y0 - 1)) by (unfold Int.in_range, Int.min_signed, Int.max_signed; lia).
  rewrite last_wrap_G by (unfold Int.min_signed, Int.max_signed; lia).
  reflexivity.
Qed.

Lemma getYear_correct d :
  Int.in_range d ->
  let f := Date.offsetFactory d in
  let y := Year.getYear f d in
  regimeYear f y /\ -5877490 <= y <= 5881610 /\ yearOf f d y.
Proof.
  intros Hd f y. subst y f. unfold Date.offsetFactory, yearOf.
  pose proof Hd as Hd'. unfold Int.in_range, Int.min_signed, Int.max_signed in Hd'.
  destruct (Z.ltb_spec d (-152384)); [destruct (Z.gtb_spec d (-730122))|];
    unfold Year.getYear.
  - rewrite getYear_exact_J by assumption.
    pose proof (yearJ_correct d ltac:(lia)) as Hc. cbv zeta in Hc.
    set (y := (4 * d + 2921948) ÷ 1461) in *.
    assert (-5877490 <= y <= 1582) by (subst y; qr; lia).
    rewrite <- yearLength_days. clearbody y. unfold regimeYear. lia.
  - rewrite getYear_exact_P by assumption.
    pose proof (yearP_correct d ltac:(lia)) as Hc. cbv zeta in Hc.
    set (y := - ((-4 * d - 2920488) ÷ 1461)) in *.
    assert (-5877490 <= y <= 5881610) by (subst y; qr; lia).
    rewrite <- yearLength_days. clearbody y. unfold regimeYear. lia.
  - rewrite getYear_exact_G by assumption.
    pose proof (yearG_correct d ltac:(lia)) as Hc. cbv zeta in Hc. cbv zeta.
    set (y0 := (400 * d + 292194288) ÷ 146097) in *.
    assert (1582 <= y0 <= 5881610) by (subst y0; qr; lia).
    assert (Int.in_range (lastDay GREGORIAN_FACTORY (y0 - 1))).
    { unfold lastDay, Int.in_range, Int.min_signed, Int.max_signed. clearbody y0. qr. lia. }
    rewrite wrap_small by assumption.
    rewrite <- yearLength_days. clearbody y0.
    destruct (d <=? lastDay GREGORIAN_FACTORY (y0 - 1)); unfold regimeYear; lia.
Qed.

(** ** Month and day tables *)

Lemma zrange_forallb (P : Z -> bool) lo n :
  forallb P (zrange lo n) = true ->
  forall z, lo <= z < lo + Z.of_nat n -> P z = true.
Proof.
  intros H z Hz. rewrite forallb_forall in H. apply H.
  unfold zrange. apply in_map_iff. exists (Z.to_nat (z - lo)). split.
  - lia.
  - apply in_seq. lia.
Qed.

Lemma getMonth_getDay md n :
  1 <= n <= daysInYear md ->
  exists p,
    let m := MonthDay.getMonth md n in
    1 <= m <= 12 /\ table_at (MonthDay.table md) m = Some p
    /\ 1 <= n - p <= monthLength md m.
Proof.
  intros Hn.
  assert (H : monthDayOk md n = true).
  { destruct md; simpl in Hn.
    - apply (zrange_forallb (monthDayOk LEAP_YEAR_FACTORY) 1 366); [vm_compute; reflexivity | lia].
    - apply (zrange_forallb (monthDayOk COMMON_YEAR_FACTORY) 1 365); [vm_compute; reflexivity | lia]. }
  unfold monthDayOk in H. cbv zeta in *.
  destruct (table_at (MonthDay.table md) (MonthDay.getMonth md n)) as [p|].
  - exists p. repeat (apply andb_prop in H; destruct H as [H ?]). 
    repeat split; try reflexivity; lia.
  - rewrite andb_false_r in H. discriminate.
Qed.

Lemma monthLength_le md m : monthLength md m <= 31.
Proof.
  unfold monthLength.
  repeat match goal with
         | |- context [match ?x with _ => _ end] => destruct x
         end; lia.
Qed.

Lemma getDayInYear_getMonth md m dd :
  1 <= m <= 12 -> 1 <= dd <= monthLength md m ->
  exists p, table_at (MonthDay.table md) m = Some p
    /\ MonthDay.getMonth md (dd + p) = m /\ 1 <= dd + p <= daysInYear md /\ 0 <= p.
Proof.
  intros Hm Hd.
  assert (H : forallb (fun m => forallb (dayInYearOk md m) (zrange 1 31)) (zrange 1 12) = true)
    by (destruct md; vm_compute; reflexivity).
  assert (Hdd : dd <= 31) by (pose proof (monthLength_le md m); lia).
  pose proof (zrange_forallb _ 1 12 H m ltac:(lia)) as H1. cbv beta in H1.
  pose proof (zrange_forallb _ 1 31 H1 dd ltac:(lia)) as H2.
  unfold dayInYearOk in H2.
  replace (dd <=? monthLength md m) with true in H2 by (symmetry; apply Z.leb_le; lia).
  simpl in H2.
  assert (H3: match table_at (MonthDay.table md) m with Some p => 0 <=? p | None => true end = true).
  { clear -Hm. assert (H : forallb (fun m => match table_at (MonthDay.table md) m with Some p => 0 <=? p | None => true end) (zrange 1 12) = true) by (destruct md; vm_compute; reflexivity).
    apply (zrange_forallb _ 1 12 H m). lia. }
  destruct (table_at (MonthDay.table md) m) as [p|]; [|discriminate].
  exists p. apply andb_prop in H2. destruct H2. repeat split; try lia.
Qed.

(** ** From a day-count to a date and back *)

Lemma julianTest_1582 n :
  1 <= n <= 365 ->
  let m := MonthDay.getMonth COMMON_YEAR_FACTORY n in
  forall p, table_at (MonthDay.table COMMON_YEAR_FACTORY) m = Some p ->
  julianTest m (n - p) = (n <=? 277).
Proof.
  intros Hn m p Hp. subst m.
  assert (H : forallb (fun n =>
     match table_at (MonthDay.table COMMON_YEAR_FACTORY) (MonthDay.getMonth COMMON_YEAR_FACTORY n) with
     | Some p => Bool.eqb (julianTest (MonthDay.getMonth COMMON_YEAR_FACTORY n) (n - p)) (n <=? 277)
     | None => true end) (zrange 1 365) = true) by (vm_compute; reflexivity).
  pose proof (zrange_forallb _ 1 365 H n ltac:(lia)) as H1. cbv beta in H1.
  rewrite Hp in H1. apply eqb_prop in H1. exact H1.
Qed.

Lemma isLeap_1582 f : Year.isLeap f 1582 = false.
Proof. destruct f; reflexivity. Qed.

Lemma tripleFactory_regime f y m dd :
  regimeYear f y ->
  (y = 1582 -> julianTest m dd = match f with JULIAN_FACTORY => true | _ => false end) ->
  Date.tripleFactory (mkDate y m dd) = f.
Proof.
  unfold regimeYear, Date.tripleFactory, julianTest. cbn [year month day].
  intros Hr H82.
  destruct (Z.ltb_spec y 1583), (Z.ltb_spec y 1), (Z.ltb_spec y 1582); cbn [orb];
    destruct f; try lia; try reflexivity;
    try (rewrite H82 by lia; reflexivity).
Qed.

Lemma fromOffset_facts d :
  Int.in_range d ->
  exists t p, Date.fromOffset d = Some t /\ offsetFacts d t p.
Proof.
  intros Hd.
  destruct (getYear_correct d Hd) as (Hr & Hb & Hy).
  unfold Date.fromOffset. cbv zeta.
  set (f := Date.offsetFactory d) in *.
  remember (Year.getYear f d) as y eqn:Ey.
  fold (mdFactoryOf f y).
  set (md := mdFactoryOf f y) in *.
  replace (Int.sub y 1) with (y - 1)
    by (unfold Int.sub; rewrite wrap_small; [reflexivity | unfold Int.in_range, Int.min_signed, Int.max_signed; lia]).
  rewrite last_wrap by (unfold Int.min_signed, Int.max_signed; lia).
  unfold yearOf in Hy. fold md in Hy.
  replace (Int.sub d (Int.wrap (lastDay f (y - 1)))) with (d - lastDay f (y - 1))
    by (unfold Int.sub; rewrite wrap_sub_r, wrap_small; [reflexivity | unfold Int.in_range, Int.min_signed, Int.max_signed; destruct md; simpl in Hy; lia]).
  set (n := d - lastDay f (y - 1)) in *.
  destruct (getMonth_getDay md n Hy) as (p & Hm & Hp & Hdd). cbv zeta in *.
  set (m := MonthDay.getMonth md n) in *.
  unfold MonthDay.getDay. rewrite Hp. cbn [option_map bind].
  pose proof (monthLength_le md m).
  unfold Int.sub. rewrite (wrap_small (n - p)) by (unfold Int.in_range, Int.min_signed, Int.max_signed; lia).
  exists (mkDate y m (n - p)), p. split; [reflexivity|].
  constructor; cbn [year month day]; fold f; fold md; auto; try lia.
  apply tripleFactory_regime; [exact Hr|].
  intros ->.
  assert (Hmd : md = COMMON_YEAR_FACTORY) by (subst md; unfold mdFactoryOf; now rewrite isLeap_1582).
  subst m. clearbody md. subst md.
  rewrite (julianTest_1582 n Hy p Hp).
  subst n. subst f. unfold Date.offsetFactory in *.
  destruct (Z.ltb_spec d (-152384)); [destruct (Z.gtb_spec d (-730122))|];
    unfold regimeYear in Hr; try lia.
  - apply Z.leb_le. unfold lastDay. simpl. lia.
  - apply Z.leb_gt. unfold lastDay. simpl. lia.
Qed.

Lemma getJ2000Day_exact t p :
  -5877490 <= year t <= 5881610 ->
  table_at (MonthDay.table (mdFactoryOf (Date.tripleFactory t) (year t))) (month t) = Some p ->
  Date.getJ2000Day t
  = Some (Int.wrap (lastDay (Date.tripleFactory t) (year t - 1) + p + day t)).
Proof.
  intros Hb Hp. unfold Date.getJ2000Day.
  fold (mdFactoryOf (Date.tripleFactory t) (year t)).
  unfold MonthDay.getDayInYear. rewrite Hp. cbn [option_map bind].
  unfold Int.sub. rewrite (wrap_small (year t - 1)) by (unfold Int.in_range, Int.min_signed, Int.max_signed; lia).
  rewrite last_wrap by (unfold Int.min_signed, Int.max_signed; lia).
  f_equal. unfold Int.add. wrap_solve.
Qed.

Theorem offset_roundtrip d :
  Int.in_range d -> (t <- Date.fromOffset d ;; Date.getJ2000Day t) = Some d.
Proof.
  intros Hd. destruct (fromOffset_facts d Hd) as (t & p & -> & F).
  cbn [bind]. destruct F as [_ _ Hb _ _ Hp _ Hs Hf].
  rewrite (getJ2000Day_exact t p Hb) by (rewrite Hf; exact Hp).
  rewrite Hf, <- Hs. now rewrite wrap_small.
Qed.

(** ** Valid dates *)

Lemma lastDay_mono f a b :
  formulaYear f (a + 1) -> formulaYear f (b + 1) -> a <= b ->
  lastDay f a <= lastDay f b.
Proof.
  destruct f; unfold formulaYear, lastDay; intros; qr; lia.
Qed.

Lemma lastDay_step f y :
  formulaYear f y -> formulaYear f (y + 1) ->
  lastDay f y = lastDay f (y - 1) + daysInYear (mdFactoryOf f y).
Proof.
  intros H1 H2. rewrite <- yearLength_days. destruct f; unfold formulaYear in *.
  - unfold lastDay, yearLength, Year.isLeap, ProlepticJulianFactory.isLeap, Int.rem.
    replace (y - 1 + 1) with y by ring.
    destruct (Z.eqb_spec (Z.rem y 4) 0); qr; lia.
  - unfold lastDay, yearLength, Year.isLeap, JulianFactory.isLeap, Int.rem.
    destruct (Z.eqb_spec (Z.rem y 4) 0); qr; lia.
  - pose proof (yearG_length y H1). lia.
Qed.

Lemma yearOf_unique f d y y' :
  formulaYear f y -> formulaYear f y' ->
  yearOf f d y -> yearOf f d y' -> y = y'.
Proof.
  assert (W : forall a b, formulaYear f a -> formulaYear f b ->
                          yearOf f d a -> yearOf f d b -> a < b -> False).
  { intros a b Ha Hb Ya Yb Hab. unfold yearOf in *.
    assert (formulaYear f (a + 1)) by (destruct f; unfold formulaYear in *; lia).
    pose proof (lastDay_step f a Ha H).
    assert (lastDay f a <= lastDay f (b - 1)).
    { apply lastDay_mono; try lia; destruct f; unfold formulaYear in *; try lia;
      replace (b - 1 + 1) with b by ring; lia. }
    lia. }
  intros Hy Hy' Y Y'.
  destruct (Z.lt_trichotomy y y') as [H|[H|H]]; [exfalso; eauto | assumption | exfalso; eauto].
Qed.

Lemma regime_formula f y : regimeYear f y -> formulaYear f y.
Proof. destruct f; unfold regimeYear, formulaYear; lia. Qed.

Lemma tripleFactory_cases t :
  let f := Date.tripleFactory t in
  regimeYear f (year t)
  /\ (year t = 1582 ->
      julianTest (month t) (day t)
      = match f with JULIAN_FACTORY => true | _ => false end).
Proof.
  unfold Date.tripleFactory, julianTest. cbv zeta.
  destruct (Z.ltb_spec (year t) 1583); [destruct (Z.ltb_spec (year t) 1)|].
  - unfold regimeYear. split; intros; lia.
  - destruct (Z.ltb_spec (year t) 1582); cbn [orb].
    + unfold regimeYear. split; intros; lia.
    + destruct ((month t <? 10) || (month t <? 11) && (day t <? 5)) eqn:E;
        unfold regimeYear; (split; [lia | reflexivity]).
  - unfold regimeYear. split; intros; lia.
Qed.

Lemma gap_1582 n :
  1 <= n <= 365 ->
  forall p,
    table_at (MonthDay.table COMMON_YEAR_FACTORY)
      (MonthDay.getMonth COMMON_YEAR_FACTORY n) = Some p ->
    inReformGap (mkDate 1582 (MonthDay.getMonth COMMON_YEAR_FACTORY n) (n - p))
    = gapDayInYear n.
Proof.
  intros Hn p Hp.
  assert (H : forallb (fun n =>
     match table_at (MonthDay.table COMMON_YEAR_FACTORY) (MonthDay.getMonth COMMON_YEAR_FACTORY n) with
     | Some p => Bool.eqb (inReformGap (mkDate 1582 (MonthDay.getMonth COMMON_YEAR_FACTORY n) (n - p))) (gapDayInYear n)
     | None => true end) (zrange 1 365) = true) by (vm_compute; reflexivity).
  pose proof (zrange_forallb _ 1 365 H n ltac:(lia)) as H1. cbv beta in H1.
  rewrite Hp in H1. apply eqb_prop in H1. exact H1.
Qed.

(** Lexicographic order on (month, day) against day-in-year. *)
Lemma monthDay_order md m dd p m0 dd0 p0 :
  1 <= m <= 12 -> 1 <= dd <= monthLength md m ->
  table_at (MonthDay.table md) m = Some p ->
  1 <= m0 <= 12 -> 1 <= dd0 <= monthLength md m0 ->
  table_at (MonthDay.table md) m0 = Some p0 ->
  ((m <? m0) || ((m =? m0) && (dd <=? dd0))) = (p + dd <=? p0 + dd0).
Proof.
  intros Hm Hd Hp Hm0 Hd0 Hp0.
  assert (C : forall x, 1 <= x <= 12 ->
     x = 1 \/ x = 2 \/ x = 3 \/ x = 4 \/ x = 5 \/ x = 6 \/ x = 7 \/ x = 8 \/ x = 9 \/ x = 10 \/ x = 11 \/ x = 12) by (intros; lia).
  destruct (C m Hm) as [?|[?|[?|[?|[?|[?|[?|[?|[?|[?|[?|?]]]]]]]]]]]; subst m;
  destruct (C m0 Hm0) as [?|[?|[?|[?|[?|[?|[?|[?|[?|[?|[?|?]]]]]]]]]]]; subst m0;
  destruct md; vm_compute in Hp, Hp0; injection Hp as <-; injection Hp0 as <-;
  cbn [monthLength] in Hd, Hd0;
  cbn [Z.ltb Z.eqb Z.compare Pos.compare Pos.compare_cont Pos.eqb orb andb];
  repeat match goal with
         | |- context [?a <=? ?b] => destruct (Z.leb_spec a b)
         end; try reflexivity; lia.
Qed.

Lemma validDate_unfold t :
  validDate t = true ->
  1 <= month t <= 12
  /\ 1 <= day t <= monthLength (mdFactoryOf (Date.tripleFactory t) (year t)) (month t)
  /\ inReformGap t = false
  /\ tripleLeb (mkDate (-5877490) 3 3) t = true
  /\ tripleLeb t (mkDate 5881610 7 11) = true.
Proof.
  unfold validDate. cbv zeta. intros H.
  repeat (apply andb_prop in H; destruct H as [H ?]).
  apply negb_true_iff in H2. repeat split; try assumption; lia.
Qed.

Lemma isLeap_max f : Year.isLeap f 5881610 = false.
Proof. destruct f; reflexivity. Qed.

Lemma isLeap_min f : Year.isLeap f (-5877490) = false.
Proof. destruct f; reflexivity. Qed.

Ltac eval_last H f k :=
  let v := eval vm_compute in (lastDay f k) in
  replace (lastDay f k) with v in H by (vm_compute; reflexivity).

Lemma daysInYear_le md : daysInYear md <= 366.
Proof. destruct md; simpl; lia. Qed.

Lemma validDate_facts t :
  validDate t = true -> exists p, tripleFacts t p.
Proof.
  intros V. destruct (validDate_unfold t V) as (Hm & Hd & Hgap & Hmin & Hmax).
  destruct (tripleFactory_cases t) as [Hr H82]. cbv zeta in *.
  set (f := Date.tripleFactory t) in *.
  set (md := mdFactoryOf f (year t)) in *.
  destruct (getDayInYear_getMonth md (month t) (day t) Hm Hd) as (p & Hp & Hgm & Hn & Hp0).
  assert (Hb : -5877490 <= year t <= 5881610).
  { unfold tripleLeb in Hmin, Hmax. cbn [year month day] in *.
    destruct (Z.ltb_spec (-5877490) (year t)), (Z.eqb_spec (-5877490) (year t)),
      (Z.ltb_spec (year t) 5881610), (Z.eqb_spec (year t) 5881610);
      cbn [orb andb] in *; try discriminate; lia. }
  (* Position of the day inside the extreme years. *)
  assert (Hhi : year t = 5881610 -> day t + p <= 192).
  { intros E. unfold tripleLeb in Hmax. cbn [year month day] in Hmax.
    rewrite E in Hmax. rewrite Z.ltb_irrefl, Z.eqb_refl in Hmax. cbn [orb andb] in Hmax.
    assert (Emd : md = COMMON_YEAR_FACTORY) by (subst md; unfold mdFactoryOf; rewrite E; now rewrite isLeap_max).
    clearbody md. subst md.
    rewrite (monthDay_order COMMON_YEAR_FACTORY (month t) (day t) p 7 11 181 Hm Hd Hp) in Hmax;
      [ apply Z.leb_le in Hmax; lia | lia | cbn; lia | reflexivity ]. }
  assert (Hlo : year t = -5877490 -> 62 <= day t + p).
  { intros E. unfold tripleLeb in Hmin. cbn [year month day] in Hmin.
    rewrite E in Hmin. rewrite Z.ltb_irrefl, Z.eqb_refl in Hmin. cbn [orb andb] in Hmin.
    assert (Emd : md = COMMON_YEAR_FACTORY) by (subst md; unfold mdFactoryOf; rewrite E; now rewrite isLeap_min).
    clearbody md. subst md.
    rewrite (monthDay_order COMMON_YEAR_FACTORY 3 3 59 (month t) (day t) p) in Hmin;
      [ apply Z.leb_le in Hmin; lia | lia | cbn; lia | reflexivity | assumption.. ]. }
  (* Position of the day inside year 1582. *)
  assert (H1582 : year t = 1582 ->
            (f = JULIAN_FACTORY /\ day t + p <= 277)
            \/ (f = GREGORIAN_FACTORY /\ 288 <= day t + p)).
  { intros E. specialize (H82 E).
    assert (Emd : md = COMMON_YEAR_FACTORY) by (subst md; unfold mdFactoryOf; rewrite E; now rewrite isLeap_1582).
    clearbody md. subst md.
    assert (Hn' : 1 <= day t + p <= 365) by exact Hn.
    pose proof (julianTest_1582 (day t + p) Hn') as HJ. cbv zeta in HJ.
    rewrite Hgm in HJ. specialize (HJ p Hp).
    replace (day t + p - p) with (day t) in HJ by ring.
    pose proof (gap_1582 (day t + p) Hn' p) as HG. rewrite Hgm in HG. specialize (HG Hp).
    replace (day t + p - p) with (day t) in HG by ring.
    assert (Et : mkDate 1582 (month t) (day t) = t) by (destruct t; cbn in *; now subst).
    rewrite Et, Hgap in HG. unfold gapDayInYear in HG.
    rewrite HJ in H82. clearbody f. unfold regimeYear in Hr.
    destruct f; try lia.
    - left. split; [reflexivity|]. apply Z.leb_le. exact H82.
    - right. split; [reflexivity|]. apply Z.leb_gt in H82.
      destruct (Z.leb_spec 278 (day t + p)), (Z.leb_spec (day t + p) 287); cbn in HG; try discriminate; lia. }
  exists p.
  assert (Ee : dayNumber t p = lastDay f (year t - 1) + p + day t) by reflexivity.
  set (e := dayNumber t p) in *. clearbody e.
  assert (Hstep : formulaYear f (year t + 1) ->
                  e <= lastDay f (year t)).
  { intros Hf. 
    rewrite (lastDay_step f (year t)) by (auto using regime_formula). fold md. lia. }
  assert (Hlow : lastDay f (year t - 1) < e) by lia.
  assert (Hrange : Int.in_range (e) /\ Date.offsetFactory (e) = f).
  { unfold Int.in_range, Int.min_signed, Int.max_signed, Date.offsetFactory.
    clearbody f. destruct f; unfold regimeYear in Hr.
    - (* proleptic Julian *)
      assert (e <= -730122).
      { destruct (Z.eq_dec (year t) 0) as [E|E].
        - rewrite E in Ee. eval_last Ee PROLEPTIC_JULIAN_FACTORY (0 - 1).
          pose proof (daysInYear_le md). lia.
        - specialize (Hstep ltac:(unfold formulaYear; lia)).
          pose proof (lastDay_mono PROLEPTIC_JULIAN_FACTORY (year t) (-1)
                        ltac:(unfold formulaYear; lia) ltac:(unfold formulaYear; lia) ltac:(lia)).
          eval_last H PROLEPTIC_JULIAN_FACTORY (-1). lia. }
      assert (- 2 ^ 31 <= e).
      { destruct (Z.eq_dec (year t) (-5877490)) as [E|E].
        - specialize (Hlo E). rewrite E in Ee.
          eval_last Ee PROLEPTIC_JULIAN_FACTORY (-5877490 - 1). lia.
        - pose proof (lastDay_mono PROLEPTIC_JULIAN_FACTORY (-5877490) (year t - 1)
                        ltac:(unfold formulaYear; lia) ltac:(unfold formulaYear; lia) ltac:(lia)).
          eval_last H0 PROLEPTIC_JULIAN_FACTORY (-5877490). lia. }
      split; [lia|].
      destruct (Z.ltb_spec (e) (-152384)); [|lia].
      destruct (Z.gtb_spec (e) (-730122)); [lia|reflexivity].
    - (* Julian *)
      assert (-730122 < e).
      { pose proof (lastDay_mono JULIAN_FACTORY 0 (year t - 1)
                        ltac:(unfold formulaYear; lia) ltac:(unfold formulaYear; lia) ltac:(lia)).
        eval_last H JULIAN_FACTORY 0. lia. }
      assert (e < -152384).
      { destruct (Z.eq_dec (year t) 1582) as [E|E].
        - destruct (H1582 E) as [[_ ?]|[? _]]; [|discriminate].
          rewrite E in Ee. eval_last Ee JULIAN_FACTORY (1582 - 1). lia.
        - specialize (Hstep ltac:(unfold formulaYear; lia)).
          pose proof (lastDay_mono JULIAN_FACTORY (year t) 1581
                        ltac:(unfold formulaYear; lia) ltac:(unfold formulaYear; lia) ltac:(lia)).
          eval_last H0 JULIAN_FACTORY 1581. lia. }
      split; [lia|].
      destruct (Z.ltb_spec (e) (-152384)); [|lia].
      destruct (Z.gtb_spec (e) (-730122)); [reflexivity|lia].
    - (* Gregorian *)
      assert (-152384 <= e).
      { destruct (Z.eq_dec (year t) 1582) as [E|E].
        - destruct (H1582 E) as [[? _]|[_ ?]]; [discriminate|].
          rewrite E in Ee. eval_last Ee GREGORIAN_FACTORY (1582 - 1). lia.
        - pose proof (lastDay_mono GREGORIAN_FACTORY 1582 (year t - 1)
                        ltac:(unfold formulaYear; lia) ltac:(unfold formulaYear; lia) ltac:(lia)).
          eval_last H GREGORIAN_FACTORY 1582. lia. }
      assert (e <= 2 ^ 31 - 1).
      { destruct (Z.eq_dec (year t) 5881610) as [E|E].
        - specialize (Hhi E). rewrite E in Ee.
          eval_last Ee GREGORIAN_FACTORY (5881610 - 1). lia.
        - specialize (Hstep ltac:(unfold formulaYear; lia)).
          pose proof (lastDay_mono GREGORIAN_FACTORY (year t) 5881609
                        ltac:(unfold formulaYear; lia) ltac:(unfold formulaYear; lia) ltac:(lia)).
          eval_last H0 GREGORIAN_FACTORY 5881609. lia. }
      split; [lia|].
      destruct (Z.ltb_spec (e) (-152384)); [lia|reflexivity]. }
  destruct Hrange as [R1 R2]. rewrite Ee in R1, R2. constructor; assumption.
Qed.

(** ** From a date to its day-count and back *)

Lemma getJ2000Day_valid t p :
  tripleFacts t p -> Date.getJ2000Day t = Some (dayNumber t p).
Proof.
  intros [Hp _ _ Hb Hr _].
  rewrite (getJ2000Day_exact t p Hb Hp). fold (dayNumber t p).
  now rewrite wrap_small.
Qed.

Lemma lex_antisym m dd m' dd' :
  (m <? m') || ((m =? m') && (dd <=? dd')) = true ->
  (m' <? m) || ((m' =? m) && (dd' <=? dd)) = true ->
  m = m' /\ dd = dd'.
Proof.
  destruct (Z.ltb_spec m m'), (Z.ltb_spec m' m), (Z.eqb_spec m m'), (Z.eqb_spec m' m),
    (Z.leb_spec dd dd'), (Z.leb_spec dd' dd); cbn; intros; try discriminate; lia.
Qed.

Theorem triple_roundtrip t :
  validDate t = true -> (d <- Date.getJ2000Day t ;; Date.fromOffset d) = Some t.
Proof.
  intros V. destruct (validDate_unfold t V) as (Hm & Hd & _).
  destruct (validDate_facts t V) as [p F].
  rewrite (getJ2000Day_valid t p F). cbn [bind].
  destruct F as [Hp Hgm Hn Hb Hr Hf].
  destruct (fromOffset_facts _ Hr) as (t' & p' & -> & F').
  destruct F' as [_ Hr' Hb' Hy' Hm' Hp' Hd' Hs' _].
  rewrite Hf in *.
  set (f := Date.tripleFactory t) in *.
  assert (Ey : year t' = year t).
  { destruct (tripleFactory_cases t) as [Hreg _]. cbv zeta in Hreg. fold f in Hreg.
    apply (yearOf_unique f (dayNumber t p)); auto using regime_formula.
    unfold yearOf, dayNumber. fold f. lia. }
  rewrite Ey in *.
  set (md := mdFactoryOf f (year t)) in *.
  unfold dayNumber in Hs'. fold f in Hs'.
  assert (E : p + day t = p' + day t') by lia.
  destruct (lex_antisym (month t) (day t) (month t') (day t')) as [E1 E2].
  - rewrite (monthDay_order md _ _ p _ _ p'); auto. apply Z.leb_le. lia.
  - rewrite (monthDay_order md _ _ p' _ _ p); auto. apply Z.leb_le. lia.
  - f_equal. destruct t, t'; cbn in *; congruence.
Qed.

Lemma getJ2000Day_inj a b d :
  validDate a = true -> validDate b = true ->
  Date.getJ2000Day a = Some d -> Date.getJ2000Day b = Some d -> a = b.
Proof.
  intros Va Vb Ha Hb.
  pose proof (triple_roundtrip a Va) as Ra. pose proof (triple_roundtrip b Vb) as Rb.
  rewrite Ha in Ra. rewrite Hb in Rb. cbn [bind] in *. congruence.
Qed.

(** ** Years and their first days *)

Lemma tripleFactory_jan1 y :
  Date.tripleFactory (mkDate y 1 1)
  = if y <? 1 then PROLEPTIC_JULIAN_FACTORY
    else if y <? 1583 then JULIAN_FACTORY else GREGORIAN_FACTORY.
Proof.
  unfold Date.tripleFactory. cbn [year month day].
  destruct (Z.ltb_spec y 1583), (Z.ltb_spec y 1); try reflexivity; try lia.
  now rewrite orb_true_r.
Qed.

Lemma yearStart_step y :
  (y <> 1582 /\ 365 <= yearStart (y + 1) - yearStart y <= 366)
  \/ (y = 1582 /\ yearStart (y + 1) - yearStart y = 355).
Proof.
  unfold yearStart. rewrite !tripleFactory_jan1.
  replace (y + 1 - 1) with y by ring.
  destruct (Z.ltb_spec (y + 1) 1).
  - destruct (Z.ltb_spec y 1); [|lia]. left. split; [lia|].
    rewrite (lastDay_step PROLEPTIC_JULIAN_FACTORY y) by (unfold formulaYear; lia).
    destruct (mdFactoryOf PROLEPTIC_JULIAN_FACTORY y); cbn [daysInYear]; lia.
  - destruct (Z.ltb_spec y 1).
    + assert (y = 0) by lia. subst y. left. vm_compute. repeat split; congruence.
    + destruct (Z.ltb_spec (y + 1) 1583).
      * destruct (Z.ltb_spec y 1583); [|lia]. left. split; [lia|].
        rewrite (lastDay_step JULIAN_FACTORY y) by (unfold formulaYear; lia).
        destruct (mdFactoryOf JULIAN_FACTORY y); cbn [daysInYear]; lia.
      * destruct (Z.ltb_spec y 1583).
        -- assert (y = 1582) by lia. subst y. right. vm_compute. split; congruence.
        -- left. split; [lia|].
           rewrite (lastDay_step GREGORIAN_FACTORY y) by (unfold formulaYear; lia).
           destruct (mdFactoryOf GREGORIAN_FACTORY y); cbn [daysInYear]; lia.
Qed.

Lemma yearStart_lt y : yearStart y + 355 <= yearStart (y + 1).
Proof. destruct (yearStart_step y) as [[_ ?]|[_ ?]]; lia. Qed.

Lemma yearStart_mono a b : a <= b -> yearStart a <= yearStart b.
Proof.
  intros H. replace b with (a + Z.of_nat (Z.to_nat (b - a))) by lia.
  induction (Z.to_nat (b - a)) as [|n IH].
  - rewrite Z.add_0_r. lia.
  - pose proof (yearStart_lt (a + Z.of_nat n)).
    replace (a + Z.of_nat (S n)) with (a + Z.of_nat n + 1) by lia. lia.
Qed.

(** The year of a day is the one whose January 1st precedes it last. *)
Lemma yearOf_yearStart f d y :
  Date.offsetFactory d = f -> regimeYear f y -> yearOf f d y ->
  yearStart y <= d < yearStart (y + 1).
Proof.
  intros Hf Hr Hy. unfold yearOf in Hy. unfold yearStart.
  rewrite !tripleFactory_jan1. replace (y + 1 - 1) with y by ring.
  unfold Date.offsetFactory in Hf.
  pose proof (daysInYear_le (mdFactoryOf f y)) as Hle.
  destruct f; unfold regimeYear in Hr.
  - (* proleptic Julian *)
    destruct (Z.ltb_spec y 1); [|lia]. split; [lia|].
    destruct (Z.ltb_spec (y + 1) 1).
    + rewrite (lastDay_step PROLEPTIC_JULIAN_FACTORY y) by (unfold formulaYear; lia). lia.
    + assert (y = 0) by lia. subst y.
      destruct (Z.ltb_spec (0 + 1) 1583); [|lia].
      eval_last Hy PROLEPTIC_JULIAN_FACTORY (0 - 1).
      replace (lastDay JULIAN_FACTORY 0) with (-730122) by (vm_compute; reflexivity). lia.
  - (* Julian *)
    destruct (Z.ltb_spec y 1); [lia|]. destruct (Z.ltb_spec y 1583); [|lia].
    split; [lia|].
    destruct (Z.ltb_spec (y + 1) 1); [lia|].
    destruct (Z.ltb_spec (y + 1) 1583).
    + rewrite (lastDay_step JULIAN_FACTORY y) by (unfold formulaYear; lia). lia.
    + assert (y = 1582) by lia. subst y.
      destruct (Z.ltb_spec d (-152384)); [|discriminate].
      replace (lastDay GREGORIAN_FACTORY 1582) with (-152307) by (vm_compute; reflexivity). lia.
  - (* Gregorian *)
    destruct (Z.ltb_spec d (-152384)); [destruct (d >? -730122); discriminate|].
    destruct (Z.ltb_spec y 1); [lia|].
    destruct (Z.ltb_spec (y + 1) 1); [lia|].
    destruct (Z.ltb_spec (y + 1) 1583); [lia|].
    rewrite (lastDay_step GREGORIAN_FACTORY y) by (unfold formulaYear; lia).
    split; [|lia].
    destruct (Z.ltb_spec y 1583); [|lia].
    assert (y = 1582) by lia. subst y.
    replace (lastDay JULIAN_FACTORY (1582 - 1)) with (-152662) by (vm_compute; reflexivity). lia.
Qed.

(** ** ISO weeks *)

Lemma firstMonday_near y :
  yearStart y - 3 <= firstMonday y <= yearStart y + 3.
Proof.
  unfold firstMonday. cbv zeta. generalize (yearStart y). intros s.
  destruct (Z.gtb_spec (4 - Z.rem (s + 2) 7) 3); qr; lia.
Qed.

Lemma firstMonday_monday y : (firstMonday y - 2) mod 7 = 0.
Proof.
  unfold firstMonday. cbv zeta. generalize (yearStart y). intros s.
  destruct (Z.gtb_spec (4 - Z.rem (s + 2) 7) 3); qr; Z.div_mod_to_equations; lia.
Qed.

Lemma validDate_jan1 y :
  -5877489 <= y <= 5881610 -> validDate (mkDate y 1 1) = true.
Proof.
  intros H. unfold validDate, inReformGap, tripleLeb. cbn [year month day].
  cbv zeta.
  replace (monthLength _ 1) with 31 by (destruct (mdFactoryOf _ _); reflexivity).
  replace (-5877490 <? y) with true by (symmetry; apply Z.ltb_lt; lia).
  destruct (Z.ltb_spec y 5881610).
  - cbn. now rewrite andb_false_r.
  - replace y with 5881610 by lia. reflexivity.
Qed.

Lemma getJ2000Day_jan1 y :
  -5877489 <= y <= 5881610 ->
  Date.getJ2000Day (mkDate y 1 1) = Some (yearStart y)
  /\ Int.in_range (yearStart y).
Proof.
  intros H. destruct (validDate_facts _ (validDate_jan1 y H)) as [p F].
  pose proof (getJ2000Day_valid _ _ F) as E. destruct F as [Hp _ _ _ Hr _].
  assert (p = 0).
  { cbn [year month day] in Hp. destruct (mdFactoryOf _ y); vm_compute in Hp; congruence. }
  subst p. unfold dayNumber in *. cbn [year month day] in *.
  replace (lastDay (Date.tripleFactory (mkDate y 1 1)) (y - 1) + 0 + 1) with (yearStart y) in *
    by (unfold yearStart; ring).
  auto.
Qed.

Lemma yearStart_bounds y :
  -5877489 <= y <= 5881610 ->
  -2147483648 + 300 <= yearStart y <= 2147483647 - 191.
Proof.
  intros H.
  pose proof (yearStart_mono (-5877489) y ltac:(lia)) as H1.
  pose proof (yearStart_mono y 5881610 ltac:(lia)) as H2.
  replace (yearStart (-5877489)) with (-2147483344) in H1 by (vm_compute; reflexivity).
  replace (yearStart 5881610) with 2147483456 in H2 by (vm_compute; reflexivity).
  lia.
Qed.

Ltac int_small :=
  unfold Int.in_range, Int.min_signed, Int.max_signed; try qr; lia.

Lemma getFirstWeekMonday_exact y :
  -5877489 <= y <= 5881610 ->
  Date.getFirstWeekMonday y = Some (firstMonday y).
Proof.
  intros H. unfold Date.getFirstWeekMonday, Date.fromYMD.
  destruct (getJ2000Day_jan1 y H) as [-> _]. cbn [bind].
  pose proof (yearStart_bounds y H) as B.
  unfold firstMonday. cbv zeta. generalize dependent (yearStart y). intros s B.
  unfold Int.add, Int.sub, Int.rem.
  rewrite (wrap_small (s + 2)) by int_small.
  rewrite (wrap_small (4 - _)) by int_small.
  rewrite (wrap_small (s + _)) by int_small.
  rewrite wrap_small; [reflexivity|].
  destruct (4 - Z.rem (s + 2) 7 >? 3); int_small.
Qed.

Lemma validWeekDate_unfold w k dow :
  validWeekDate w k dow = true ->
  -5877489 <= w <= 5881610 /\ 1 <= dow <= 7 /\ 1 <= k
  /\ firstMonday w + 7 * k <= firstMonday (w + 1)
  /\ firstMonday w + 7 * k + dow - 8 + 6 <= Int.max_signed.
Proof.
  unfold validWeekDate. intros H.
  repeat (apply andb_prop in H; destruct H as [H ?]). lia.
Qed.

Lemma fromOffset_year d :
  Int.in_range d ->
  exists t, Date.fromOffset d = Some t /\ Date.getJ2000Day t = Some d
            /\ yearStart (year t) <= d < yearStart (year t + 1).
Proof.
  intros Hd. destruct (fromOffset_facts d Hd) as (t & p & E & F).
  exists t. split; [exact E|]. split.
  - pose proof (offset_roundtrip d Hd) as R. rewrite E in R. exact R.
  - destruct F. eapply yearOf_yearStart; eauto.
Qed.

Lemma week_of_day y d w k dow :
  -5877488 <= w <= 5881609 -> 1 <= dow <= 7 -> 1 <= k ->
  firstMonday w + 7 * k <= firstMonday (w + 1) ->
  d = firstMonday w + 7 * k + dow - 8 ->
  yearStart y <= d < yearStart (y + 1) ->
  (y = w \/ y = w + 1 /\ d < firstMonday (w + 1) \/ y = w - 1 /\ firstMonday (w - 1) + 364 <= firstMonday w).
Proof.
  intros Hw Hdow Hk Hlen Hd Hy.
  pose proof (firstMonday_near w) as N0.
  pose proof (firstMonday_near (w + 1)) as N1.
  pose proof (firstMonday_near (w - 1)) as Np.
  pose proof (firstMonday_monday w) as M0.
  pose proof (firstMonday_monday (w - 1)) as Mp.
  destruct (Z_lt_le_dec y (w - 1)) as [Hlt|Hge].
  { pose proof (yearStart_mono (y + 1) (w - 1) ltac:(lia)).
    pose proof (yearStart_lt (w - 1)). replace (w - 1 + 1) with w in * by ring. lia. }
  destruct (Z_lt_le_dec (w + 1) y) as [Hgt|Hle].
  { pose proof (yearStart_mono (w + 2) y ltac:(lia)).
    pose proof (yearStart_lt (w + 1)). replace (w + 1 + 1) with (w + 2) in * by ring. lia. }
  assert (C : y = w - 1 \/ y = w \/ y = w + 1) by lia.
  destruct C as [ -> | [ -> | -> ] ].
  - right. right. split; [reflexivity|].
    replace (w - 1 + 1) with w in * by ring.
    destruct (yearStart_step (w - 1)) as [[_ S]|[E S]]; replace (w - 1 + 1) with w in * by ring.
    + Z.div_mod_to_equations. lia.
    + assert (w = 1583) by lia. subst w. exfalso.
      replace (firstMonday 1583) with (yearStart 1583 + 2) in * by (vm_compute; reflexivity). lia.
  - left. reflexivity.
  - right. left. split; [reflexivity|]. lia.
Qed.

Lemma yearStart_step_bounds y :
  355 <= yearStart (y + 1) - yearStart y <= 366.
Proof. destruct (yearStart_step y) as [[_ ?]|[_ ?]]; lia. Qed.

Lemma getDayOfWeek_exact t d :
  Date.getJ2000Day t = Some d -> -2147483648 <= d <= 2147483647 - 6 ->
  Date.getDayOfWeek t = Some ((d - 2) mod 7 + 1).
Proof.
  intros E B. unfold Date.getDayOfWeek. rewrite E. cbn [bind]. f_equal.
  unfold Int.add, Int.rem. rewrite (wrap_small (d + 6)) by int_small.
  destruct (Z.ltb_spec (Z.rem (d + 6) 7) 1).
  - rewrite wrap_small by int_small. qr. Z.div_mod_to_equations. lia.
  - qr. Z.div_mod_to_equations. lia.
Qed.

Lemma Int_add_small a b : Int.in_range (a + b) -> Int.add a b = a + b.
Proof. apply wrap_small. Qed.

Lemma Int_sub_small a b : Int.in_range (a - b) -> Int.sub a b = a - b.
Proof. apply wrap_small. Qed.

Lemma Int_div_small a b : Int.in_range (a ÷ b) -> Int.div a b = a ÷ b.
Proof. apply wrap_small. Qed.

Ltac int_step :=
  match goal with
  | |- context [Int.add ?a ?b] => rewrite (Int_add_small a b) by int_small
  | |- context [Int.sub ?a ?b] => rewrite (Int_sub_small a b) by int_small
  | |- context [Int.div ?a ?b] => rewrite (Int_div_small a b) by int_small
  end.

Lemma getCalendarWeek_exact t d w k dow :
  Date.getJ2000Day t = Some d ->
  -5877488 <= w <= 5881609 -> 1 <= dow <= 7 -> 1 <= k ->
  firstMonday w + 7 * k <= firstMonday (w + 1) ->
  d = firstMonday w + 7 * k + dow - 8 ->
  yearStart (year t) <= d < yearStart (year t + 1) ->
  Date.getCalendarWeek t = Some k.
Proof.
  intros E Hw Hdow Hk Hlen Hd Hy.
  pose proof (week_of_day (year t) d w k dow Hw Hdow Hk Hlen Hd Hy) as C.
  pose proof (firstMonday_near w) as N0.
  pose proof (firstMonday_near (w + 1)) as N1.
  pose proof (firstMonday_near (w - 1)) as Np.
  pose proof (yearStart_bounds w ltac:(lia)) as B0.
  pose proof (yearStart_bounds (w + 1) ltac:(lia)) as B1.
  pose proof (yearStart_bounds (w - 1) ltac:(lia)) as Bp.
  pose proof (yearStart_step_bounds w) as S0.
  pose proof (yearStart_step_bounds (w - 1)) as Sp.
  replace (w - 1 + 1) with w in Sp by ring.
  pose proof (getFirstWeekMonday_exact w ltac:(lia)) as F0.
  pose proof (getFirstWeekMonday_exact (w + 1) ltac:(lia)) as F1.
  pose proof (getFirstWeekMonday_exact (w - 1) ltac:(lia)) as Fp.
  assert (Hq : (7 * k + dow - 8) ÷ 7 = k - 1) by (qr; lia).
  assert (Hfin : forall x, x = 7 * k + dow - 8 -> Int.add 1 (Int.div x 7) = k).
  { intros x ->. unfold Int.div. rewrite Hq. clear Hq.
    rewrite wrap_small by int_small. rewrite Int_add_small by int_small. ring. }
  assert (Hfin' : forall x, x = 7 * k + dow - 8 -> 1 + x ÷ 7 = k).
  { intros x ->. rewrite Hq. ring. }
  clear Hq.
  unfold Date.getCalendarWeek. rewrite E.
  destruct C as [Ey | [[Ey Hlt] | [Ey Hlong]]]; rewrite Ey in *.
  - rewrite F0. cbn [bind]. repeat int_step.
    replace (d - firstMonday w <? 0) with false by (symmetry; apply Z.ltb_ge; lia).
    destruct (Z.gtb_spec (d - firstMonday w) 363).
    + rewrite F1. cbn [bind]. repeat int_step.
      replace (d - firstMonday w >=? firstMonday (w + 1) - firstMonday w) with false
        by (symmetry; rewrite Z.geb_leb; apply Z.leb_gt; lia).
      cbn [bind]. f_equal. first [apply Hfin | apply Hfin']; lia.
    + cbn [bind]. f_equal. first [apply Hfin | apply Hfin']; lia.
  - rewrite F1. cbn [bind]. repeat int_step.
    replace (d - firstMonday (w + 1) <? 0) with true by (symmetry; apply Z.ltb_lt; lia).
    replace (w + 1 - 1) with w by ring. rewrite F0. cbn [bind]. repeat int_step.
    f_equal. first [apply Hfin | apply Hfin']; lia.
  - rewrite Fp. cbn [bind]. repeat int_step.
    replace (d - firstMonday (w - 1) <? 0) with false by (symmetry; apply Z.ltb_ge; lia).
    replace (d - firstMonday (w - 1) >? 363) with true by (symmetry; apply Z.gtb_lt; lia).
    replace (w - 1 + 1) with w by ring. rewrite F0. cbn [bind]. repeat int_step.
    replace (d - firstMonday (w - 1) >=? firstMonday w - firstMonday (w - 1)) with true
      by (symmetry; rewrite Z.geb_leb; apply Z.leb_le; lia).
    cbn [bind]. repeat int_step. f_equal. first [apply Hfin | apply Hfin']; lia.
Qed.

Lemma week_roundtrip_inner w k dow :
  -5877488 <= w <= 5881609 -> 1 <= dow <= 7 -> 1 <= k ->
  firstMonday w + 7 * k <= firstMonday (w + 1) ->
  exists t, Date.createFromWeekComponents w k dow = Some t
            /\ Date.getCalendarWeek t = Some k
            /\ Date.getDayOfWeek t = Some dow.
Proof.
  intros Hw Hdow Hk Hlen.
  pose proof (firstMonday_near w) as N0.
  pose proof (firstMonday_near (w + 1)) as N1.
  pose proof (yearStart_bounds w ltac:(lia)) as B0.
  pose proof (yearStart_bounds (w + 1) ltac:(lia)) as B1.
  pose proof (yearStart_step_bounds w) as S0.
  unfold Date.createFromWeekComponents.
  rewrite (getFirstWeekMonday_exact w) by lia. cbn [bind].
  destruct (fromOffset_year (firstMonday w) ltac:(int_small)) as (t0 & -> & E0 & _).
  cbn [bind]. unfold Date.fromEpochOffset. rewrite E0. cbn [bind].
  set (d := firstMonday w + 7 * k + dow - 8).
  assert (Ed : Int.add (firstMonday w) (Int.sub (Int.add (Int.mul 7 k) dow) 8) = d).
  { transitivity (Int.wrap d).
    - unfold Int.add, Int.sub, Int.mul, d. wrap_solve.
    - apply wrap_small. subst d. int_small. }
  rewrite Ed.
  destruct (fromOffset_year d ltac:(subst d; int_small)) as (t & -> & E & Hy).
  exists t. split; [reflexivity|]. split.
  - apply (getCalendarWeek_exact t d w k dow); auto; lia.
  - rewrite (getDayOfWeek_exact t d E) by (subst d; lia). f_equal.
    pose proof (firstMonday_monday w). subst d. Z.div_mod_to_equations. lia.
Qed.

(** The two week-years at the ends of the 32-bit range, by evaluation. *)
Lemma weekYearOk_first : weekYearOk (-5877489) = true.
Proof. vm_compute. reflexivity. Qed.

Lemma weekYearOk_last : weekYearOk 5881610 = true.
Proof. vm_compute. reflexivity. Qed.

Lemma weekYearOk_spec w k dow :
  weekYearOk w = true -> validWeekDate w k dow = true ->
  exists t, Date.createFromWeekComponents w k dow = Some t
            /\ Date.getCalendarWeek t = Some k
            /\ Date.getDayOfWeek t = Some dow.
Proof.
  intros Hall V.
  destruct (validWeekDate_unfold w k dow V) as (Hw & Hdow & Hk & Hlen & _).
  pose proof (firstMonday_near w) as N0.
  pose proof (firstMonday_near (w + 1)) as N1.
  pose proof (yearStart_step_bounds w) as S0.
  unfold weekYearOk in Hall.
  pose proof (zrange_forallb _ 1 53 Hall k ltac:(lia)) as Hk'. cbv beta in Hk'.
  pose proof (zrange_forallb _ 1 7 Hk' dow ltac:(lia)) as Hd. cbv beta in Hd.
  rewrite V in Hd. cbn [negb orb] in Hd. unfold weekOk in Hd.
  destruct (Date.createFromWeekComponents w k dow) as [t|]; [|discriminate].
  exists t. split; [reflexivity|].
  destruct (Date.getCalendarWeek t) as [k'|]; [|discriminate].
  destruct (Date.getDayOfWeek t) as [dow'|]; [|discriminate].
  apply andb_prop in Hd. destruct Hd as [H1 H2].
  apply Z.eqb_eq in H1, H2. subst. split; reflexivity.
Qed.

Theorem week_roundtrip w k dow :
  validWeekDate w k dow = true ->
  exists t, Date.createFromWeekComponents w k dow = Some t
            /\ Date.getCalendarWeek t = Some k
            /\ Date.getDayOfWeek t = Some dow.
Proof.
  intros V. destruct (validWeekDate_unfold w k dow V) as (Hw & Hdow & Hk & Hlen & _).
  destruct (Z.eq_dec w (-5877489)) as [->|Hlo].
  { exact (weekYearOk_spec _ k dow weekYearOk_first V). }
  destruct (Z.eq_dec w 5881610) as [->|Hhi].
  { exact (weekYearOk_spec _ k dow weekYearOk_last V). }
  apply week_roundtrip_inner; auto; lia.
Qed.

(** ** Doubles: negation *)

Lemma feq_refl x : feq x x.
Proof. now left. Qed.

Lemma feq_sym x y : feq x y -> feq y x.
Proof. intros [->|[? ?]]; [now left | now right]. Qed.

Lemma feq_trans x y z : feq x y -> feq y z -> feq x z.
Proof.
  intros [->|[? ?]] [->|[? ?]]; try (now left); right; split; assumption.
Qed.

Lemma compare_cont_refl m : Pos.compare_cont Eq m m = Eq.
Proof. apply Pos.compare_cont_refl. Qed.

Lemma feq_same x y : feq x y -> same x y = true.
Proof.
  unfold same, Double.eqb, SFeqb.
  intros [->|[Hx Hy]].
  - destruct y as [s|s| |s m e]; simpl; try reflexivity.
    + now destruct s.
    + destruct s; rewrite Z.compare_refl, Pos.compare_cont_refl; reflexivity.
  - destruct x, y; try discriminate. reflexivity.
Qed.

Lemma binary_round_aux_opp s m e l :
  binary_round_aux Double.prec Double.emax (negb s) m e l
  = SFopp (binary_round_aux Double.prec Double.emax s m e l).
Proof.
  unfold binary_round_aux.
  destruct (shr_fexp _ _ m e l) as [mrs e'].
  destruct (shr_fexp _ _ _ e' loc_Exact) as [mrs' e''].
  destruct (shr_m mrs'); try reflexivity.
  destruct (e'' <=? Double.emax - Double.prec)%Z; reflexivity.
Qed.

Lemma binary_round_opp s m e :
  binary_round Double.prec Double.emax (negb s) m e
  = SFopp (binary_round Double.prec Double.emax s m e).
Proof.
  unfold binary_round. destruct (shl_align _ _ _) as [mz ez].
  apply binary_round_aux_opp.
Qed.

Lemma binary_normalize_opp m e :
  feq (binary_normalize Double.prec Double.emax (- m) e false)
      (SFopp (binary_normalize Double.prec Double.emax m e false)).
Proof.
  destruct m as [|p|p]; simpl.
  - right. split; reflexivity.
  - left. apply (binary_round_opp false).
  - left. rewrite <- (binary_round_opp true). reflexivity.
Qed.

Lemma of_int_opp n : feq (Double.of_int (- n)) (Double.opp (Double.of_int n)).
Proof. apply binary_normalize_opp. Qed.

Lemma feq_opp x y : feq x y -> feq (SFopp x) (SFopp y).
Proof.
  intros [->|[Hx Hy]]; [now left|]. right. destruct x, y; try discriminate. split; reflexivity.
Qed.

Lemma sub_antisym x y : feq (Double.sub y x) (Double.opp (Double.sub x y)).
Proof.
  unfold Double.sub, Double.opp.
  destruct x as [sx|sx| |sx mx ex], y as [sy|sy| |sy my ey];
    try (destruct sx, sy; simpl; first [now left | right; split; reflexivity]);
    try (destruct sx; simpl; first [now left | right; split; reflexivity]);
    try (destruct sy; simpl; first [now left | right; split; reflexivity]);
    try (simpl; now left).
  unfold SFsub. rewrite Z.min_comm.
  set (a := cond_Zopp sx _). set (b := cond_Zopp sy _).
  replace (b - a) with (- (a - b)) by ring.
  apply binary_normalize_opp.
Qed.

Lemma cond_Zopp_negb s m : cond_Zopp (negb s) m = - cond_Zopp s m.
Proof. destruct s; simpl; lia. Qed.

Lemma add_opp x y :
  feq (Double.add (Double.opp x) (Double.opp y)) (Double.opp (Double.add x y)).
Proof.
  unfold Double.add, Double.opp.
  destruct x as [sx|sx| |sx mx ex], y as [sy|sy| |sy my ey];
    try (destruct sx, sy; simpl; first [now left | right; split; reflexivity]);
    try (destruct sx; simpl; first [now left | right; split; reflexivity]);
    try (destruct sy; simpl; first [now left | right; split; reflexivity]);
    try (simpl; now left).
  change (SFopp (S754_finite sx mx ex)) with (S754_finite (negb sx) mx ex).
  change (SFopp (S754_finite sy my ey)) with (S754_finite (negb sy) my ey).
  unfold SFadd. rewrite !cond_Zopp_negb.
  set (a := cond_Zopp sx _). set (b := cond_Zopp sy _).
  replace (- a + - b) with (- (a + b)) by ring.
  apply binary_normalize_opp.
Qed.

Lemma add_feq x x' y y' :
  feq x x' -> feq y y' -> feq (Double.add x y) (Double.add x' y').
Proof.
  intros [->|[Hx Hx']] [->|[Hy Hy']]; try (now left).
  - destruct y, y'; try discriminate.
    destruct x' as [sx|sx| |sx mx ex]; simpl; try (now left).
    destruct sx, s, s0; simpl; first [now left | right; split; reflexivity].
  - destruct x, x'; try discriminate.
    destruct y' as [sy|sy| |sy my ey]; simpl; try (now left).
    destruct sy, s, s0; simpl; first [now left | right; split; reflexivity].
  - destruct x, x', y, y'; try discriminate.
    destruct s, s0, s1, s2; simpl; first [now left | right; split; reflexivity].
Qed.

Lemma mul_finite_feq c x x' :
  (exists m e, c = S754_finite false m e) ->
  feq x x' -> feq (Double.mul c x) (Double.mul c x').
Proof.
  intros (m & e & ->) [->|[Hx Hx']]; [now left|].
  destruct x, x'; try discriminate. right. split; reflexivity.
Qed.

Lemma mul_finite_opp c x :
  (exists m e, c = S754_finite false m e) ->
  Double.mul c (Double.opp x) = Double.opp (Double.mul c x).
Proof.
  intros (m & e & ->). unfold Double.mul, Double.opp.
  destruct x as [s|s| |s mx ex]; simpl; try reflexivity.
  apply binary_round_aux_opp.
Qed.

Lemma JULIAN_DAY_finite : exists m e, JULIAN_DAY = S754_finite false m e.
Proof. eexists _, _. vm_compute. reflexivity. Qed.

Lemma offsetValue_antisym n ta tb :
  feq (offsetValue n ta tb) (Double.opp (offsetValue (- n) tb ta)).
Proof.
  unfold offsetValue.
  eapply feq_trans; [| apply add_opp].
  apply add_feq.
  - rewrite <- mul_finite_opp by apply JULIAN_DAY_finite.
    apply mul_finite_feq; [apply JULIAN_DAY_finite|].
    replace n with (- - n) at 1 by ring. apply of_int_opp.
  - apply sub_antisym.
Qed.

Lemma wrap_opp n :
  Int.wrap n <> Int.min_signed -> Int.wrap (- n) = - Int.wrap n.
Proof.
  unfold Int.wrap, Int.min_signed. intros H.
  Z.div_mod_to_equations. lia.
Qed.

Theorem offsetFrom_antisym a b da db :
  Date.getJ2000Day (date a) = Some da ->
  Date.getJ2000Day (date b) = Some db ->
  Int.sub da db <> Int.min_signed ->
  exists x y, DateTime.offsetFrom a b = Some x
              /\ DateTime.offsetFrom b a = Some y
              /\ same x (Double.opp y) = true.
Proof.
  intros Ha Hb Hn. unfold DateTime.offsetFrom. rewrite Ha, Hb. cbn [bind].
  eexists _, _. split; [reflexivity|]. split; [reflexivity|].
  apply feq_same. fold (offsetValue (Int.sub da db) (Time.getSecondsInUTCDay (time a)) (Time.getSecondsInUTCDay (time b))).
  fold (offsetValue (Int.sub db da) (Time.getSecondsInUTCDay (time b)) (Time.getSecondsInUTCDay (time a))).
  replace (Int.sub db da) with (- Int.sub da db).
  - apply offsetValue_antisym.
  - unfold Int.sub in *. rewrite <- wrap_opp by assumption. f_equal. ring.
Qed.

(** ** Doubles: mantissas and shifts *)

(** Shifting a mantissa left. *)
Lemma pos_iter_xO m d : Z.pos (Pos.iter xO m d) = Z.pos m * 2 ^ Z.pos d.
Proof.
  induction d as [|d IH] using Pos.peano_ind.
  - simpl. lia.
  - rewrite Pos.iter_succ, Pos2Z.inj_succ, Z.pow_succ_r by lia.
    rewrite Pos2Z.inj_xO, IH. ring.
Qed.

(** The number of binary digits of a mantissa. *)
Lemma digits2_pos_bounds p :
  2 ^ (Z.pos (digits2_pos p) - 1) <= Z.pos p < 2 ^ Z.pos (digits2_pos p).
Proof.
  induction p as [p IH|p IH|]; cbn [digits2_pos].
  - rewrite Pos2Z.inj_succ. replace (Z.succ (Z.pos (digits2_pos p)) - 1) with (Z.succ (Z.pos (digits2_pos p) - 1)) by lia.
    rewrite !Z.pow_succ_r by lia. lia.
  - rewrite Pos2Z.inj_succ. replace (Z.succ (Z.pos (digits2_pos p)) - 1) with (Z.succ (Z.pos (digits2_pos p) - 1)) by lia.
    rewrite !Z.pow_succ_r by lia. lia.
  - simpl. lia.
Qed.

Lemma digits2_pos_unique p d :
  2 ^ (d - 1) <= Z.pos p < 2 ^ d -> Z.pos (digits2_pos p) = d.
Proof.
  intros H. pose proof (digits2_pos_bounds p) as B.
  set (d' := Z.pos (digits2_pos p)) in *.
  assert (0 < d') by (subst d'; lia).
  assert (0 < d).
  { destruct (Z_lt_le_dec 0 d); [assumption|].
    rewrite (Z.pow_neg_r 2 (d - 1)) in H by lia.
    assert (2 ^ d <= 1) by (destruct (Z.eq_dec d 0); [subst; simpl; lia | rewrite Z.pow_neg_r; lia]).
    lia. }
  destruct (Z.lt_trichotomy d' d) as [L|[E|G]]; [exfalso|assumption|exfalso].
  - assert (2 ^ d' <= 2 ^ (d - 1)) by (apply Z.pow_le_mono_r; lia). lia.
  - assert (2 ^ d <= 2 ^ (d' - 1)) by (apply Z.pow_le_mono_r; lia). lia.
Qed.

(** Iterating with [iter_pos]. *)
Lemma iter_pos_nat {A : Type} (f : A -> A) n x :
  iter_pos f n x = Nat.iter (Pos.to_nat n) f x.
Proof.
  revert x. induction n as [n IH|n IH|]; intros x; cbn [iter_pos].
  - rewrite !IH, Pos2Nat.inj_xI.
    replace (S (2 * Pos.to_nat n))%nat with (Pos.to_nat n + (Pos.to_nat n + 1))%nat by lia.
    rewrite !Nat.iter_add. reflexivity.
  - rewrite !IH, Pos2Nat.inj_xO.
    replace (2 * Pos.to_nat n)%nat with (Pos.to_nat n + Pos.to_nat n)%nat by lia.
    rewrite Nat.iter_add. reflexivity.
  - reflexivity.
Qed.

Lemma shr_1_m mrs : 0 <= shr_m mrs -> shr_m (shr_1 mrs) = shr_m mrs / 2.
Proof.
  destruct mrs as [m r s]. cbn [shr_m]. intros H.
  destruct m as [|[p|p|]|p]; cbn [shr_1 shr_m]; try lia; try reflexivity.
  - rewrite Pos2Z.inj_xI. Z.div_mod_to_equations. lia.
  - rewrite Pos2Z.inj_xO. Z.div_mod_to_equations. lia.
Qed.

Lemma shr_m_iter_nat n mrs :
  0 <= shr_m mrs ->
  shr_m (Nat.iter n shr_1 mrs) = shr_m mrs / 2 ^ Z.of_nat n.
Proof.
  intros H0. induction n as [|n IH].
  - simpl. now rewrite Z.div_1_r.
  - rewrite Nat.iter_succ, shr_1_m.
    + rewrite IH, Nat2Z.inj_succ, Z.pow_succ_r by lia.
      rewrite Z.div_div by lia. f_equal. ring.
    + rewrite IH. apply Z.div_pos; lia.
Qed.

Lemma shr_m_iter n mrs :
  0 <= shr_m mrs ->
  shr_m (iter_pos shr_1 n mrs) = shr_m mrs / 2 ^ Z.pos n.
Proof.
  intros H. rewrite iter_pos_nat, shr_m_iter_nat by assumption.
  now rewrite positive_nat_Z.
Qed.

(** A shift that only drops zero bits is exact. *)
Lemma shr_1_exact m :
  0 <= m -> shr_1 (Build_shr_record (2 * m) false false)
            = Build_shr_record m false false.
Proof.
  intros H. destruct m as [|p|p]; try lia; reflexivity.
Qed.

Lemma shr_iter_exact_nat n m :
  0 <= m ->
  Nat.iter n shr_1 (Build_shr_record (m * 2 ^ Z.of_nat n) false false)
  = Build_shr_record m false false.
Proof.
  intros H. revert m H. induction n as [|n IH]; intros m H.
  - simpl. f_equal. lia.
  - rewrite Nat.iter_succ_r.
    replace (m * 2 ^ Z.of_nat (S n)) with (2 * (m * 2 ^ Z.of_nat n))
      by (rewrite Nat2Z.inj_succ, Z.pow_succ_r by lia; ring).
    rewrite shr_1_exact by (apply Z.mul_nonneg_nonneg; lia).
    apply IH, H.
Qed.

Lemma shr_iter_exact n m :
  0 <= m ->
  iter_pos shr_1 n (Build_shr_record (m * 2 ^ Z.pos n) false false)
  = Build_shr_record m false false.
Proof.
  intros H. rewrite iter_pos_nat. rewrite <- (positive_nat_Z n).
  now apply shr_iter_exact_nat.
Qed.

(** ** Doubles: rounding a non-zero value *)

Lemma fexp64_eq e : fexp64 e = Z.max (e - 53) (-1074).
Proof. reflexivity. Qed.

Lemma shr_m_of_loc m l : shr_m (shr_record_of_loc m l) = m.
Proof. destruct l as [|[]]; reflexivity. Qed.

Lemma shr_fexp_pos m e l :
  0 < m -> -1074 <= e ->
  0 < shr_m (fst (shr_fexp Double.prec Double.emax m e l))
  /\ -1074 <= snd (shr_fexp Double.prec Double.emax m e l).
Proof.
  intros Hm He. unfold shr_fexp, shr. fold fexp64.
  destruct (fexp64 (Zdigits2 m + e) - e) as [|j|j] eqn:Ej; cbn [fst snd];
    rewrite ?shr_m_of_loc; try (split; lia).
  rewrite shr_m_iter by (rewrite shr_m_of_loc; lia).
  rewrite shr_m_of_loc. split; [|lia].
  rewrite fexp64_eq in Ej.
  destruct m as [|p|p]; try lia. cbn [Zdigits2] in Ej.
  pose proof (digits2_pos_bounds p) as B.
  assert (Ed : Z.pos j = Z.pos (digits2_pos p) - 53) by lia.
  assert (2 ^ Z.pos j <= 2 ^ (Z.pos (digits2_pos p) - 1)) by (apply Z.pow_le_mono_r; lia).
  assert (0 < 2 ^ Z.pos j) by (apply Z.pow_pos_nonneg; lia).
  apply Z.div_str_pos. lia.
Qed.

Lemma round_nearest_even_ge m l : m <= round_nearest_even m l.
Proof. destruct l as [|[]]; cbn; try lia. destruct (Z.even m); lia. Qed.

Lemma binary_round_aux_good s m e l :
  0 < m -> -1074 <= e ->
  good (binary_round_aux Double.prec Double.emax s m e l)
  /\ sign_of (binary_round_aux Double.prec Double.emax s m e l) = Some s.
Proof.
  intros Hm He. unfold binary_round_aux.
  pose proof (shr_fexp_pos m e l Hm He) as [H1 H2].
  destruct (shr_fexp Double.prec Double.emax m e l) as [mrs' e']. cbn [fst snd] in *.
  pose proof (round_nearest_even_ge (shr_m mrs') (loc_of_shr_record mrs')) as Hr.
  pose proof (shr_fexp_pos (round_nearest_even (shr_m mrs') (loc_of_shr_record mrs')) e' loc_Exact ltac:(lia) H2) as [H3 H4].
  destruct (shr_fexp Double.prec Double.emax _ e' loc_Exact) as [mrs'' e'']. cbn [fst snd] in *.
  destruct (shr_m mrs'') as [|p|p]; try lia.
  destruct (e'' <=? Double.emax - Double.prec); cbn; auto.
Qed.

Lemma shl_align_spec m e e' :
  let r := shl_align m e e' in
  snd r = Z.min e e' /\ Z.pos (fst r) = Z.pos m * 2 ^ (e - snd r).
Proof.
  unfold shl_align. destruct (e' - e) as [|d|d] eqn:E; cbn [fst snd].
  - split; [lia|]. replace (e - e) with 0 by ring. lia.
  - split; [lia|]. replace (e - e) with 0 by ring. lia.
  - split; [lia|]. rewrite pos_iter_xO. f_equal. f_equal. lia.
Qed.

Lemma binary_round_good s p e :
  -1074 <= e ->
  good (binary_round Double.prec Double.emax s p e)
  /\ sign_of (binary_round Double.prec Double.emax s p e) = Some s.
Proof.
  intros He. unfold binary_round. fold fexp64.
  pose proof (shl_align_spec p e (fexp64 (Z.pos (digits2_pos p) + e))) as [S1 S2].
  cbv zeta in *.
  destruct (shl_align p e _) as [mz ez]. cbn [fst snd] in *.
  apply binary_round_aux_good; [lia|]. rewrite S1, fexp64_eq. lia.
Qed.

Lemma binary_normalize_good m e :
  -1074 <= e ->
  good (binary_normalize Double.prec Double.emax m e false)
  /\ sign_of (binary_normalize Double.prec Double.emax m e false)
     = match m with Z0 => None | Z.pos _ => Some false | Z.neg _ => Some true end.
Proof.
  intros He. destruct m; cbn [binary_normalize].
  - split; cbn; auto.
  - now apply binary_round_good.
  - now apply binary_round_good.
Qed.

(** ** Doubles: representable values *)

Lemma shr_fexp_canonical q g :
  canonical q g ->
  shr_fexp Double.prec Double.emax (Z.pos q) g loc_Exact
  = (Build_shr_record (Z.pos q) false false, g).
Proof.
  intros [C _]. unfold shr_fexp. cbn [Zdigits2]. fold fexp64. rewrite C, Z.sub_diag.
  reflexivity.
Qed.

Lemma binary_round_aux_canonical s q g :
  canonical q g ->
  binary_round_aux Double.prec Double.emax s (Z.pos q) g loc_Exact
  = S754_finite s q g.
Proof.
  intros C. unfold binary_round_aux.
  rewrite (shr_fexp_canonical q g C). cbn [shr_m loc_of_shr_record round_nearest_even].
  rewrite (shr_fexp_canonical q g C). cbn [shr_m].
  destruct C as [_ C]. replace (g <=? Double.emax - Double.prec) with true; [reflexivity|].
  symmetry. apply Z.leb_le. exact C.
Qed.

Lemma digits2_pos_scale p q k :
  0 <= k -> Z.pos q = Z.pos p * 2 ^ k ->
  Z.pos (digits2_pos q) = Z.pos (digits2_pos p) + k.
Proof.
  intros Hk E. apply digits2_pos_unique. rewrite E.
  pose proof (digits2_pos_bounds p) as B.
  replace (Z.pos (digits2_pos p) + k - 1) with (Z.pos (digits2_pos p) - 1 + k) by ring.
  rewrite !Z.pow_add_r by lia.
  assert (0 < 2 ^ k) by (apply Z.pow_pos_nonneg; lia). nia.
Qed.

(** Rounding a value that is representable returns its canonical form. *)
Lemma binary_round_exact s p e q g :
  canonical q g ->
  (g <= e /\ Z.pos q = Z.pos p * 2 ^ (e - g))
  \/ (e < g /\ Z.pos p = Z.pos q * 2 ^ (g - e)) ->
  binary_round Double.prec Double.emax s p e = S754_finite s q g.
Proof.
  intros C H. pose proof C as [C1 C2].
  assert (D : Z.pos (digits2_pos p) + e = Z.pos (digits2_pos q) + g).
  { destruct H as [[L E]|[L E]].
    - rewrite (digits2_pos_scale p q (e - g)); [ring | lia | exact E].
    - rewrite (digits2_pos_scale q p (g - e)); [ring | lia | exact E]. }
  unfold binary_round. fold fexp64. rewrite D, C1.
  pose proof (shl_align_spec p e g) as [S1 S2]. cbv zeta in *.
  destruct H as [[L E]|[L E]].
  - destruct (shl_align p e g) as [mz ez]. cbn [fst snd] in *.
    assert (ez = g) by lia. clear S1. subst ez.
    assert (mz = q) by (apply Pos2Z.inj; rewrite S2, E; reflexivity). subst mz.
    now apply binary_round_aux_canonical.
  - destruct (shl_align p e g) as [mz ez]. cbn [fst snd] in *.
    assert (ez = e) by lia. clear S1. subst ez.
    assert (mz = p) by (apply Pos2Z.inj; rewrite S2, Z.sub_diag; simpl; lia). subst mz.
    unfold binary_round_aux.
    assert (Es : shr_fexp Double.prec Double.emax (Z.pos p) e loc_Exact
                 = (Build_shr_record (Z.pos q) false false, g)).
    { unfold shr_fexp. cbn [Zdigits2]. fold fexp64. rewrite D, C1.
      unfold shr. destruct (g - e) as [|j|j] eqn:Ej; try lia.
      cbn [shr_record_of_loc]. rewrite E, shr_iter_exact by lia.
      f_equal. lia. }
    rewrite Es. cbn [shr_m loc_of_shr_record round_nearest_even].
    rewrite (shr_fexp_canonical q g C). cbn [shr_m].
    replace (g <=? Double.emax - Double.prec) with true; [reflexivity|].
    symmetry. apply Z.leb_le. exact C2.
Qed.

Lemma int_canonical n :
  Z.pos n < 2 ^ 53 ->
  Z.pos (intMantissa n) = Z.pos n * 2 ^ (- intExponent n)
  /\ -52 <= intExponent n <= 0
  /\ canonical (intMantissa n) (intExponent n).
Proof.
  intros Hn. unfold intMantissa, intExponent.
  pose proof (digits2_pos_bounds n) as B.
  set (d := Z.pos (digits2_pos n)) in *.
  assert (Hd : 1 <= d <= 53).
  { split; [subst d; lia|].
    destruct (Z_lt_le_dec 53 d); [|assumption].
    assert (2 ^ 53 <= 2 ^ (d - 1)) by (apply Z.pow_le_mono_r; lia). lia. }
  assert (0 < 2 ^ (53 - d)) by (apply Z.pow_pos_nonneg; lia).
  assert (E : Z.pos (Z.to_pos (Z.pos n * 2 ^ (53 - d))) = Z.pos n * 2 ^ (53 - d))
    by (apply Z2Pos.id; nia).
  split; [rewrite E; f_equal; f_equal; lia|]. split; [lia|].
  split; [|lia].
  rewrite (digits2_pos_scale n _ (53 - d) ltac:(lia) E). fold d.
  rewrite fexp64_eq. lia.
Qed.

Lemma binary_round_int s n k :
  Z.pos n < 2 ^ 53 -> 0 <= k ->
  forall p, Z.pos p = Z.pos n * 2 ^ k ->
  binary_round Double.prec Double.emax s p (- k)
  = S754_finite s (intMantissa n) (intExponent n).
Proof.
  intros Hn Hk p Hp.
  destruct (int_canonical n Hn) as (M & R & C).
  apply binary_round_exact; [exact C|].
  destruct (Z_le_gt_dec (intExponent n) (- k)).
  - left. split; [assumption|]. rewrite M, Hp.
    rewrite <- Z.mul_assoc, <- Z.pow_add_r by lia. f_equal. f_equal. lia.
  - right. split; [lia|]. rewrite M, Hp.
    rewrite <- Z.mul_assoc, <- Z.pow_add_r by lia. f_equal. f_equal. lia.
Qed.

Lemma of_int_pos n :
  Z.pos n < 2 ^ 53 ->
  Double.of_int (Z.pos n) = S754_finite false (intMantissa n) (intExponent n).
Proof.
  intros Hn. unfold Double.of_int. cbn [binary_normalize].
  apply (binary_round_int false n 0 Hn ltac:(lia)). simpl. lia.
Qed.

Lemma of_int_neg n :
  Z.pos n < 2 ^ 53 ->
  Double.of_int (Z.neg n) = S754_finite true (intMantissa n) (intExponent n).
Proof.
  intros Hn. unfold Double.of_int. cbn [binary_normalize].
  apply (binary_round_int true n 0 Hn ltac:(lia)). simpl. lia.
Qed.

Lemma of_int_finite z : - 2 ^ 53 < z < 2 ^ 53 -> finite (Double.of_int z).
Proof.
  intros H. destruct z as [|n|n].
  - exact I.
  - rewrite of_int_pos by lia. cbn [finite].
    destruct (int_canonical n) as (_ & ? & _); lia.
  - rewrite of_int_neg by lia. cbn [finite].
    destruct (int_canonical n) as (_ & ? & _); lia.
Qed.

(** ** Doubles: integers *)

Lemma cond_Zopp_mul s m k : cond_Zopp s (m * k) = cond_Zopp s m * k.
Proof. destruct s; cbn; ring. Qed.

(** The representation of a non-zero integer below [2^53]. *)
Lemma of_int_form z :
  z <> 0 -> - 2 ^ 53 < z < 2 ^ 53 ->
  exists m e,
    Double.of_int z = S754_finite (z <? 0) m e
    /\ -52 <= e <= 0
    /\ cond_Zopp (z <? 0) (Z.pos m) = z * 2 ^ (- e).
Proof.
  intros Hz H. destruct z as [|n|n]; [congruence| |].
  - exists (intMantissa n), (intExponent n).
    destruct (int_canonical n ltac:(lia)) as (M & R & _).
    rewrite of_int_pos by lia. repeat split; try lia. exact M.
  - exists (intMantissa n), (intExponent n).
    destruct (int_canonical n ltac:(lia)) as (M & R & _).
    rewrite of_int_neg by lia. repeat split; try lia.
    cbn [Z.ltb Z.compare cond_Zopp]. rewrite M. 
    change (Z.neg n) with (- Z.pos n). ring.
Qed.

Lemma truncZ_of_int z :
  - 2 ^ 53 < z < 2 ^ 53 -> Double.truncZ (Double.of_int z) = Some z.
Proof.
  intros H. destruct (Z.eq_dec z 0) as [->|Hz]; [reflexivity|].
  destruct (of_int_form z Hz H) as (m & e & -> & He & Hm).
  unfold Double.truncZ. rewrite Hm. f_equal.
  destruct (Z.leb_spec 0 e).
  - replace e with 0 by lia. simpl. ring.
  - apply Z.quot_mul. apply Z.pow_nonzero; lia.
Qed.

Lemma floorZ_finite s m e :
  Double.floorZ (S754_finite s m e)
  = Some (if 0 <=? e then cond_Zopp s (Z.pos m) * 2 ^ e
          else cond_Zopp s (Z.pos m) / 2 ^ (- e)).
Proof. reflexivity. Qed.

Lemma floor_expr_neg v e :
  v < 0 -> (if 0 <=? e then v * 2 ^ e else v / 2 ^ (- e)) < 0.
Proof.
  intros Hv. destruct (Z.leb_spec 0 e).
  - assert (0 < 2 ^ e) by (apply Z.pow_pos_nonneg; lia).
    apply Z.mul_neg_pos; lia.
  - assert (0 < 2 ^ (- e)) by (apply Z.pow_pos_nonneg; lia).
    apply Z.div_lt_upper_bound; lia.
Qed.

Lemma floor_expr_pos v e :
  0 <= v -> 0 <= (if 0 <=? e then v * 2 ^ e else v / 2 ^ (- e)).
Proof.
  intros Hv. destruct (Z.leb_spec 0 e).
  - assert (0 < 2 ^ e) by (apply Z.pow_pos_nonneg; lia).
    apply Z.mul_nonneg_nonneg; lia.
  - apply Z.div_pos; [lia|]. apply Z.pow_pos_nonneg; lia.
Qed.

Lemma floorZ_neg m e c :
  Double.floorZ (S754_finite true m e) = Some c -> c < 0.
Proof.
  rewrite floorZ_finite. intros H.
  assert (E : c = if 0 <=? e then cond_Zopp true (Z.pos m) * 2 ^ e
                  else cond_Zopp true (Z.pos m) / 2 ^ (- e)) by congruence.
  rewrite E. apply floor_expr_neg. cbn [cond_Zopp]. lia.
Qed.

Lemma floorZ_pos m e c :
  Double.floorZ (S754_finite false m e) = Some c -> 0 <= c.
Proof.
  rewrite floorZ_finite. intros H.
  assert (E : c = if 0 <=? e then cond_Zopp false (Z.pos m) * 2 ^ e
                  else cond_Zopp false (Z.pos m) / 2 ^ (- e)) by congruence.
  rewrite E. apply floor_expr_pos. cbn [cond_Zopp]. lia.
Qed.

(** [static_cast<int>(std::floor(x))] is the integer part of [x]. *)
Lemma to_int_floor x c :
  Double.floorZ x = Some c -> Int.in_range c ->
  Double.to_int (Double.floor x) = Some c.
Proof.
  intros Hc Hr.
  assert (Hb : (Int.min_signed <=? c) && (c <=? Int.max_signed) = true).
  { unfold Int.in_range in Hr. apply andb_true_intro. split; apply Z.leb_le; lia. }
  assert (H53 : - 2 ^ 53 < c < 2 ^ 53)
    by (unfold Int.in_range, Int.min_signed, Int.max_signed in Hr; lia).
  destruct x as [s|s| |s m e]; try discriminate.
  - injection Hc as <-. reflexivity.
  - unfold Double.floor. destruct (Z.leb_spec 0 e) as [He|He].
    + unfold Double.to_int, Double.truncZ. unfold Double.floorZ in Hc.
      replace (0 <=? e) with true in * by (symmetry; apply Z.leb_le; lia).
      injection Hc as ->. cbn [bind]. now rewrite Hb.
    + rewrite Hc. destruct c as [|n|n].
      * reflexivity.
      * destruct s; [apply floorZ_neg in Hc; lia|].
        unfold Double.to_int. change (binary_normalize Double.prec Double.emax (Z.pos n) 0 false) with (Double.of_int (Z.pos n)).
        rewrite truncZ_of_int by assumption. cbn [bind]. now rewrite Hb.
      * destruct s; [|apply floorZ_pos in Hc; lia].
        unfold Double.to_int.
        change (binary_normalize Double.prec Double.emax (Z.neg n) 0 true) with (Double.of_int (Z.neg n)).
        rewrite truncZ_of_int by assumption. cbn [bind]. now rewrite Hb.
Qed.

Lemma shl_align_fst m e ez :
  ez <= e -> Z.pos (fst (shl_align m e ez)) = Z.pos m * 2 ^ (e - ez).
Proof.
  intros H. destruct (shl_align_spec m e ez) as [S1 S2]. cbv zeta in *.
  rewrite S2, S1. f_equal. f_equal. lia.
Qed.

Lemma binary_round_int_exp s n e p :
  Z.pos n < 2 ^ 53 -> e <= 0 -> Z.pos p = Z.pos n * 2 ^ (- e) ->
  binary_round Double.prec Double.emax s p e
  = S754_finite s (intMantissa n) (intExponent n).
Proof.
  intros Hn He Hp. rewrite <- (Z.opp_involutive e) at 1.
  apply binary_round_int; [assumption | lia | assumption].
Qed.

(** Subtraction of small integers is exact. *)
Lemma sub_of_int a b :
  - 2 ^ 52 < a < 2 ^ 52 -> - 2 ^ 52 < b < 2 ^ 52 ->
  Double.sub (Double.of_int a) (Double.of_int b) = Double.of_int (a - b).
Proof.
  intros Ha Hb.
  destruct (Z.eq_dec b 0) as [->|Hb0].
  { rewrite Z.sub_0_r. destruct (Z.eq_dec a 0) as [->|Ha0]; [reflexivity|].
    destruct (of_int_form a Ha0 ltac:(lia)) as (m & e & -> & _). reflexivity. }
  destruct (of_int_form b Hb0 ltac:(lia)) as (mb & eb & Eb & Rb & Mb).
  destruct (Z.eq_dec a 0) as [->|Ha0].
  { rewrite Eb. cbn [Double.of_int binary_normalize Double.sub SFsub].
    destruct (of_int_form (- b) ltac:(lia) ltac:(lia)) as (m' & e' & E' & _).
    pose proof (of_int_opp b) as [O|[_ O]].
    - simpl (0 - b). rewrite O, Eb. reflexivity.
    - rewrite Eb in O. discriminate. }
  destruct (of_int_form a Ha0 ltac:(lia)) as (ma & ea & Ea & Ra & Ma).
  rewrite Ea, Eb. unfold Double.sub, SFsub.
  set (ez := Z.min ea eb).
  rewrite !shl_align_fst by lia.
  rewrite !cond_Zopp_mul, Ma, Mb.
  rewrite <- !Z.mul_assoc, <- !Z.pow_add_r by lia.
  replace (- ea + (ea - ez)) with (- ez) by ring.
  replace (- eb + (eb - ez)) with (- ez) by ring.
  rewrite <- Z.mul_sub_distr_r.
  assert (Hk : 0 <= - ez) by lia.
  assert (0 < 2 ^ (- ez)) by (apply Z.pow_pos_nonneg; lia).
  unfold Double.of_int.
  destruct (a - b) as [|n|n] eqn:En.
  - reflexivity.
  - assert (Hp : exists p, Z.pos n * 2 ^ (- ez) = Z.pos p).
    { exists (Z.to_pos (Z.pos n * 2 ^ (- ez))). rewrite Z2Pos.id; nia. }
    destruct Hp as [p Hp]. rewrite Hp. cbn [binary_normalize].
    rewrite (binary_round_int_exp false n ez p) by lia.
    symmetry. apply (binary_round_int false n 0 ltac:(lia) ltac:(lia)). simpl. lia.
  - assert (Hp : exists p, Z.neg n * 2 ^ (- ez) = Z.neg p).
    { exists (Z.to_pos (Z.pos n * 2 ^ (- ez))).
      change (Z.neg n) with (- Z.pos n).
      rewrite <- Pos2Z.opp_pos, Z2Pos.id; nia. }
    destruct Hp as [p Hp]. rewrite Hp. cbn [binary_normalize].
    change (Z.neg n) with (- Z.pos n) in Hp. change (Z.neg p) with (- Z.pos p) in Hp.
    rewrite (binary_round_int_exp true n ez p) by lia.
    symmetry. apply (binary_round_int true n 0 ltac:(lia) ltac:(lia)). simpl. lia.
Qed.

(** ** Doubles: the sign of a difference *)

Lemma ltb_zero_good x :
  good x ->
  Double.ltb (Double.of_int 0) x
  = match sign_of x with Some false => true | _ => false end.
Proof.
  destruct x as [s|s| |s m e]; try destruct s; cbn; intros H;
    try reflexivity; contradiction.
Qed.

Lemma finite_good x : finite x -> good x.
Proof. destruct x; cbn; auto. Qed.

Lemma sub_finite_good x y : finite x -> finite y -> good (Double.sub x y).
Proof.
  destruct x as [sx|sx| |sx mx ex], y as [sy|sy| |sy my ey]; cbn [finite];
    try contradiction; intros Hx Hy.
  - destruct sx, sy; exact I.
  - exact Hy.
  - exact Hx.
  - unfold Double.sub, SFsub. apply binary_normalize_good. lia.
Qed.



(** The sign of [N - x] for an integer [N]: positive exactly when the
    integer part of [x] is below [N]. *)
Lemma ltb_zero_sub_int N x c :
  - 2 ^ 53 < N < 2 ^ 53 -> finite x -> Double.floorZ x = Some c ->
  Double.ltb (Double.of_int 0) (Double.sub (Double.of_int N) x) = (c <? N).
Proof.
  intros HN Hx Hc.
  rewrite ltb_zero_good by (apply sub_finite_good; [apply of_int_finite; lia | assumption]).
  destruct x as [s|s| |s m e]; cbn [finite] in Hx; try contradiction.
  - (* x is a zero *)
    injection Hc as <-.
    destruct (Z.eq_dec N 0) as [->|HN0]; [now destruct s|].
    destruct (of_int_form N HN0 HN) as (mN & eN & -> & _).
    cbn. destruct (Z.ltb_spec N 0), (Z.ltb_spec 0 N); try reflexivity; lia.
  - rewrite floorZ_finite in Hc.
    assert (Ec : c = if 0 <=? e then cond_Zopp s (Z.pos m) * 2 ^ e
                     else cond_Zopp s (Z.pos m) / 2 ^ (- e)) by congruence.
    clear Hc.
    destruct (Z.eq_dec N 0) as [->|HN0].
    + (* 0 - x *)
      cbn [Double.of_int binary_normalize Double.sub SFsub sign_of].
      destruct s; cbn [negb].
      * assert (c < 0) by (rewrite Ec; apply floor_expr_neg; cbn; lia).
        symmetry. apply Z.ltb_lt. assumption.
      * assert (0 <= c) by (rewrite Ec; apply floor_expr_pos; cbn; lia).
        symmetry. apply Z.ltb_ge. assumption.
    + destruct (of_int_form N HN0 HN) as (mN & eN & -> & RN & MN).
      unfold Double.sub, SFsub.
      set (ez := Z.min eN e).
      destruct (binary_normalize_good
        (cond_Zopp (N <? 0) (Z.pos (fst (shl_align mN eN ez)))
         - cond_Zopp s (Z.pos (fst (shl_align m e ez)))) ez ltac:(lia)) as [_ ->].
      rewrite !shl_align_fst by lia.
      rewrite !cond_Zopp_mul, MN.
      rewrite <- Z.mul_assoc, <- Z.pow_add_r by lia.
      replace (- eN + (eN - ez)) with (- ez) by ring.
      set (v := cond_Zopp s (Z.pos m)) in *.
      assert (Hsign : forall D, match D with 0 => None | Z.pos _ => Some false | Z.neg _ => Some true end
                                = (if 0 <? D then Some false else if D <? 0 then Some true else None))
        by (intros [|?|?]; reflexivity).
      rewrite Hsign.
      assert (Hiff : 0 < N * 2 ^ (- ez) - v * 2 ^ (e - ez) <-> c < N).
      { destruct (Z.leb_spec 0 e) as [He|He].
        - subst c. assert (ez = eN) by lia.
          replace (2 ^ (e - ez)) with (2 ^ e * 2 ^ (- ez)) by (rewrite <- Z.pow_add_r by lia; f_equal; lia).
          assert (0 < 2 ^ (- ez)) by (apply Z.pow_pos_nonneg; lia).
          rewrite Z.mul_assoc, <- Z.mul_sub_distr_r.
          rewrite (Z.mul_pos_cancel_r _ _ H0). lia.
        - replace (2 ^ (- ez)) with (2 ^ (- e) * 2 ^ (e - ez)) by (rewrite <- Z.pow_add_r by lia; f_equal; lia).
          assert (0 < 2 ^ (e - ez)) by (apply Z.pow_pos_nonneg; lia).
          assert (0 < 2 ^ (- e)) by (apply Z.pow_pos_nonneg; lia).
          rewrite Z.mul_assoc, <- Z.mul_sub_distr_r. subst c.
          rewrite (Z.mul_pos_cancel_r _ _ H).
          split; intros Hlt.
          + apply Z.div_lt_upper_bound; lia.
          + destruct (Z_lt_le_dec v (N * 2 ^ (- e))); [lia|]. exfalso.
            assert (N <= v / 2 ^ (- e)) by (apply Z.div_le_lower_bound; lia). lia. }
      destruct (Z.ltb_spec 0 (N * 2 ^ (- ez) - v * 2 ^ (e - ez))), (Z.ltb_spec c N);
        try reflexivity; try lia.
      destruct (_ - _ <? 0); reflexivity.
Qed.

(** ** Seconds in a day *)


Lemma beforeDayEnd_spec A B c :
  Int.in_range A -> finite B -> Double.floorZ B = Some c ->
  Time.beforeDayEnd A B = (c <? 86400 - A).
Proof.
  intros HA HB Hc. unfold Time.beforeDayEnd, JULIAN_DAY.
  unfold Int.in_range, Int.min_signed, Int.max_signed in HA.
  rewrite sub_of_int by lia.
  apply ltb_zero_sub_int; [lia | assumption | assumption].
Qed.


Lemma of_int_61 : Double.of_int 61 = S754_finite false 8584986789675008 (-47).
Proof. vm_compute. reflexivity. Qed.




Lemma fromSeconds_carry A B leap md c :
  Double.to_int (Double.floor B) = Some c ->
  Time.fromSeconds A B leap md
  = let w := Int.add A c in
    let h := Int.div w 3600 in
    let w1 := Int.sub w (Int.mul 3600 h) in
    let mi := Int.div w1 60 in
    let w2 := Int.sub w1 (Int.mul 60 mi) in
    Some (mkTime h mi
            (clampSecond
               (Double.add (Double.of_int w2)
                  (Double.add leap (Double.sub B (Double.of_int c)))) md)
            0).
Proof. intros H. unfold Time.fromSeconds. rewrite H. reflexivity. Qed.




(** * Main theorems *)

(** C1. Day-count and triple round trip: every 32-bit day-count [d] is
    recovered by [getJ2000Day] from the date [DateComponents(d)] builds, and
    every valid triple (a real day of the applicable calendar, between
    [MIN_EPOCH] and [MAX_EPOCH]) is recovered from its day-count. *)
Theorem C1_roundtrip :
  (forall d, Int.in_range d ->
     (t <- Date.fromOffset d ;; Date.getJ2000Day t) = Some d)
  /\ (forall t, validDate t = true ->
        exists d t', Date.getJ2000Day t = Some d
          /\ Date.fromOffset d = Some t'
          /\ Date.getYear t' = year t
          /\ Date.getMonth t' = month t
          /\ Date.getDay t' = day t).
Proof.
  split.
  - exact offset_roundtrip.
  - intros t V. pose proof (triple_roundtrip t V) as R.
    destruct (Date.getJ2000Day t) as [d|]; [|discriminate].
    exists d, t. cbn [bind] in R. auto.
Qed.

Lemma C1_roundtrip_witness :
  (t <- Date.fromOffset 0 ;; Date.getJ2000Day t) = Some 0
  /\ exists d t', Date.getJ2000Day (mkDate 1582 10 4) = Some d
       /\ Date.fromOffset d = Some t'
       /\ Date.getYear t' = 1582 /\ Date.getMonth t' = 10 /\ Date.getDay t' = 4.
Proof.
  split.
  - apply (proj1 C1_roundtrip). unfold Int.in_range, Int.min_signed, Int.max_signed. lia.
  - apply (proj2 C1_roundtrip (mkDate 1582 10 4)). vm_compute. reflexivity.
Defined.

(** C2. The constructors validate nothing: the triple 2001-02-29, the
    triple 1582-10-10 inside the reform gap and week 60 of 2001 are all
    accepted, where the documentation promises an error; a month of 13 is
    accepted as well and [getJ2000Day] then reads its table out of
    bounds. *)
Theorem C2_invalid_input_accepted :
  validDate (mkDate 2001 2 29) = false
  /\ Date.fromYMD 2001 2 29 = mkDate 2001 2 29
  /\ validDate (mkDate 1582 10 10) = false
  /\ Date.fromYMD 1582 10 10 = mkDate 1582 10 10
  /\ validWeekDate 2001 60 1 = false
  /\ Date.createFromWeekComponents 2001 60 1 = Some (mkDate 2002 2 18)
  /\ Date.fromYMD 2001 13 1 = mkDate 2001 13 1
  /\ Date.getJ2000Day (Date.fromYMD 2001 13 1) = None.
Proof. vm_compute. repeat split; reflexivity. Qed.

(** C3. Continuity across the Gregorian reform: 1582-10-15 is day -152384
    and 1582-10-04 is day -152385, no date has a day-count strictly between
    the two, and the day before 1582-10-15 is 1582-10-04. *)
Theorem C3_reform_continuity :
  Date.getJ2000Day (mkDate 1582 10 15) = Some (-152384)
  /\ Date.getJ2000Day (mkDate 1582 10 4) = Some (-152385)
  /\ -152384 = -152385 + 1
  /\ (forall t,
        match Date.getJ2000Day t with
        | Some d => (d <=? -152385) || (-152384 <=? d) = true
        | None => True
        end)
  /\ Date.fromOffset (Int.sub (-152384) 1) = Some (mkDate 1582 10 4).
Proof.
  split; [vm_compute; reflexivity|]. split; [vm_compute; reflexivity|].
  split; [reflexivity|]. split; [|vm_compute; reflexivity].
  intros t. destruct (Date.getJ2000Day t) as [d|]; [|exact I].
  destruct (Z.leb_spec d (-152385)); [reflexivity|]. apply Z.leb_le. lia.
Qed.

(** C4. [getDayOfWeek] overflows on the last days of the supported
    range.  Week 27 of 5881610 lies in its week-year and its Sunday is
    5881610-07-11, the day [INT_MAX], which the header names as the
    maximum supported date: [createFromWeekComponents] builds it and its
    calendar week is 27, but [getDayOfWeek] computes [INT_MAX + 6] in an
    [int] and answers 3 where the day of week is 7.  The Monday of that
    week, 5881610-07-05, is the last day with the right answer. *)
Theorem C4_getDayOfWeek_overflow :
  (firstMonday 5881610 + 7 * 27 <=? firstMonday (5881610 + 1)) = true
  /\ Date.createFromWeekComponents 5881610 27 7 = Some (mkDate 5881610 7 11)
  /\ validDate (mkDate 5881610 7 11) = true
  /\ Date.getJ2000Day (mkDate 5881610 7 11) = Some Int.max_signed
  /\ Date.getCalendarWeek (mkDate 5881610 7 11) = Some 27
  /\ Date.getDayOfWeek (mkDate 5881610 7 11) = Some 3
  /\ (Int.max_signed + 6) mod 7 = 0
  /\ Date.createFromWeekComponents 5881610 27 1 = Some (mkDate 5881610 7 5)
  /\ Date.getJ2000Day (mkDate 5881610 7 5) = Some (Int.max_signed - 6)
  /\ Date.getDayOfWeek (mkDate 5881610 7 5) = Some 1.
Proof. vm_compute. repeat split; reflexivity. Qed.

(** C5. Ordering of dates: [a < b] is the comparison of the day-counts,
    and for valid dates neither [a < b] nor [b < a] holds exactly when
    [a == b]; the order is irreflexive and transitive. *)
Theorem C5_date_order :
  forall a b, validDate a = true -> validDate b = true ->
    exists da db,
      Date.getJ2000Day a = Some da /\ Date.getJ2000Day b = Some db
      /\ Date.lt a b = Some (da <? db)
      /\ Date.lt b a = Some (db <? da)
      /\ Date.lt a a = Some false
      /\ ((Date.lt a b = Some false /\ Date.lt b a = Some false)
          <-> Date.eqb a b = true)
      /\ (forall c dc, Date.getJ2000Day c = Some dc ->
            Date.lt a b = Some true -> Date.lt b c = Some true ->
            Date.lt a c = Some true).
Proof.
  intros a b Va Vb.
  destruct (validDate_facts a Va) as [pa Fa]. destruct (validDate_facts b Vb) as [pb Fb].
  pose proof (getJ2000Day_valid a pa Fa) as Ea.
  pose proof (getJ2000Day_valid b pb Fb) as Eb.
  exists (dayNumber a pa), (dayNumber b pb).
  unfold Date.lt. rewrite Ea, Eb. cbn [bind].
  repeat split; try reflexivity.
  - now rewrite Z.ltb_irrefl.
  - intros [H1 H2]. injection H1 as H1. injection H2 as H2.
    apply Z.ltb_ge in H1, H2.
    assert (E : dayNumber a pa = dayNumber b pb) by lia.
    rewrite E in Ea. rewrite (getJ2000Day_inj a b _ Va Vb Ea Eb).
    unfold Date.eqb. now rewrite !Z.eqb_refl.
  - unfold Date.eqb in H. apply andb_prop in H. destruct H as [H H3].
    apply andb_prop in H. destruct H as [H1 H2].
    apply Z.eqb_eq in H1, H2, H3.
    assert (a = b) by (destruct a, b; cbn in *; congruence). subst b.
    rewrite Ea in Eb. injection Eb as <-. now rewrite Z.ltb_irrefl.
  - unfold Date.eqb in H. apply andb_prop in H. destruct H as [H H3].
    apply andb_prop in H. destruct H as [H1 H2].
    apply Z.eqb_eq in H1, H2, H3.
    assert (a = b) by (destruct a, b; cbn in *; congruence). subst b.
    rewrite Ea in Eb. injection Eb as <-. now rewrite Z.ltb_irrefl.
  - intros c dc Ec H1 H2. rewrite Ec in *. cbn [bind] in *.
    injection H1 as H1. injection H2 as H2. apply Z.ltb_lt in H1, H2.
    f_equal. apply Z.ltb_lt. lia.
Qed.

Lemma C5_date_order_witness :
  exists da db,
    Date.getJ2000Day (mkDate 1582 10 4) = Some da
    /\ Date.getJ2000Day (mkDate 1582 10 15) = Some db
    /\ Date.lt (mkDate 1582 10 4) (mkDate 1582 10 15) = Some (da <? db)
    /\ Date.lt (mkDate 1582 10 15) (mkDate 1582 10 4) = Some (db <? da)
    /\ Date.lt (mkDate 1582 10 4) (mkDate 1582 10 4) = Some false
    /\ ((Date.lt (mkDate 1582 10 4) (mkDate 1582 10 15) = Some false
         /\ Date.lt (mkDate 1582 10 15) (mkDate 1582 10 4) = Some false)
        <-> Date.eqb (mkDate 1582 10 4) (mkDate 1582 10 15) = true)
    /\ (forall c dc, Date.getJ2000Day c = Some dc ->
          Date.lt (mkDate 1582 10 4) (mkDate 1582 10 15) = Some true ->
          Date.lt (mkDate 1582 10 15) c = Some true ->
          Date.lt (mkDate 1582 10 4) c = Some true).
Proof.
  apply (C5_date_order (mkDate 1582 10 4) (mkDate 1582 10 15));
    vm_compute; reflexivity.
Defined.

Lemma add_nan_r x : Double.add x S754_nan = S754_nan.
Proof. destruct x; reflexivity. Qed.

Lemma clampSecond_nan md : clampSecond S754_nan md = S754_nan.
Proof. unfold clampSecond. cbn [Double.isnan]. now rewrite orb_true_r. Qed.

Lemma wrap_rem_3600 w :
  Int.in_range w -> Int.sub w (Int.mul 3600 (Int.div w 3600)) = Z.rem w 3600.
Proof.
  intros Hw. unfold Int.sub, Int.mul, Int.div.
  unfold Int.in_range, Int.min_signed, Int.max_signed in Hw.
  rewrite (wrap_small (w ÷ 3600)) by int_small.
  rewrite (wrap_small (3600 * _)) by int_small.
  rewrite wrap_small by int_small.
  Z.quot_rem_to_equations. lia.
Qed.

(** C6, as the code has it. When [leap] is not-a-number and
    [secondInDayB] is a number whose floor [carry] fits in an [int],
    [fromSeconds] returns a value: hour and minute are those of
    [secondInDayA + carry] (of [secondInDayA] alone when [carry] is 0, that
    is for [0 <= secondInDayB < 1]) and the second is not-a-number. *)
Theorem C6_nan_leap_fallback :
  forall secondInDayA secondInDayB minuteDuration carry,
    Int.in_range secondInDayA ->
    Double.to_int (Double.floor secondInDayB) = Some carry ->
    let w := Int.add secondInDayA carry in
    Time.fromSeconds secondInDayA secondInDayB S754_nan minuteDuration
    = Some (mkTime (Int.div w 3600) (Int.div (Int.rem w 3600) 60) S754_nan 0)
    /\ (carry = 0 -> w = secondInDayA).
Proof.
  intros A B md c HA Hc w. split.
  - rewrite (fromSeconds_carry A B S754_nan md c Hc). cbv zeta. fold w.
    cbn [Double.add SFadd]. rewrite add_nan_r, clampSecond_nan.
    rewrite (wrap_rem_3600 w) by apply wrap_range. reflexivity.
  - intros ->. subst w. unfold Int.add. rewrite Z.add_0_r. now apply wrap_small.
Qed.

Lemma C6_nan_leap_fallback_witness :
  Time.fromSeconds 3599 one_half S754_nan 60
  = Some (mkTime (Int.div (Int.add 3599 0) 3600)
            (Int.div (Int.rem (Int.add 3599 0) 3600) 60) S754_nan 0)
  /\ (0 = 0 -> Int.add 3599 0 = 3599).
Proof.
  apply (C6_nan_leap_fallback 3599 one_half 60 0).
  - unfold Int.in_range, Int.min_signed, Int.max_signed. lia.
  - vm_compute. reflexivity.
Defined.

(** C6 as stated fails: with [leap] not-a-number, [secondInDayA = 3599]
    and [secondInDayB = 1.5] the hour is 1, not [3599 / 3600 = 0]. *)
Lemma C6_counterexample :
  Double.isnan S754_nan = true
  /\ Time.fromSeconds 3599 one_and_a_half S754_nan 60
     = Some (mkTime 1 0 S754_nan 0)
  /\ Int.div 3599 3600 = 0.
Proof. vm_compute. repeat split; reflexivity. Qed.

(** C7. The clamp is [minuteDuration - 1e-10], not the largest double
    below [minuteDuration].  For [fromSeconds(59, nextDown(1.0), 0.0, 60)],
    which meets the documented constraints, the raw second
    [59 + (0.0 + nextDown(1.0))] rounds to 60 and the stored second is
    59.9999999999, which lies below [nextDown(60)]; the same holds for
    [fromSeconds(59, 0.0, 1.0, 60)]; and for a minute of [2^21] seconds the
    difference rounds back to [minuteDuration], so the stored second is
    not below it. *)
Theorem C7_clamp_is_not_nextDown :
  (exists t,
     Time.fromSeconds 59 (Double.nextDown (Double.of_int 1)) (Double.of_int 0) 60
     = Some t
     /\ Double.ltb (Double.nextDown (Double.of_int 1)) (Double.of_int 1) = true
     /\ Double.add (Double.of_int 59)
          (Double.add (Double.of_int 0) (Double.nextDown (Double.of_int 1)))
        = Double.of_int 60
     /\ Time.getSecond t = Double.sub (Double.of_int 60) Double.lit_1e_10
     /\ Double.ltb (Time.getSecond t) (Double.nextDown (Double.of_int 60)) = true)
  /\ (exists t,
     Time.fromSeconds 59 (Double.of_int 0) (Double.of_int 1) 60 = Some t
     /\ Time.getSecond t = Double.sub (Double.of_int 60) Double.lit_1e_10
     /\ Time.getSecond t = S754_finite false 8444249301305606 (-47)
     /\ Double.nextDown (Double.of_int 60)
        = S754_finite false 8444249301319679 (-47)
     /\ Double.ltb (Time.getSecond t) (Double.nextDown (Double.of_int 60)) = true)
  /\ (exists t,
        Time.fromSeconds 0 (Double.of_int 0) (Double.of_int 2097152) 2097152
        = Some t
        /\ Time.getSecond t = Double.of_int 2097152
        /\ Double.isnan (Time.getSecond t) = false
        /\ Double.ltb (Time.getSecond t) (Double.of_int 2097152) = false).
Proof.
  split; [|split].
  - exists (mkTime 0 0 (S754_finite false 8444249301305606 (-47)) 0).
    repeat split; vm_compute; reflexivity.
  - exists (mkTime 0 0 (S754_finite false 8444249301305606 (-47)) 0).
    repeat split; vm_compute; reflexivity.
  - exists (mkTime 0 0 (S754_finite false 4503599627370496 (-31)) 0).
    repeat split; vm_compute; reflexivity.
Qed.

(** C8. The date offset overflows.  2000-01-01 is [2^31] days after
    -5877490-03-03, the day [INT_MIN], which the header names as the
    minimum supported date, but [offsetFrom] computes [0 - INT_MIN] in an
    [int] and returns [-2^31 * 86400] seconds: a negative offset for an
    instance that is posterior to its argument.  The offset in the other
    direction is the same value, so the two are not opposite. *)
Theorem C8_offsetFrom_overflow :
  validDate (mkDate (-5877490) 3 3) = true
  /\ validDate (mkDate 2000 1 1) = true
  /\ Date.getJ2000Day (mkDate (-5877490) 3 3) = Some Int.min_signed
  /\ Date.getJ2000Day (mkDate 2000 1 1) = Some 0
  /\ DateTime.lt (DateTime.fromYMD (-5877490) 3 3) (DateTime.fromYMD 2000 1 1)
     = Some true
  /\ Int.sub 0 Int.min_signed = Int.min_signed
  /\ DateTime.offsetFrom (DateTime.fromYMD 2000 1 1)
       (DateTime.fromYMD (-5877490) 3 3)
     = Some (Double.of_int (- 2 ^ 31 * 86400))
  /\ DateTime.offsetFrom (DateTime.fromYMD (-5877490) 3 3)
       (DateTime.fromYMD 2000 1 1)
     = Some (Double.of_int (- 2 ^ 31 * 86400))
  /\ Double.ltb (Double.of_int (- 2 ^ 31 * 86400)) (Double.of_int 0) = true
  /\ Double.eqb (Double.of_int (- 2 ^ 31 * 86400))
       (Double.opp (Double.of_int (- 2 ^ 31 * 86400))) = false.
Proof. vm_compute. repeat split; reflexivity. Qed.

Lemma fabs_of_int_tolerance n :
  - 2 ^ 53 < n < 2 ^ 53 ->
  Double.ltb (Double.fabs (Double.of_int n)) Double.lit_1e_8 = (n =? 0).
Proof.
  intros H. destruct n as [|n|n]; [reflexivity| |].
  - rewrite of_int_pos by lia.
    destruct (int_canonical n ltac:(lia)) as (_ & R & _).
    unfold Double.ltb, SFltb, Double.fabs, SFabs, Double.lit_1e_8, SFcompare.
    destruct (Z.compare_spec (intExponent n) (-79)); try lia; reflexivity.
  - rewrite of_int_neg by lia.
    destruct (int_canonical n ltac:(lia)) as (_ & R & _).
    unfold Double.ltb, SFltb, Double.fabs, SFabs, Double.lit_1e_8, SFcompare.
    destruct (Z.compare_spec (intExponent n) (-79)); try lia; reflexivity.
Qed.

Lemma to_long_secondInRange x :
  secondInRange x = true ->
  exists n, Double.to_long x = Some n /\ 0 <= n <= 60.
Proof.
  unfold secondInRange. intros H.
  apply andb_prop in H. destruct H as [H H61].
  apply andb_prop in H. destruct H as [V H0]. apply negb_true_iff in H0.
  rewrite of_int_61 in H61.
  destruct x as [s|s| |s m e].
  - exists 0. split; [reflexivity|lia].
  - destruct s; discriminate.
  - discriminate.
  - destruct s; [discriminate|].
    cbn [valid_binary] in V. unfold bounded, canonical_mantissa in V.
    apply andb_prop in V. destruct V as [V _]. apply Z.eqb_eq in V.
    fold fexp64 in V. rewrite fexp64_eq in V.
    pose proof (digits2_pos_bounds m) as B.
    assert (Hm : Z.pos m < 2 ^ 53).
    { eapply Z.lt_le_trans; [apply B|]. apply Z.pow_le_mono_r; lia. }
    clear B V H0.
    unfold Double.ltb, SFltb, SFcompare in H61.
    assert (Q : 0 <= Z.pos m ÷ 2 ^ (- e) <= 60 /\ e < 0).
    { destruct (Z.compare_spec e (-47)) as [E|E|E]; try discriminate.
      - subst e. rewrite Pos.compare_cont_spec in H61. cbn [Pos.switch_Eq] in H61.
        destruct (Pos.compare_spec m 8584986789675008) as [|L|]; try discriminate.
        change (2 ^ (- -47)) with 140737488355328.
        apply Pos2Z.pos_lt_pos in L. clear H61 Hm.
        split; [|lia]. Z.quot_rem_to_equations. lia.
      - assert (P : 2 ^ 48 <= 2 ^ (- e)) by (apply Z.pow_le_mono_r; lia).
        assert (P' : 0 < 2 ^ (- e)) by lia.
        split; [|lia].
        change (2 ^ 48) with 281474976710656 in P.
        change (2 ^ 53) with 9007199254740992 in Hm.
        clear H61 E.
        generalize dependent (2 ^ (- e)). intros D P P'.
        Z.quot_rem_to_equations. nia. }
    destruct Q as [Q He].
    exists (Z.pos m ÷ 2 ^ (- e)). split; [|exact Q].
    unfold Double.to_long, Double.truncZ.
    replace (0 <=? e) with false by (symmetry; apply Z.leb_gt; lia).
    cbn [cond_Zopp bind].
    replace ((- 2 ^ 63 <=? Z.pos m ÷ 2 ^ (- e)) && (Z.pos m ÷ 2 ^ (- e) <? 2 ^ 63))
      with true; [reflexivity|].
    symmetry. apply andb_true_intro. split; [apply Z.leb_le|apply Z.ltb_lt]; lia.
Qed.

Lemma to_long_of_int s :
  Int.in_range s -> Double.to_long (Double.of_int s) = Some s.
Proof.
  intros H. unfold Int.in_range, Int.min_signed, Int.max_signed in H.
  unfold Double.to_long. rewrite truncZ_of_int by lia. cbn [bind].
  replace ((- 2 ^ 63 <=? s) && (s <? 2 ^ 63)) with true; [reflexivity|].
  symmetry. apply andb_true_intro. split; [apply Z.leb_le|apply Z.ltb_lt]; lia.
Qed.

Lemma Date_eqb_hash a b :
  Date.eqb a b = true -> Date.hashCode a = Date.hashCode b.
Proof.
  intros H. unfold Date.eqb in H.
  apply andb_prop in H. destruct H as [H H3].
  apply andb_prop in H. destruct H as [H1 H2].
  apply Z.eqb_eq in H1, H2, H3. unfold Date.hashCode. now rewrite H1, H2, H3.
Qed.

Lemma Time_eqb_fields a b :
  Time.eqb a b = true ->
  hour a = hour b /\ minute a = minute b
  /\ minutesFromUTC a = minutesFromUTC b
  /\ Double.ltb (Double.fabs (Double.sub (second a) (second b)))
       Double.lit_1e_8 = true.
Proof.
  unfold Time.eqb. intros H.
  apply andb_prop in H. destruct H as [H H4].
  apply andb_prop in H. destruct H as [H H3].
  apply andb_prop in H. destruct H as [H1 H2].
  apply Z.eqb_eq in H1, H2, H4. auto.
Qed.

(** Whole seconds that are equal up to [1e-8] are equal. *)
Lemma Time_eqb_whole a b sa sb :
  Time.eqb a b = true ->
  second a = Double.of_int sa -> second b = Double.of_int sb ->
  Int.in_range sa -> Int.in_range sb -> sa = sb.
Proof.
  intros H Ea Eb Ha Hb. destruct (Time_eqb_fields a b H) as (_ & _ & _ & T).
  unfold Int.in_range, Int.min_signed, Int.max_signed in Ha, Hb.
  rewrite Ea, Eb, sub_of_int in T by lia.
  rewrite fabs_of_int_tolerance in T by lia.
  apply Z.eqb_eq in T. lia.
Qed.

Lemma Time_hash_same a b bits :
  Time.eqb a b = true -> second a = second b ->
  Double.to_long (second a) = Some bits ->
  exists h, Time.hashCode a = Some h /\ Time.hashCode b = Some h.
Proof.
  intros H E L. destruct (Time_eqb_fields a b H) as (H1 & H2 & H4 & _).
  unfold Time.hashCode. rewrite <- E, L, H1, H2, H4. cbn [bind].
  eexists. split; reflexivity.
Qed.

Lemma DateTime_hash_time a b h :
  DateTime.eqb a b = true ->
  Time.hashCode (time a) = Some h -> Time.hashCode (time b) = Some h ->
  exists h', DateTime.hashCode a = Some h' /\ DateTime.hashCode b = Some h'.
Proof.
  intros H Ea Eb. unfold DateTime.eqb in H.
  apply andb_prop in H. destruct H as [H _]. apply Date_eqb_hash in H.
  unfold DateTime.hashCode. rewrite Ea, Eb, H. cbn [bind].
  eexists. split; reflexivity.
Qed.

(** C9, as the code has it.  Equal dates have equal hashes.  [==] on
    times compares the seconds up to [1e-8], so equal times (and
    date-times) have equal hashes when their seconds are the same number,
    in the documented range [0 <= second < 61]; for whole seconds [==]
    itself makes them the same.  The date hash combines year, month and
    day; the time hash combines the hour, the minute less the offset from
    UTC, and a value computed from the second alone. *)
Theorem C9_hash_consistent :
  (forall a b : DateComponents,
     Date.eqb a b = true -> Date.hashCode a = Date.hashCode b)
  /\ (forall a b : TimeComponents,
        Time.eqb a b = true -> second a = second b ->
        secondInRange (second a) = true ->
        exists h, Time.hashCode a = Some h /\ Time.hashCode b = Some h)
  /\ (forall (a b : TimeComponents) (sa sb : Z),
        Time.eqb a b = true ->
        second a = Double.of_int sa -> second b = Double.of_int sb ->
        Int.in_range sa -> Int.in_range sb ->
        second a = second b
        /\ exists h, Time.hashCode a = Some h /\ Time.hashCode b = Some h)
  /\ (forall a b : DateTimeComponents,
        DateTime.eqb a b = true -> second (time a) = second (time b) ->
        secondInRange (second (time a)) = true ->
        exists h, DateTime.hashCode a = Some h /\ DateTime.hashCode b = Some h)
  /\ (forall (a b : DateTimeComponents) (sa sb : Z),
        DateTime.eqb a b = true ->
        second (time a) = Double.of_int sa ->
        second (time b) = Double.of_int sb ->
        Int.in_range sa -> Int.in_range sb ->
        second (time a) = second (time b)
        /\ exists h, DateTime.hashCode a = Some h /\ DateTime.hashCode b = Some h)
  /\ (forall a : DateComponents,
        Date.hashCode a
        = Int.xor (Int.xor (Int.shl (year a) 16) (Int.shl (month a) 8)) (day a))
  /\ (exists ofSecond : double -> option Z,
        forall a : TimeComponents,
          Time.hashCode a
          = (w <- ofSecond (second a) ;;
             Some (Int.xor
                     (Int.xor (Int.shl (hour a) 16)
                        (Int.shl (Int.sub (minute a) (minutesFromUTC a)) 8))
                     w))).
Proof.
  assert (HT : forall a b, Time.eqb a b = true -> second a = second b ->
             secondInRange (second a) = true ->
             exists h, Time.hashCode a = Some h /\ Time.hashCode b = Some h).
  { intros a b H E R. destruct (to_long_secondInRange _ R) as (n & L & _).
    exact (Time_hash_same a b n H E L). }
  assert (HW : forall a b sa sb, Time.eqb a b = true ->
             second a = Double.of_int sa -> second b = Double.of_int sb ->
             Int.in_range sa -> Int.in_range sb ->
             second a = second b
             /\ exists h, Time.hashCode a = Some h /\ Time.hashCode b = Some h).
  { intros a b sa sb H Ea Eb Ha Hb.
    pose proof (Time_eqb_whole a b sa sb H Ea Eb Ha Hb) as E. subst sb.
    assert (E : second a = second b) by congruence. split; [exact E|].
    apply (Time_hash_same a b sa H E). rewrite Ea. now apply to_long_of_int. }
  split; [exact Date_eqb_hash|]. split; [exact HT|]. split; [exact HW|].
  split; [|split; [|split]].
  - intros a b H E R. pose proof H as H'. unfold DateTime.eqb in H'.
    apply andb_prop in H'. destruct H' as [_ H2].
    destruct (HT _ _ H2 E R) as (h & Ea & Eb).
    exact (DateTime_hash_time a b h H Ea Eb).
  - intros a b sa sb H Ea Eb Ha Hb. pose proof H as H'. unfold DateTime.eqb in H'.
    apply andb_prop in H'. destruct H' as [_ H2].
    destruct (HW _ _ sa sb H2 Ea Eb Ha Hb) as (E & h & Ha' & Hb').
    split; [exact E|]. exact (DateTime_hash_time a b h H Ha' Hb').
  - reflexivity.
  - exists (fun x => bits <- Double.to_long x ;;
                     Some (Long.to_int (Long.xor bits (Long.shr bits 32)))).
    intros a. unfold Time.hashCode.
    destruct (Double.to_long (second a)); reflexivity.
Qed.

Lemma C9_hash_consistent_witness :
  second (mkTime 23 59 (Double.of_int 60) 0)
  = second (mkTime 23 59 (Double.of_int 60) 0)
  /\ exists h, Time.hashCode (mkTime 23 59 (Double.of_int 60) 0) = Some h
               /\ Time.hashCode (mkTime 23 59 (Double.of_int 60) 0) = Some h.
Proof.
  apply (proj1 (proj2 (proj2 C9_hash_consistent))
           (mkTime 23 59 (Double.of_int 60) 0)
           (mkTime 23 59 (Double.of_int 60) 0) 60 60);
    try reflexivity;
    unfold Int.in_range, Int.min_signed, Int.max_signed; lia.
Defined.

(** C9 as stated fails: the times 00:00:0.9999999990686774 and 00:00:01
    are [==] (their seconds differ by [2^-30 < 1e-8]) although their
    seconds are different numbers, and they hash to 0 and 1. *)
Lemma C9_counterexample :
  Time.eqb (mkTime 0 0 just_below_one 0) (mkTime 0 0 (Double.of_int 1) 0) = true
  /\ Double.eqb just_below_one (Double.of_int 1) = false
  /\ Time.hashCode (mkTime 0 0 just_below_one 0) = Some 0
  /\ Time.hashCode (mkTime 0 0 (Double.of_int 1) 0) = Some 1.
Proof. vm_compute. repeat split; reflexivity. Qed.



(** * Further properties

    Properties of the functions around the main theorems: the three
    constructors of dates, the week and day-in-year accessors, the month
    and year tables, the hash, and times and date-times with whole
    seconds. *)

(** ** Day-counts and dates *)

Lemma table_common_10 p :
  table_at (MonthDay.table COMMON_YEAR_FACTORY) 10 = Some p -> p = 273.
Proof. vm_compute. congruence. Qed.

Lemma fromOffset_valid d :
  Int.in_range d ->
  exists t, Date.fromOffset d = Some t /\ validDate t = true.
Proof.
  intros Hd. destruct (fromOffset_facts d Hd) as (t & p & E & F).
  exists t. split; [exact E|]. destruct F as [Hy Hr Hb Hyo Hm Ht Hday Hsum Hf].
  unfold Int.in_range, Int.min_signed, Int.max_signed in Hd.
  unfold validDate. cbv zeta. rewrite Hf.
  set (f := Date.offsetFactory d) in *.
  set (md := mdFactoryOf f (year t)) in *.
  assert (G : inReformGap t = false).
  { unfold inReformGap.
    destruct (Z.eqb_spec (year t) 1582) as [Ey|]; [|reflexivity].
    destruct (Z.eqb_spec (month t) 10) as [Em|]; [|reflexivity].
    destruct (Z.leb_spec 5 (day t)) as [H5|]; [|reflexivity].
    destruct (Z.leb_spec (day t) 14) as [H14|]; [|reflexivity]. exfalso.
    assert (Ef : f = GREGORIAN_FACTORY).
    { rewrite <- Hf. unfold Date.tripleFactory. rewrite Ey, Em. cbn.
      destruct (Z.ltb_spec (day t) 5); [lia|reflexivity]. }
    assert (Emd : md = COMMON_YEAR_FACTORY).
    { subst md. unfold mdFactoryOf. rewrite Ey. now rewrite isLeap_1582. }
    rewrite Emd, Em in Ht. apply table_common_10 in Ht. subst p.
    rewrite Ef, Ey in Hsum.
    replace (lastDay GREGORIAN_FACTORY (1582 - 1)) with (-152672) in Hsum
      by (vm_compute; reflexivity).
    subst f. unfold Date.offsetFactory in Ef.
    destruct (Z.ltb_spec d (-152384)); [|lia].
    destruct (d >? -730122); discriminate. }
  assert (Lo : tripleLeb (mkDate (-5877490) 3 3) t = true).
  { unfold tripleLeb. cbn [year month day].
    destruct (Z.ltb_spec (-5877490) (year t)); [reflexivity|].
    assert (Ey : year t = -5877490) by lia.
    rewrite Ey, Z.eqb_refl. cbn [orb andb].
    assert (Ef : f = PROLEPTIC_JULIAN_FACTORY).
    { rewrite <- Hf. unfold Date.tripleFactory. rewrite Ey. reflexivity. }
    assert (Emd : md = COMMON_YEAR_FACTORY).
    { subst md. unfold mdFactoryOf. rewrite Ey. now rewrite isLeap_min. }
    rewrite Emd in *.
    rewrite (monthDay_order COMMON_YEAR_FACTORY 3 3 59 (month t) (day t) p);
      [ | lia | cbn; lia | reflexivity | lia | lia | exact Ht ].
    apply Z.leb_le. rewrite Ef, Ey in Hsum.
    replace (lastDay PROLEPTIC_JULIAN_FACTORY (-5877490 - 1)) with (-2147483710) in Hsum
      by (vm_compute; reflexivity).
    lia. }
  assert (Hi : tripleLeb t (mkDate 5881610 7 11) = true).
  { unfold tripleLeb. cbn [year month day].
    destruct (Z.ltb_spec (year t) 5881610); [reflexivity|].
    assert (Ey : year t = 5881610) by lia.
    rewrite Ey, Z.eqb_refl. cbn [orb andb].
    assert (Ef : f = GREGORIAN_FACTORY).
    { rewrite <- Hf. unfold Date.tripleFactory. rewrite Ey. reflexivity. }
    assert (Emd : md = COMMON_YEAR_FACTORY).
    { subst md. unfold mdFactoryOf. rewrite Ey. now rewrite isLeap_max. }
    rewrite Emd in *.
    rewrite (monthDay_order COMMON_YEAR_FACTORY (month t) (day t) p 7 11 181);
      [ | lia | lia | exact Ht | lia | cbn; lia | reflexivity ].
    apply Z.leb_le. rewrite Ef, Ey in Hsum.
    replace (lastDay GREGORIAN_FACTORY (5881610 - 1)) with 2147483455 in Hsum
      by (vm_compute; reflexivity).
    lia. }
  rewrite G, Lo, Hi. cbn [negb andb].
  repeat (apply andb_true_intro; split); try reflexivity;
    first [apply Z.leb_le; lia].
Qed.

Lemma fromOffset_day d :
  Int.in_range d ->
  exists t, Date.fromOffset d = Some t /\ Date.getJ2000Day t = Some d
            /\ validDate t = true.
Proof.
  intros Hd. destruct (fromOffset_valid d Hd) as (t & E & V).
  exists t. split; [exact E|]. split; [|exact V].
  pose proof (offset_roundtrip d Hd) as R. rewrite E in R. exact R.
Qed.

Lemma Date_eqb_eq a b : Date.eqb a b = true <-> a = b.
Proof.
  unfold Date.eqb. split.
  - intros H. apply andb_prop in H. destruct H as [H H3].
    apply andb_prop in H. destruct H as [H1 H2].
    apply Z.eqb_eq in H1, H2, H3. destruct a, b; cbn in *; congruence.
  - intros ->. now rewrite !Z.eqb_refl.
Qed.

Theorem fromOffset_order d1 d2 :
  Int.in_range d1 -> Int.in_range d2 ->
  exists t1 t2,
    Date.fromOffset d1 = Some t1 /\ Date.fromOffset d2 = Some t2
    /\ Date.lt t1 t2 = Some (d1 <? d2)
    /\ Date.eqb t1 t2 = (d1 =? d2).
Proof.
  intros H1 H2.
  destruct (fromOffset_day d1 H1) as (t1 & E1 & J1 & _).
  destruct (fromOffset_day d2 H2) as (t2 & E2 & J2 & _).
  exists t1, t2. repeat split; try assumption.
  - unfold Date.lt. rewrite J1, J2. reflexivity.
  - destruct (Z.eqb_spec d1 d2) as [->|N].
    + apply Date_eqb_eq. congruence.
    + destruct (Date.eqb t1 t2) eqn:Q; [|reflexivity].
      apply Date_eqb_eq in Q. subst t2. congruence.
Qed.

Theorem fromEpochOffset_compose epoch e a b t :
  Date.getJ2000Day epoch = Some e ->
  Date.fromEpochOffset epoch a = Some t ->
  Date.fromEpochOffset t b = Date.fromEpochOffset epoch (Int.add a b)
  /\ Date.getJ2000Day t = Some (Int.add e a).
Proof.
  intros He Ht. unfold Date.fromEpochOffset in *. rewrite He in *. cbn [bind] in *.
  pose proof (offset_roundtrip (Int.add e a) (wrap_range _)) as R.
  rewrite Ht in R. cbn [bind] in R. rewrite R. cbn [bind]. split; [|reflexivity].
  f_equal. unfold Int.add. wrap_solve.
Qed.

Theorem fromEpochOffset_zero epoch :
  validDate epoch = true -> Date.fromEpochOffset epoch 0 = Some epoch.
Proof.
  intros V. pose proof (triple_roundtrip epoch V) as R.
  unfold Date.fromEpochOffset.
  destruct (validDate_facts epoch V) as [p F].
  pose proof (getJ2000Day_valid epoch p F) as E. rewrite E in *. cbn [bind] in *.
  destruct F. unfold Int.add. rewrite Z.add_0_r, wrap_small by assumption. exact R.
Qed.

Theorem getMJD_roundtrip n :
  Int.in_range n ->
  exists t, Date.fromEpochOffset Date.MODIFIED_JULIAN_EPOCH n = Some t
            /\ Date.getMJD t = Some n
            /\ validDate t = true.
Proof.
  intros Hn. unfold Date.fromEpochOffset.
  replace (Date.getJ2000Day Date.MODIFIED_JULIAN_EPOCH) with (Some (-51544))
    by (vm_compute; reflexivity).
  cbn [bind].
  destruct (fromOffset_day (Int.add (-51544) n) (wrap_range _)) as (t & E & J & V).
  exists t. split; [exact E|]. split; [|exact V].
  unfold Date.getMJD. rewrite J. cbn [bind]. f_equal.
  unfold Date.MJD_TO_J2000, Int.add.
  rewrite <- (wrap_small n Hn) at 2. wrap_solve.
Qed.

Theorem getDayOfWeek_succ d :
  Int.in_range d -> d + 7 <= Int.max_signed ->
  exists t t' w,
    Date.fromOffset d = Some t /\ Date.fromOffset (d + 1) = Some t'
    /\ Date.getDayOfWeek t = Some w /\ 1 <= w <= 7
    /\ Date.getDayOfWeek t' = Some (if w =? 7 then 1 else w + 1)
    /\ (w = 1 <-> (d - 2) mod 7 = 0).
Proof.
  intros Hd Hmax. unfold Int.in_range, Int.min_signed, Int.max_signed in *.
  destruct (fromOffset_day d) as (t & E & J & _); [unfold Int.in_range, Int.min_signed, Int.max_signed; lia|].
  destruct (fromOffset_day (d + 1)) as (t' & E' & J' & _); [unfold Int.in_range, Int.min_signed, Int.max_signed; lia|].
  exists t, t', ((d - 2) mod 7 + 1).
  split; [exact E|]. split; [exact E'|].
  split; [apply getDayOfWeek_exact; [exact J | lia]|].
  split; [Z.div_mod_to_equations; lia|].
  split.
  - rewrite (getDayOfWeek_exact t' (d + 1) J') by lia. f_equal.
    destruct (Z.eqb_spec ((d - 2) mod 7 + 1) 7); Z.div_mod_to_equations; lia.
  - Z.div_mod_to_equations; lia.
Qed.

(** ** Years, months and days in the year *)

Lemma lastDay_range f y :
  -5800000 <= y <= 5800000 -> Int.in_range (lastDay f y).
Proof.
  intros H. unfold Int.in_range, Int.min_signed, Int.max_signed.
  destruct f; unfold lastDay; qr; lia.
Qed.

Theorem isLeap_year_length f y :
  -5800000 < y <= 5800000 ->
  match f with PROLEPTIC_JULIAN_FACTORY => y <= -1 | _ => 1 <= y end ->
  Year.getLastJ2000DayOfYear f y - Year.getLastJ2000DayOfYear f (y - 1)
  = if Year.isLeap f y then 366 else 365.
Proof.
  intros Hy Hf.
  rewrite !last_wrap by (unfold Int.min_signed, Int.max_signed; lia).
  rewrite !wrap_small by (apply lastDay_range; lia).
  rewrite (lastDay_step f y) by (destruct f; unfold formulaYear; lia).
  unfold mdFactoryOf. destruct (Year.isLeap f y); cbn [daysInYear]; lia.
Qed.

Theorem fromOffset_year_bracket d :
  Int.in_range d ->
  exists t, Date.fromOffset d = Some t
    /\ (-5877489 <= year t <= 5881609 ->
        exists a b,
          Date.getJ2000Day (Date.fromYMD (year t) 1 1) = Some a
          /\ Date.getJ2000Day (Date.fromYMD (year t + 1) 1 1) = Some b
          /\ a <= d < b).
Proof.
  intros Hd. destruct (fromOffset_year d Hd) as (t & E & _ & B).
  exists t. split; [exact E|]. intros Hy.
  exists (yearStart (year t)), (yearStart (year t + 1)).
  unfold Date.fromYMD.
  destruct (getJ2000Day_jan1 (year t) ltac:(lia)) as [-> _].
  destruct (getJ2000Day_jan1 (year t + 1) ltac:(lia)) as [-> _].
  auto.
Qed.

(** Month tables *)
Lemma table_at_range md m p :
  table_at (MonthDay.table md) m = Some p -> 0 <= p <= 335.
Proof.
  unfold table_at.
  destruct (Z.leb_spec 0 m), (Z.ltb_spec m 13); cbn [andb]; try discriminate.
  intros Hp.
  assert (C : m = 0 \/ m = 1 \/ m = 2 \/ m = 3 \/ m = 4 \/ m = 5 \/ m = 6 \/ m = 7
              \/ m = 8 \/ m = 9 \/ m = 10 \/ m = 11 \/ m = 12) by lia.
  destruct md; repeat (destruct C as [C|C]); subst m;
    vm_compute in Hp; injection Hp as <-; lia.
Qed.

Theorem monthDay_roundtrip md :
  (forall n, 1 <= n <= daysInYear md ->
     exists dd,
       MonthDay.getDay md n (MonthDay.getMonth md n) = Some dd
       /\ 1 <= MonthDay.getMonth md n <= 12
       /\ 1 <= dd <= monthLength md (MonthDay.getMonth md n)
       /\ MonthDay.getDayInYear md (MonthDay.getMonth md n) dd = Some n)
  /\ (forall m dd, 1 <= m <= 12 -> 1 <= dd <= monthLength md m ->
        exists n,
          MonthDay.getDayInYear md m dd = Some n
          /\ 1 <= n <= daysInYear md
          /\ MonthDay.getMonth md n = m
          /\ MonthDay.getDay md n m = Some dd).
Proof.
  pose proof (daysInYear_le md) as Hle.
  split.
  - intros n Hn. destruct (getMonth_getDay md n Hn) as (p & Hm & Ht & Hdd).
    cbv zeta in *. exists (n - p).
    pose proof (table_at_range md _ p Ht) as Hp.
    pose proof (monthLength_le md (MonthDay.getMonth md n)).
    unfold MonthDay.getDay, MonthDay.getDayInYear. rewrite Ht. cbn [option_map].
    rewrite (Int_sub_small n p) by int_small.
    repeat split; try lia. f_equal. rewrite Int_add_small by int_small. ring.
  - intros m dd Hm Hdd.
    destruct (getDayInYear_getMonth md m dd Hm Hdd) as (p & Ht & Hg & Hn & Hp0).
    pose proof (table_at_range md _ p Ht) as Hp.
    pose proof (monthLength_le md m).
    exists (dd + p).
    unfold MonthDay.getDay, MonthDay.getDayInYear. rewrite Ht. cbn [option_map].
    rewrite (Int_add_small dd p) by int_small.
    repeat split; try lia; try assumption.
    f_equal. rewrite Int_sub_small by int_small. ring.
Qed.

(** Day in year *)
Lemma yearStart_step_exact y : yearStart (y + 1) - yearStart y = yearDays y.
Proof.
  unfold yearDays, yearStart. rewrite !tripleFactory_jan1.
  replace (y + 1 - 1) with y by ring.
  destruct (Z.eqb_spec y 1582) as [->|N]; [vm_compute; reflexivity|].
  destruct (Z.ltb_spec (y + 1) 1).
  - destruct (Z.ltb_spec y 1); [|lia].
    rewrite (lastDay_step PROLEPTIC_JULIAN_FACTORY y) by (unfold formulaYear; lia).
    unfold mdFactoryOf. destruct (Year.isLeap _ y); cbn [daysInYear]; lia.
  - destruct (Z.ltb_spec y 1).
    + assert (y = 0) by lia. subst y. vm_compute. reflexivity.
    + destruct (Z.ltb_spec (y + 1) 1583).
      * destruct (Z.ltb_spec y 1583); [|lia].
        rewrite (lastDay_step JULIAN_FACTORY y) by (unfold formulaYear; lia).
        unfold mdFactoryOf. destruct (Year.isLeap _ y); cbn [daysInYear]; lia.
      * destruct (Z.ltb_spec y 1583); [lia|].
        rewrite (lastDay_step GREGORIAN_FACTORY y) by (unfold formulaYear; lia).
        unfold mdFactoryOf. destruct (Year.isLeap _ y); cbn [daysInYear]; lia.
Qed.

Lemma fromOffset_in_year d y :
  Int.in_range d -> yearStart y <= d < yearStart (y + 1) ->
  exists t, Date.fromOffset d = Some t /\ Date.getJ2000Day t = Some d
            /\ validDate t = true /\ year t = y.
Proof.
  intros Hd Hy. destruct (fromOffset_year d Hd) as (t & E & J & B).
  destruct (fromOffset_day d Hd) as (t' & E' & _ & V).
  assert (t' = t) by congruence. subst t'.
  exists t. repeat split; try assumption.
  destruct (Z_lt_le_dec (year t) y) as [L|G].
  - pose proof (yearStart_mono (year t + 1) y ltac:(lia)). lia.
  - destruct (Z_lt_le_dec y (year t)) as [L|G'].
    + pose proof (yearStart_mono (y + 1) (year t) ltac:(lia)). lia.
    + lia.
Qed.

Lemma tripleFactory_dec31 y :
  y <> 1 ->
  Date.tripleFactory (mkDate (y - 1) 12 31) = Date.tripleFactory (mkDate y 1 1).
Proof.
  intros N. unfold Date.tripleFactory. cbn [year month day].
  destruct (Z.ltb_spec (y - 1) 1583), (Z.ltb_spec y 1583),
    (Z.ltb_spec (y - 1) 1), (Z.ltb_spec y 1),
    (Z.ltb_spec (y - 1) 1582), (Z.ltb_spec y 1582);
    cbn; try reflexivity; lia.
Qed.

Lemma getJ2000Day_dec31 y :
  -5877489 <= y <= 5881610 ->
  Date.getJ2000Day (mkDate (y - 1) 12 31) = Some (yearStart y - 1).
Proof.
  intros Hy.
  destruct (Z.eq_dec y 1) as [->|N]; [vm_compute; reflexivity|].
  pose proof (yearStart_bounds y Hy) as B.
  set (t := mkDate (y - 1) 12 31).
  set (f := Date.tripleFactory t).
  set (md := mdFactoryOf f (y - 1)).
  assert (Ht : table_at (MonthDay.table md) 12 = Some (daysInYear md - 31))
    by (destruct md; reflexivity).
  rewrite (getJ2000Day_exact t (daysInYear md - 31)); [|cbn; lia|exact Ht].
  f_equal. fold f. change (year t) with (y - 1). change (day t) with 31.
  replace (lastDay f (y - 1 - 1) + (daysInYear md - 31) + 31)
    with (lastDay f (y - 1 - 1) + daysInYear md) by ring.
  assert (Ef : f = Date.tripleFactory (mkDate y 1 1)) by (apply tripleFactory_dec31; exact N).
  assert (Es : lastDay f (y - 1) = lastDay f (y - 1 - 1) + daysInYear md).
  { apply lastDay_step; rewrite Ef, tripleFactory_jan1;
      replace (y - 1 + 1) with y by ring;
      destruct (Z.ltb_spec y 1); try (destruct (Z.ltb_spec y 1583));
      unfold formulaYear; lia. }
  rewrite <- Es. unfold yearStart in *. rewrite <- Ef in *.
  replace (lastDay f (y - 1) + 1 - 1) with (lastDay f (y - 1)) by ring.
  apply wrap_small. int_small.
Qed.

Theorem fromYearDay_roundtrip y n :
  -5877489 <= y <= 5881609 -> 1 <= n <= yearDays y ->
  exists t, Date.fromYearDay y n = Some t
            /\ validDate t = true
            /\ Date.getYear t = y
            /\ Date.getDayOfYear t = Some n.
Proof.
  intros Hy Hn.
  pose proof (yearStart_bounds y ltac:(lia)) as B.
  pose proof (yearStart_bounds (y + 1) ltac:(lia)) as B1.
  pose proof (yearStart_step_exact y) as S.
  pose proof (yearStart_step_bounds y) as S'.
  unfold Date.fromYearDay, Date.fromYMD.
  rewrite Int_sub_small by int_small.
  rewrite (getJ2000Day_dec31 y) by lia. cbn [bind].
  unfold Date.fromEpochOffset.
  replace (Date.getJ2000Day Date.J2000_EPOCH) with (Some 0) by (vm_compute; reflexivity).
  cbn [bind].
  rewrite (Int_add_small (yearStart y - 1) n) by int_small.
  rewrite (Int_add_small 0 _) by int_small. rewrite Z.add_0_l.
  destruct (fromOffset_in_year (yearStart y - 1 + n) y) as (t & E & J & V & Ey);
    [int_small | lia |].
  exists t. repeat split; try assumption.
  unfold Date.getDayOfYear, Date.fromYMD. rewrite J, Ey. cbn [bind].
  rewrite Int_sub_small by int_small.
  rewrite (getJ2000Day_dec31 y) by lia. cbn [bind]. f_equal.
  rewrite Int_sub_small by int_small. ring.
Qed.

(** ** Week dates *)

Lemma createFromWeekComponents_exact w k dow :
  -5877489 <= w <= 5881610 ->
  Int.in_range (firstMonday w + 7 * k + dow - 8) ->
  Date.createFromWeekComponents w k dow
  = Date.fromOffset (firstMonday w + 7 * k + dow - 8).
Proof.
  intros Hw Hr.
  pose proof (firstMonday_near w) as N0.
  pose proof (yearStart_bounds w ltac:(lia)) as B0.
  unfold Date.createFromWeekComponents.
  rewrite (getFirstWeekMonday_exact w) by lia. cbn [bind].
  destruct (fromOffset_year (firstMonday w) ltac:(int_small)) as (t0 & -> & E0 & _).
  cbn [bind]. unfold Date.fromEpochOffset. rewrite E0. cbn [bind]. f_equal.
  transitivity (Int.wrap (firstMonday w + 7 * k + dow - 8)).
  - unfold Int.add, Int.sub, Int.mul. wrap_solve.
  - now apply wrap_small.
Qed.

Lemma valid_day t :
  validDate t = true ->
  exists d, Date.getJ2000Day t = Some d /\ Int.in_range d
            /\ Date.fromOffset d = Some t
            /\ yearStart (year t) <= d < yearStart (year t + 1).
Proof.
  intros V. destruct (validDate_facts t V) as [p F].
  pose proof (getJ2000Day_valid t p F) as J.
  pose proof (triple_roundtrip t V) as R. rewrite J in R. cbn [bind] in R.
  assert (Hr : Int.in_range (dayNumber t p)) by (destruct F; assumption).
  exists (dayNumber t p).
  split; [exact J|]. split; [exact Hr|]. split; [exact R|].
  destruct (fromOffset_year _ Hr) as (t' & E & _ & B).
  assert (t' = t) by congruence. subst t'. exact B.
Qed.

Lemma getJ2000Day_jan4 y :
  -5877489 <= y <= 5881609 ->
  Date.getJ2000Day (mkDate y 1 4) = Some (yearStart y + 3).
Proof.
  intros Hy. pose proof (yearStart_bounds y ltac:(lia)) as B.
  set (t := mkDate y 1 4).
  assert (Ef : Date.tripleFactory t = Date.tripleFactory (mkDate y 1 1)).
  { unfold Date.tripleFactory, t. cbn [year month day].
    destruct (y <? 1583), (y <? 1), (y <? 1582); reflexivity. }
  rewrite (getJ2000Day_exact t 0).
  - f_equal. rewrite Ef. change (year t) with y. change (day t) with 4.
    unfold yearStart in *.
    replace (lastDay (Date.tripleFactory (mkDate y 1 1)) (y - 1) + 0 + 4)
      with (lastDay (Date.tripleFactory (mkDate y 1 1)) (y - 1) + 1 + 3) by ring.
    apply wrap_small. int_small.
  - cbn. lia.
  - change (month t) with 1. destruct (mdFactoryOf _ _); reflexivity.
Qed.

(** ISO week 1: the first Monday and January 4th. *)
Theorem first_week y :
  -5877488 <= y <= 5881609 ->
  exists m jan1 t,
    Date.getFirstWeekMonday y = Some m
    /\ Date.getJ2000Day (Date.fromYMD y 1 1) = Some jan1
    /\ jan1 - 3 <= m <= jan1 + 3
    /\ Date.fromOffset m = Some t
    /\ Date.getDayOfWeek t = Some 1
    /\ Date.getCalendarWeek t = Some 1
    /\ Date.getCalendarWeek (Date.fromYMD y 1 4) = Some 1.
Proof.
  intros Hy.
  pose proof (firstMonday_near y) as N0.
  pose proof (firstMonday_near (y + 1)) as N1.
  pose proof (firstMonday_monday y) as M0.
  pose proof (firstMonday_monday (y + 1)) as M1.
  pose proof (yearStart_bounds y ltac:(lia)) as B0.
  pose proof (yearStart_step_bounds y) as S0.
  destruct (getJ2000Day_jan1 y ltac:(lia)) as [J1 _].
  assert (L : firstMonday y + 7 * 1 <= firstMonday (y + 1))
    by (Z.div_mod_to_equations; lia).
  destruct (fromOffset_year (firstMonday y) ltac:(int_small)) as (t & E & J & Bt).
  exists (firstMonday y), (yearStart y), t.
  split; [apply getFirstWeekMonday_exact; lia|].
  split; [exact J1|]. split; [lia|]. split; [exact E|].
  split; [|split].
  - rewrite (getDayOfWeek_exact t _ J) by lia. f_equal. lia.
  - apply (getCalendarWeek_exact t (firstMonday y) y 1 1); auto; lia.
  - unfold Date.fromYMD.
    apply (getCalendarWeek_exact (mkDate y 1 4) (yearStart y + 3) y 1
             (yearStart y + 3 - firstMonday y + 1));
      try lia; [apply getJ2000Day_jan4; lia | cbn [year]; lia].
Qed.

(** Every date is the date of its own week components. *)
Theorem week_components_roundtrip t :
  validDate t = true -> -5877487 <= year t <= 5881608 ->
  exists wYear week dayOfWeek,
    Date.getCalendarWeek t = Some week
    /\ Date.getDayOfWeek t = Some dayOfWeek
    /\ 1 <= week <= 53 /\ 1 <= dayOfWeek <= 7
    /\ year t - 1 <= wYear <= year t + 1
    /\ Date.createFromWeekComponents wYear week dayOfWeek = Some t.
Proof.
  intros V Hy. destruct (valid_day t V) as (d & J & Hr & E & B).
  set (y := year t) in *.
  pose proof (firstMonday_near (y - 1)) as Np.
  pose proof (firstMonday_near y) as N0.
  pose proof (firstMonday_near (y + 1)) as N1.
  pose proof (firstMonday_near (y + 2)) as N2.
  pose proof (yearStart_step_bounds (y - 1)) as Sp.
  pose proof (yearStart_step_bounds y) as S0.
  pose proof (yearStart_step_bounds (y + 1)) as S1.
  replace (y - 1 + 1) with y in Sp by ring.
  replace (y + 1 + 1) with (y + 2) in S1 by ring.
  pose proof (yearStart_bounds (y - 1) ltac:(lia)) as Bp.
  pose proof (yearStart_bounds (y + 1) ltac:(lia)) as B1.
  assert (W : exists w, y - 1 <= w <= y + 1
              /\ firstMonday w <= d < firstMonday (w + 1)).
  { destruct (Z_lt_le_dec d (firstMonday y)).
    - exists (y - 1). replace (y - 1 + 1) with y by ring. lia.
    - destruct (Z_lt_le_dec d (firstMonday (y + 1))).
      + exists y. lia.
      + exists (y + 1). replace (y + 1 + 1) with (y + 2) by ring. lia. }
  destruct W as (w & Hw & Hd).
  pose proof (firstMonday_monday w) as M0.
  pose proof (firstMonday_monday (w + 1)) as M1.
  pose proof (firstMonday_near w) as Nw.
  pose proof (firstMonday_near (w + 1)) as Nw1.
  pose proof (yearStart_step_bounds w) as Sw.
  set (k := (d - firstMonday w) / 7 + 1).
  set (dow := (d - firstMonday w) mod 7 + 1).
  assert (Hk : 1 <= k <= 53) by (subst k; Z.div_mod_to_equations; lia).
  assert (Hdow : 1 <= dow <= 7) by (subst dow; Z.div_mod_to_equations; lia).
  assert (Hlen : firstMonday w + 7 * k <= firstMonday (w + 1))
    by (subst k; Z.div_mod_to_equations; lia).
  assert (Ed : d = firstMonday w + 7 * k + dow - 8)
    by (subst k dow; Z.div_mod_to_equations; lia).
  exists w, k, dow.
  split; [apply (getCalendarWeek_exact t d w k dow); auto; lia|].
  split.
  { rewrite (getDayOfWeek_exact t d J) by (unfold Int.in_range, Int.min_signed in *; lia).
    f_equal. subst dow. Z.div_mod_to_equations. lia. }
  split; [exact Hk|]. split; [exact Hdow|]. split; [exact Hw|].
  rewrite createFromWeekComponents_exact by (try lia; rewrite <- Ed; exact Hr).
  rewrite <- Ed. exact E.
Qed.

(** ** The hash of a date *)

Lemma lxor_cancel_l a b c : Z.lxor a b = Z.lxor a c -> b = c.
Proof.
  intros H. apply (f_equal (Z.lxor a)) in H.
  now rewrite <- !Z.lxor_assoc, Z.lxor_nilpotent, !Z.lxor_0_l in H.
Qed.

Lemma lxor_cancel_r a b c : Z.lxor b a = Z.lxor c a -> b = c.
Proof. rewrite !(Z.lxor_comm _ a). apply lxor_cancel_l. Qed.

Lemma hash_small y m d :
  -32768 <= y <= 32767 -> 0 <= m <= 255 -> 0 <= d <= 255 ->
  Date.hashCode (mkDate y m d)
  = Z.lxor (Z.lxor (Z.shiftl y 16) (Z.shiftl m 8)) d.
Proof.
  intros Hy Hm Hd. unfold Date.hashCode, Int.xor, Int.shl. cbn [year month day].
  rewrite !wrap_small; [reflexivity| |];
    rewrite Z.shiftl_mul_pow2 by lia; int_small.
Qed.

Lemma hash_year y m d :
  0 <= m <= 255 -> 0 <= d <= 255 ->
  Z.shiftr (Z.lxor (Z.lxor (Z.shiftl y 16) (Z.shiftl m 8)) d) 16 = y.
Proof.
  intros Hm Hd. rewrite !Z.shiftr_lxor.
  rewrite Z.shiftr_shiftl_l by lia. rewrite Z.shiftr_shiftl_r by lia.
  cbn [Z.sub Z.add Z.opp Z.pos_sub Pos.pred_double].
  rewrite Z.shiftl_0_r.
  rewrite (Z.shiftr_div_pow2 m) by lia. rewrite (Z.shiftr_div_pow2 d) by lia.
  rewrite !Z.div_small by lia. now rewrite !Z.lxor_0_r.
Qed.

Lemma hash_month y m m' d d' :
  0 <= d <= 255 -> 0 <= d' <= 255 ->
  Z.lxor (Z.lxor (Z.shiftl y 16) (Z.shiftl m 8)) d
  = Z.lxor (Z.lxor (Z.shiftl y 16) (Z.shiftl m' 8)) d' ->
  m = m'.
Proof.
  intros Hd Hd' H. apply (f_equal (fun h => Z.shiftr h 8)) in H.
  rewrite !Z.shiftr_lxor in H.
  rewrite !(Z.shiftr_shiftl_l _ 8 8) in H by lia.
  rewrite (Z.shiftr_div_pow2 d), (Z.shiftr_div_pow2 d') in H by lia.
  rewrite !Z.div_small, !Z.lxor_0_r, Z.sub_diag, !Z.shiftl_0_r in H by lia.
  now apply lxor_cancel_l in H.
Qed.

Theorem Date_hashCode_injective a b :
  -32768 <= year a <= 32767 -> 0 <= month a <= 255 -> 0 <= day a <= 255 ->
  -32768 <= year b <= 32767 -> 0 <= month b <= 255 -> 0 <= day b <= 255 ->
  Date.hashCode a = Date.hashCode b -> a = b.
Proof.
  destruct a as [y m d], b as [y' m' d']. cbn [year month day].
  intros Hy Hm Hd Hy' Hm' Hd' H.
  rewrite !hash_small in H by assumption.
  assert (Ey : y = y').
  { rewrite <- (hash_year y m d Hm Hd), <- (hash_year y' m' d' Hm' Hd').
    now rewrite H. }
  subst y'.
  assert (Em : m = m') by exact (hash_month y m m' d d' Hd Hd' H).
  subst m'. apply lxor_cancel_l in H. now subst d'.
Qed.

(** ** Doubles: exact arithmetic and order on integers *)

(** Addition of small integers is exact. *)
Lemma add_of_int a b :
  - 2 ^ 52 < a < 2 ^ 52 -> - 2 ^ 52 < b < 2 ^ 52 ->
  Double.add (Double.of_int a) (Double.of_int b) = Double.of_int (a + b).
Proof.
  intros Ha Hb.
  destruct (Z.eq_dec b 0) as [->|Hb0].
  { rewrite Z.add_0_r. destruct (Z.eq_dec a 0) as [->|Ha0]; [reflexivity|].
    destruct (of_int_form a Ha0 ltac:(lia)) as (m & e & -> & _). reflexivity. }
  destruct (of_int_form b Hb0 ltac:(lia)) as (mb & eb & Eb & Rb & Mb).
  destruct (Z.eq_dec a 0) as [->|Ha0].
  { rewrite Z.add_0_l, Eb. reflexivity. }
  destruct (of_int_form a Ha0 ltac:(lia)) as (ma & ea & Ea & Ra & Ma).
  rewrite Ea, Eb. unfold Double.add, SFadd.
  set (ez := Z.min ea eb).
  rewrite !shl_align_fst by lia.
  rewrite !cond_Zopp_mul, Ma, Mb.
  rewrite <- !Z.mul_assoc, <- !Z.pow_add_r by lia.
  replace (- ea + (ea - ez)) with (- ez) by ring.
  replace (- eb + (eb - ez)) with (- ez) by ring.
  rewrite <- Z.mul_add_distr_r.
  assert (Hk : 0 <= - ez) by lia.
  assert (0 < 2 ^ (- ez)) by (apply Z.pow_pos_nonneg; lia).
  unfold Double.of_int.
  destruct (a + b) as [|n|n] eqn:En.
  - reflexivity.
  - assert (Hp : exists p, Z.pos n * 2 ^ (- ez) = Z.pos p).
    { exists (Z.to_pos (Z.pos n * 2 ^ (- ez))). rewrite Z2Pos.id; nia. }
    destruct Hp as [p Hp]. rewrite Hp. cbn [binary_normalize].
    rewrite (binary_round_int_exp false n ez p) by lia.
    symmetry. apply (binary_round_int false n 0 ltac:(lia) ltac:(lia)). simpl. lia.
  - assert (Hp : exists p, Z.neg n * 2 ^ (- ez) = Z.neg p).
    { exists (Z.to_pos (Z.pos n * 2 ^ (- ez))).
      change (Z.neg n) with (- Z.pos n).
      rewrite <- Pos2Z.opp_pos, Z2Pos.id; nia. }
    destruct Hp as [p Hp]. rewrite Hp. cbn [binary_normalize].
    change (Z.neg n) with (- Z.pos n) in Hp. change (Z.neg p) with (- Z.pos p) in Hp.
    rewrite (binary_round_int_exp true n ez p) by lia.
    symmetry. apply (binary_round_int true n 0 ltac:(lia) ltac:(lia)). simpl. lia.
Qed.

(** Rounding a mantissa that only carries extra zero bits. *)
Lemma binary_round_aux_exact s p e q g :
  canonical q g -> e <= g -> Z.pos p = Z.pos q * 2 ^ (g - e) ->
  binary_round_aux Double.prec Double.emax s (Z.pos p) e loc_Exact
  = S754_finite s q g.
Proof.
  intros C L E. pose proof C as [C1 C2].
  destruct (Z.eq_dec e g) as [->|N].
  { rewrite Z.sub_diag, Z.mul_1_r in E. injection E as ->.
    now apply binary_round_aux_canonical. }
  assert (D : Z.pos (digits2_pos p) + e = Z.pos (digits2_pos q) + g).
  { rewrite (digits2_pos_scale q p (g - e)); [ring | lia | exact E]. }
  unfold binary_round_aux.
  assert (Es : shr_fexp Double.prec Double.emax (Z.pos p) e loc_Exact
               = (Build_shr_record (Z.pos q) false false, g)).
  { unfold shr_fexp. cbn [Zdigits2]. fold fexp64. rewrite D, C1.
    unfold shr. destruct (g - e) as [|j|j] eqn:Ej; try lia.
    cbn [shr_record_of_loc]. rewrite E, shr_iter_exact by lia.
    f_equal. lia. }
  rewrite Es. cbn [shr_m loc_of_shr_record round_nearest_even].
  rewrite (shr_fexp_canonical q g C). cbn [shr_m].
  replace (g <=? Double.emax - Double.prec) with true; [reflexivity|].
  symmetry. apply Z.leb_le. exact C2.
Qed.

Lemma digits2_pos_mul a b :
  Z.pos (digits2_pos a) + Z.pos (digits2_pos b) - 1
  <= Z.pos (digits2_pos (a * b)).
Proof.
  pose proof (digits2_pos_bounds a) as Ba.
  pose proof (digits2_pos_bounds b) as Bb.
  pose proof (digits2_pos_bounds (a * b)) as Bn.
  rewrite Pos2Z.inj_mul in Bn.
  set (da := Z.pos (digits2_pos a)) in *.
  set (db := Z.pos (digits2_pos b)) in *.
  set (dn := Z.pos (digits2_pos (a * b))) in *.
  destruct (Z_lt_le_dec dn (da + db - 1)) as [L|G]; [exfalso|exact G].
  assert (P : 2 ^ dn <= 2 ^ (da - 1 + (db - 1))) by (apply Z.pow_le_mono_r; lia).
  rewrite Z.pow_add_r in P by lia.
  assert (0 < 2 ^ (da - 1)) by (apply Z.pow_pos_nonneg; lia).
  assert (0 < 2 ^ (db - 1)) by (apply Z.pow_pos_nonneg; lia).
  nia.
Qed.

(** The product of two positive integers, when it stays below [2^53]. *)
Lemma mul_pos_int s a b :
  Z.pos a < 2 ^ 53 -> Z.pos b < 2 ^ 53 -> Z.pos (a * b) < 2 ^ 53 ->
  binary_round_aux Double.prec Double.emax s
    (Z.pos (intMantissa a * intMantissa b)) (intExponent a + intExponent b)
    loc_Exact
  = S754_finite s (intMantissa (a * b)) (intExponent (a * b)).
Proof.
  intros Ha Hb Hn.
  destruct (int_canonical a Ha) as (Ma & Ra & _).
  destruct (int_canonical b Hb) as (Mb & Rb & _).
  destruct (int_canonical (a * b) Hn) as (Mn & Rn & Cn).
  pose proof (digits2_pos_mul a b) as D.
  unfold intExponent in *.
  apply binary_round_aux_exact; [exact Cn | lia |].
  rewrite Pos2Z.inj_mul, Ma, Mb, Mn, Pos2Z.inj_mul.
  rewrite <- !Z.mul_assoc. f_equal.
  rewrite (Z.mul_comm (2 ^ _) (Z.pos b * _)), <- !Z.mul_assoc. f_equal.
  rewrite <- !Z.pow_add_r by lia. f_equal. ring.
Qed.

(** Multiplication by a positive integer constant is exact. *)
Lemma mul_of_int a b :
  0 < a < 2 ^ 53 -> - 2 ^ 53 < b < 2 ^ 53 -> - 2 ^ 53 < a * b < 2 ^ 53 ->
  Double.mul (Double.of_int a) (Double.of_int b) = Double.of_int (a * b).
Proof.
  intros Ha Hb Hn. destruct a as [|a|a]; try lia.
  destruct b as [|b|b].
  - rewrite Z.mul_0_r, of_int_pos by lia. reflexivity.
  - rewrite !of_int_pos by lia. change (Z.pos a * Z.pos b) with (Z.pos (a * b)).
    rewrite of_int_pos by (change (Z.pos (a * b)) with (Z.pos a * Z.pos b); lia).
    apply (mul_pos_int false); lia.
  - rewrite of_int_pos, of_int_neg by lia.
    change (Z.pos a * Z.neg b) with (Z.neg (a * b)).
    rewrite of_int_neg by (change (Z.pos (a * b)) with (Z.pos a * Z.pos b); lia).
    apply (mul_pos_int true); lia.
Qed.

Lemma floorZ_of_int z :
  - 2 ^ 53 < z < 2 ^ 53 -> Double.floorZ (Double.of_int z) = Some z.
Proof.
  intros H. destruct (Z.eq_dec z 0) as [->|Hz]; [reflexivity|].
  destruct (of_int_form z Hz H) as (m & e & -> & He & Hm).
  unfold Double.floorZ. rewrite Hm. f_equal.
  destruct (Z.leb_spec 0 e).
  - replace e with 0 by lia. simpl. ring.
  - apply Z.div_mul. apply Z.pow_nonzero; lia.
Qed.

(** Comparison of the canonical forms of two positive integers. *)
Lemma intForm_order a b :
  Z.pos a < 2 ^ 53 -> Z.pos b < 2 ^ 53 ->
  (intExponent a < intExponent b -> (a < b)%positive)
  /\ (intExponent a = intExponent b ->
      Pos.compare (intMantissa a) (intMantissa b) = Pos.compare a b).
Proof.
  intros Ha Hb.
  destruct (int_canonical a Ha) as (Ma & Ra & _).
  destruct (int_canonical b Hb) as (Mb & Rb & _).
  pose proof (digits2_pos_bounds a) as Ba.
  pose proof (digits2_pos_bounds b) as Bb.
  unfold intExponent in *.
  set (da := Z.pos (digits2_pos a)) in *.
  set (db := Z.pos (digits2_pos b)) in *.
  split.
  - intros L. apply Pos2Z.pos_lt_pos.
    assert (2 ^ da <= 2 ^ (db - 1)) by (apply Z.pow_le_mono_r; lia). lia.
  - intros E. assert (Ed : da = db) by lia. rewrite Ed in *.
    rewrite !Pos2Z.inj_compare, Ma, Mb.
    assert (0 < 2 ^ (- (db - 53))) by (apply Z.pow_pos_nonneg; lia).
    set (k := 2 ^ (- (db - 53))) in *.
    destruct (Z.compare_spec (Z.pos a * k) (Z.pos b * k)),
      (Z.compare_spec (Z.pos a) (Z.pos b)); try reflexivity; nia.
Qed.

Lemma SFcompare_int s a b :
  Z.pos a < 2 ^ 53 -> Z.pos b < 2 ^ 53 ->
  SFcompare (S754_finite s (intMantissa a) (intExponent a))
    (S754_finite s (intMantissa b) (intExponent b))
  = Some (if s then CompOpp (Pos.compare a b) else Pos.compare a b).
Proof.
  intros Ha Hb.
  destruct (intForm_order a b Ha Hb) as [L E].
  destruct (intForm_order b a Hb Ha) as [L' _].
  unfold SFcompare. f_equal.
  destruct (Z.compare_spec (intExponent a) (intExponent b)) as [Q|Q|Q].
  - specialize (E Q). change (Pos.compare_cont Eq (intMantissa a) (intMantissa b))
      with (Pos.compare (intMantissa a) (intMantissa b)).
    rewrite E. destruct s; reflexivity.
  - specialize (L Q). apply Pos.compare_lt_iff in L. rewrite L. destruct s; reflexivity.
  - specialize (L' Q). apply Pos.compare_gt_iff in L'. rewrite L'. destruct s; reflexivity.
Qed.

(** Comparison of small integers as doubles. *)
Lemma ltb_of_int a b :
  - 2 ^ 53 < a < 2 ^ 53 -> - 2 ^ 53 < b < 2 ^ 53 ->
  Double.ltb (Double.of_int a) (Double.of_int b) = (a <? b).
Proof.
  intros Ha Hb. unfold Double.ltb, SFltb.
  destruct a as [|a|a], b as [|b|b];
    rewrite ?of_int_pos, ?of_int_neg by lia;
    try reflexivity.
  - rewrite SFcompare_int by lia. reflexivity.
  - rewrite SFcompare_int by lia.
    unfold Z.ltb. cbn [Z.compare].
    destruct (Pos.compare a b); reflexivity.
Qed.

(** ** Whole seconds of the day *)

Lemma hms_exact s :
  0 <= s <= 86399 ->
  let h := Int.div s 3600 in
  let w1 := Int.sub s (Int.mul 3600 h) in
  let mi := Int.div w1 60 in
  let w2 := Int.sub w1 (Int.mul 60 mi) in
  h = s / 3600 /\ mi = s mod 3600 / 60 /\ w2 = s mod 60.
Proof.
  intros Hs h w1 mi w2.
  assert (Eh : h = s / 3600).
  { subst h. rewrite Int_div_small by int_small. apply Z.quot_div_nonneg; lia. }
  assert (E1 : w1 = s mod 3600).
  { subst w1. rewrite Eh.
    unfold Int.sub, Int.mul.
    rewrite (wrap_small (3600 * _)) by (unfold Int.in_range, Int.min_signed, Int.max_signed; Z.div_mod_to_equations; lia).
    rewrite wrap_small by (unfold Int.in_range, Int.min_signed, Int.max_signed; Z.div_mod_to_equations; lia).
    Z.div_mod_to_equations; lia. }
  assert (Em : mi = s mod 3600 / 60).
  { subst mi. rewrite E1. rewrite Int_div_small.
    - apply Z.quot_div_nonneg; [Z.div_mod_to_equations; lia | lia].
    - unfold Int.in_range, Int.min_signed, Int.max_signed. qr. Z.div_mod_to_equations. lia. }
  split; [exact Eh|]. split; [exact Em|].
  subst w2. rewrite Em, E1. unfold Int.sub, Int.mul.
  rewrite (wrap_small (60 * _)) by (unfold Int.in_range, Int.min_signed, Int.max_signed; Z.div_mod_to_equations; lia).
  rewrite wrap_small by (unfold Int.in_range, Int.min_signed, Int.max_signed; Z.div_mod_to_equations; lia).
  Z.div_mod_to_equations; lia.
Qed.

Lemma clampSecond_int w md :
  0 <= w < md -> md < 2 ^ 31 ->
  clampSecond (Double.of_int w) md = Double.of_int w.
Proof.
  intros Hw Hmd. unfold clampSecond.
  rewrite ltb_of_int by lia.
  replace (w <? md) with true by (symmetry; apply Z.ltb_lt; lia). reflexivity.
Qed.

(** A whole number of seconds, given in two integer parts. *)
Theorem fromSecondsAB_whole a b :
  Int.in_range a -> Int.in_range b -> 0 <= a + b <= 86399 ->
  exists t,
    Time.fromSecondsAB a (Double.of_int b) = Some t
    /\ Time.getHour t = (a + b) / 3600
    /\ Time.getMinute t = (a + b) mod 3600 / 60
    /\ Time.getSecond t = Double.of_int ((a + b) mod 60)
    /\ Time.getMinutesFromUTC t = 0
    /\ Time.getSecondsInLocalDay t = Double.of_int (a + b)
    /\ Time.getSecondsInUTCDay t = Double.of_int (a + b).
Proof.
  intros Ha Hb Hs.
  assert (Ha' : - 2 ^ 31 <= a <= 2 ^ 31 - 1) by exact Ha.
  assert (Hb' : - 2 ^ 31 <= b <= 2 ^ 31 - 1) by exact Hb.
  assert (Fb : finite (Double.of_int b)) by (apply of_int_finite; lia).
  assert (Zb : Double.floorZ (Double.of_int b) = Some b) by (apply floorZ_of_int; lia).
  assert (Cb : Double.to_int (Double.floor (Double.of_int b)) = Some b)
    by (apply to_int_floor; assumption).
  unfold Time.fromSecondsAB.
  rewrite (beforeDayEnd_spec a (Double.of_int b) b Ha Fb Zb).
  replace (b <? 86400 - a) with true by (symmetry; apply Z.ltb_lt; lia).
  rewrite (fromSeconds_carry a (Double.of_int b) (Double.of_int 0) 60 b Cb).
  rewrite (Int_add_small a b) by int_small.
  destruct (hms_exact (a + b) Hs) as (Eh & Em & Ew). cbv zeta in *.
  rewrite Eh, Em in *. rewrite Ew.
  set (s := a + b) in *.
  assert (Hh : 0 <= s / 3600 <= 23) by (Z.div_mod_to_equations; lia).
  assert (Hm : 0 <= s mod 3600 / 60 <= 59) by (Z.div_mod_to_equations; lia).
  assert (Hw : 0 <= s mod 60 <= 59) by (Z.div_mod_to_equations; lia).
  rewrite sub_of_int by lia. rewrite Z.sub_diag.
  rewrite (add_of_int 0 0) by lia. rewrite (add_of_int (s mod 60) (0 + 0)) by lia.
  replace (s mod 60 + (0 + 0)) with (s mod 60) by ring.
  rewrite clampSecond_int by lia.
  eexists. split; [reflexivity|].
  unfold Time.getHour, Time.getMinute, Time.getSecond, Time.getMinutesFromUTC,
    Time.getSecondsInLocalDay, Time.getSecondsInUTCDay.
  cbn [hour minute second minutesFromUTC].
  rewrite (Int_sub_small _ 0) by int_small. rewrite Z.sub_0_r.
  rewrite !mul_of_int by lia. rewrite !add_of_int by lia.
  repeat split; try reflexivity; f_equal; Z.div_mod_to_equations; lia.
Qed.

(** One second past the end of the day is read as the leap second
    23:59:60. *)
Theorem fromSecondsAB_leap a b :
  Int.in_range a -> Int.in_range b -> a + b = 86400 ->
  Time.fromSecondsAB a (Double.of_int b)
  = Some (mkTime 23 59 (Double.of_int 60) 0).
Proof.
  intros Ha Hb Hs.
  assert (Ha' : - 2 ^ 31 <= a <= 2 ^ 31 - 1) by exact Ha.
  assert (Hb' : - 2 ^ 31 <= b <= 2 ^ 31 - 1) by exact Hb.
  assert (Fb : finite (Double.of_int b)) by (apply of_int_finite; lia).
  assert (Zb : Double.floorZ (Double.of_int b) = Some b) by (apply floorZ_of_int; lia).
  assert (Cb : Double.to_int (Double.floor (Double.of_int b)) = Some b)
    by (apply to_int_floor; assumption).
  unfold Time.fromSecondsAB.
  rewrite (beforeDayEnd_spec a (Double.of_int b) b Ha Fb Zb).
  replace (b <? 86400 - a) with false by (symmetry; apply Z.ltb_ge; lia).
  rewrite (fromSeconds_carry _ (Double.of_int b) (Double.of_int 1) 61 b Cb).
  assert (Ea : Int.add (Int.sub a 1) b = 86399).
  { unfold Int.add, Int.sub. rewrite wrap_add_l.
    replace (a - 1 + b) with 86399 by lia. reflexivity. }
  rewrite Ea. cbv zeta.
  rewrite sub_of_int by lia. rewrite Z.sub_diag.
  replace (Int.div 86399 3600) with 23 by reflexivity.
  replace (Int.sub 86399 (Int.mul 3600 23)) with 3599 by reflexivity.
  replace (Int.div 3599 60) with 59 by reflexivity.
  replace (Int.sub 3599 (Int.mul 60 59)) with 59 by reflexivity.
  rewrite (add_of_int 1 0), (add_of_int 59 (1 + 0)) by lia.
  rewrite clampSecond_int by (simpl; lia). reflexivity.
Qed.

(** ** Equality and order of times *)

Lemma sub_self x : isfinite x = true -> Double.sub x x = S754_zero false.
Proof.
  destruct x as [s|s| |s m e]; try discriminate; intros _.
  - destruct s; reflexivity.
  - unfold Double.sub, SFsub.
    rewrite Z.min_id.
    assert (E : shl_align m e e = (m, e)).
    { unfold shl_align. rewrite Z.sub_diag. reflexivity. }
    rewrite E. cbn [fst]. rewrite Z.sub_diag. reflexivity.
Qed.

Lemma sub_not_finite x : isfinite x = false -> Double.sub x x = S754_nan.
Proof. destruct x as [s|[]| |s m e]; try discriminate; reflexivity. Qed.

Lemma fabs_feq x y : feq x y -> Double.fabs x = Double.fabs y.
Proof.
  intros [->|[Hx Hy]]; [reflexivity|].
  destruct x, y; try discriminate. reflexivity.
Qed.

Lemma fabs_opp x : Double.fabs (Double.opp x) = Double.fabs x.
Proof. destruct x; reflexivity. Qed.

Lemma fabs_sub_sym x y :
  Double.fabs (Double.sub x y) = Double.fabs (Double.sub y x).
Proof.
  rewrite (fabs_feq _ _ (sub_antisym y x)). apply fabs_opp.
Qed.

Lemma sub_nan_l y : Double.sub S754_nan y = S754_nan.
Proof. reflexivity. Qed.

Lemma sub_nan_r x : Double.sub x S754_nan = S754_nan.
Proof. destruct x; reflexivity. Qed.

(** [operator==] on times. *)
Theorem Time_eqb_properties :
  (forall a b, Time.eqb a b = Time.eqb b a)
  /\ (forall a, Time.eqb a a = isfinite (second a))
  /\ (forall a b, Double.isnan (second a) = true -> Time.eqb a b = false)
  /\ (exists a b c,
        Time.eqb a b = true /\ Time.eqb b c = true /\ Time.eqb a c = false).
Proof.
  split; [|split; [|split]].
  - intros a b. unfold Time.eqb.
    rewrite (fabs_sub_sym (second a) (second b)).
    rewrite (Z.eqb_sym (hour a)), (Z.eqb_sym (minute a)),
      (Z.eqb_sym (minutesFromUTC a)). reflexivity.
  - intros a. unfold Time.eqb. rewrite !Z.eqb_refl. cbn [andb].
    rewrite andb_true_r.
    destruct (isfinite (second a)) eqn:F.
    + rewrite sub_self by exact F. reflexivity.
    + rewrite sub_not_finite by exact F. reflexivity.
  - intros a b N. unfold Time.eqb.
    destruct (second a); try discriminate. rewrite sub_nan_l.
    cbn. now rewrite !andb_false_r.
  - exists (mkTime 0 0 (Double.of_int 0) 0),
      (mkTime 0 0 (S754_finite false 6189700196426902 (-80)) 0),
      (mkTime 0 0 (S754_finite false 6189700196426902 (-79)) 0).
    vm_compute. repeat split; reflexivity.
Qed.

(** The order [<] on doubles. *)
Lemma ltb_rank x y :
  Double.ltb x y = true <->
  exists p q, rank x = Some p /\ rank y = Some q /\ rank_lt p q.
Proof.
  unfold Double.ltb, SFltb, SFcompare.
  destruct x as [sx|sx| |sx mx ex], y as [sy|sy| |sy my ey];
    try (split; [discriminate | intros (p & q & Hp & Hq & _); discriminate]).
  all: try destruct sx; try destruct sy; cbn [rank];
    try (split; [discriminate | intros (p & q & Hp & Hq & L);
                  injection Hp as <-; injection Hq as <-; cbn in L; lia]);
    try (split; [intros _; eexists; eexists; split; [reflexivity|split; [reflexivity|cbn; lia]]
                | reflexivity]).
  - (* both negative *)
    destruct (Z.compare_spec ex ey) as [E|L|G].
    + change (PosDef.Pos.compare_cont Eq mx my) with (Pos.compare mx my).
      destruct (Pos.compare_spec mx my) as [E'|L'|G']; cbn [CompOpp]; split;
        try discriminate; try reflexivity;
        try (intros (p & q & Hp & Hq & L); injection Hp as <-; injection Hq as <-; cbn in L; lia);
        try (intros _; eexists; eexists; split; [reflexivity|split; [reflexivity|cbn; lia]]).
    + split; try discriminate.
      intros (p & q & Hp & Hq & L'); injection Hp as <-; injection Hq as <-; cbn in L'; lia.
    + split; try reflexivity.
      intros _; eexists; eexists; split; [reflexivity|split; [reflexivity|cbn; lia]].
  - (* both positive *)
    destruct (Z.compare_spec ex ey) as [E|L|G].
    + change (PosDef.Pos.compare_cont Eq mx my) with (Pos.compare mx my).
      destruct (Pos.compare_spec mx my) as [E'|L'|G']; split;
        try discriminate; try reflexivity;
        try (intros (p & q & Hp & Hq & L); injection Hp as <-; injection Hq as <-; cbn in L; lia);
        try (intros _; eexists; eexists; split; [reflexivity|split; [reflexivity|cbn; lia]]).
    + split; try reflexivity.
      intros _; eexists; eexists; split; [reflexivity|split; [reflexivity|cbn; lia]].
    + split; try discriminate.
      intros (p & q & Hp & Hq & L'); injection Hp as <-; injection Hq as <-; cbn in L'; lia.
Qed.

Lemma rank_lt_irrefl p : ~ rank_lt p p.
Proof. destruct p as [[a b] c]. cbn. lia. Qed.

Lemma rank_lt_trans p q r : rank_lt p q -> rank_lt q r -> rank_lt p r.
Proof. destruct p as [[a b] c], q as [[a' b'] c'], r as [[a'' b''] c'']. cbn. lia. Qed.

Lemma ltb_irrefl x : Double.ltb x x = false.
Proof.
  destruct (Double.ltb x x) eqn:E; [|reflexivity].
  apply ltb_rank in E. destruct E as (p & q & Hp & Hq & L).
  assert (p = q) by congruence. subst q. now apply rank_lt_irrefl in L.
Qed.

Lemma ltb_trans x y z :
  Double.ltb x y = true -> Double.ltb y z = true -> Double.ltb x z = true.
Proof.
  intros H1 H2. apply ltb_rank in H1, H2. apply ltb_rank.
  destruct H1 as (p & q & Hp & Hq & L1). destruct H2 as (q' & r & Hq' & Hr & L2).
  assert (q' = q) by congruence. subst q'.
  exists p, r. repeat split; try assumption. eapply rank_lt_trans; eauto.
Qed.

Lemma ltb_asym x y : Double.ltb x y = true -> Double.ltb y x = false.
Proof.
  intros H. destruct (Double.ltb y x) eqn:E; [|reflexivity].
  pose proof (ltb_trans _ _ _ H E) as T. now rewrite ltb_irrefl in T.
Qed.

(** [operator<] on times is a strict partial order. *)
Theorem Time_lt_strict_order :
  (forall a, Time.lt a a = false)
  /\ (forall a b, Time.lt a b = true -> Time.lt b a = false)
  /\ (forall a b c,
        Time.lt a b = true -> Time.lt b c = true -> Time.lt a c = true)
  /\ (forall a b,
        Double.isnan (Time.getSecondsInUTCDay a) = true ->
        Time.lt a b = false /\ Time.lt b a = false).
Proof.
  unfold Time.lt. repeat split.
  - intros a. apply ltb_irrefl.
  - intros a b. apply ltb_asym.
  - intros a b c. apply ltb_trans.
  - destruct (Time.getSecondsInUTCDay a); try discriminate. reflexivity.
  - destruct (Time.getSecondsInUTCDay a); try discriminate.
    destruct (Time.getSecondsInUTCDay b); reflexivity.
Qed.

Lemma Date_eqb_refl a : Date.eqb a a = true.
Proof. now apply Date_eqb_eq. Qed.

Lemma Date_lt_true a b :
  Date.lt a b = Some true ->
  exists da db, Date.getJ2000Day a = Some da /\ Date.getJ2000Day b = Some db
                /\ da < db.
Proof.
  unfold Date.lt. destruct (Date.getJ2000Day a) as [da|]; [|discriminate].
  destruct (Date.getJ2000Day b) as [db|]; [|discriminate]. cbn [bind].
  intros H. injection H as H. apply Z.ltb_lt in H. eauto.
Qed.

(** [operator<] on date-times is a strict partial order. *)
Theorem DateTime_lt_strict_order :
  (forall a, DateTime.lt a a = Some false)
  /\ (forall a b, DateTime.lt a b = Some true -> DateTime.lt b a = Some false)
  /\ (forall a b c,
        DateTime.lt a b = Some true -> DateTime.lt b c = Some true ->
        DateTime.lt a c = Some true).
Proof.
  repeat split.
  - intros a. unfold DateTime.lt. rewrite Date_eqb_refl. unfold Time.lt.
    now rewrite ltb_irrefl.
  - intros a b. unfold DateTime.lt.
    destruct (Date.eqb (date a) (date b)) eqn:E.
    + apply Date_eqb_eq in E. rewrite E, Date_eqb_refl.
      intros H. injection H as H. unfold Time.lt in *. now rewrite (ltb_asym _ _ H).
    + intros H. destruct (Date_lt_true _ _ H) as (da & db & Ja & Jb & L).
      destruct (Date.eqb (date b) (date a)) eqn:E'.
      * apply Date_eqb_eq in E'. rewrite E' in Jb. rewrite Ja in Jb.
        injection Jb as ->. lia.
      * unfold Date.lt. rewrite Ja, Jb. cbn [bind]. f_equal. apply Z.ltb_ge. lia.
  - intros a b c. unfold DateTime.lt.
    destruct (Date.eqb (date a) (date b)) eqn:Eab.
    + apply Date_eqb_eq in Eab. rewrite Eab.
      destruct (Date.eqb (date b) (date c)) eqn:Ebc; [|auto].
      intros H1 H2. injection H1 as H1. injection H2 as H2.
      unfold Time.lt in *. now rewrite (ltb_trans _ _ _ H1 H2).
    + intros H1. destruct (Date_lt_true _ _ H1) as (da & db & Ja & Jb & L).
      destruct (Date.eqb (date b) (date c)) eqn:Ebc.
      * apply Date_eqb_eq in Ebc. rewrite <- Ebc, Eab. auto.
      * intros H2. destruct (Date_lt_true _ _ H2) as (db' & dc & Jb' & Jc & L').
        assert (db' = db) by congruence. subst db'.
        destruct (Date.eqb (date a) (date c)) eqn:Eac.
        -- apply Date_eqb_eq in Eac. rewrite Eac in Ja. rewrite Ja in Jc.
           injection Jc as ->. lia.
        -- unfold Date.lt. rewrite Ja, Jc. cbn [bind]. f_equal. apply Z.ltb_lt. lia.
Qed.

(** ** Offsets between date-times *)

Lemma getJ2000Day_range t d : Date.getJ2000Day t = Some d -> Int.in_range d.
Proof.
  unfold Date.getJ2000Day.
  destruct (MonthDay.getDayInYear _ _ _); [|discriminate]. cbn [bind].
  intros H. injection H as <-. apply wrap_range.
Qed.

Lemma getSecondsInUTCDay_whole t s :
  wholeTime t s ->
  Time.getSecondsInUTCDay t = Double.of_int (utcSeconds t s)
  /\ - 2 ^ 44 < utcSeconds t s < 2 ^ 44.
Proof.
  intros (Hh & Hm & Hu & Hs & E).
  pose proof (wrap_range (minute t - minutesFromUTC t)) as Hd.
  fold (Int.sub (minute t) (minutesFromUTC t)) in Hd.
  unfold Int.in_range, Int.min_signed, Int.max_signed in *.
  unfold Time.getSecondsInUTCDay, utcSeconds. rewrite E.
  rewrite !mul_of_int by lia. rewrite !add_of_int by lia. split; [reflexivity|lia].
Qed.

(** Between date-times with whole seconds the offset is exact. *)
Theorem offsetFrom_whole a b da db sa sb :
  Date.getJ2000Day (date a) = Some da ->
  Date.getJ2000Day (date b) = Some db ->
  wholeTime (time a) sa -> wholeTime (time b) sb ->
  DateTime.offsetFrom a b
  = Some (Double.of_int (86400 * Int.sub da db
                         + (utcSeconds (time a) sa - utcSeconds (time b) sb))).
Proof.
  intros Ja Jb Wa Wb.
  destruct (getSecondsInUTCDay_whole _ _ Wa) as [Ea Ba].
  destruct (getSecondsInUTCDay_whole _ _ Wb) as [Eb Bb].
  pose proof (wrap_range (da - db)) as Hd. fold (Int.sub da db) in Hd.
  unfold Int.in_range, Int.min_signed, Int.max_signed in Hd.
  unfold DateTime.offsetFrom. rewrite Ja, Jb. cbn [bind]. f_equal.
  rewrite Ea, Eb. unfold JULIAN_DAY.
  rewrite sub_of_int by lia. rewrite mul_of_int by lia.
  rewrite add_of_int by lia. reflexivity.
Qed.

Lemma clockTime_whole t s :
  clockTime t s -> wholeTime t s /\ 0 <= utcSeconds t s <= 86399.
Proof.
  intros (Hh & Hm & Hs & Hu & E). unfold wholeTime, utcSeconds.
  rewrite Hu in *. rewrite (Int_sub_small (minute t) 0) by int_small.
  repeat split; try assumption; try int_small; lia.
Qed.

Lemma eqb_of_int_zero n :
  - 2 ^ 53 < n < 2 ^ 53 -> Double.eqb (Double.of_int n) (Double.of_int 0) = (n =? 0).
Proof.
  intros H. destruct n as [|n|n]; [reflexivity| |].
  - rewrite of_int_pos by lia. reflexivity.
  - rewrite of_int_neg by lia. reflexivity.
Qed.

Lemma day_bounds t d :
  validDate t = true -> -2000000 <= year t <= 2000000 ->
  Date.getJ2000Day t = Some d -> - 2 ^ 30 < d < 2 ^ 30.
Proof.
  intros V Hy J. destruct (valid_day t V) as (d' & J' & _ & _ & B).
  assert (d' = d) by congruence. subst d'.
  pose proof (yearStart_mono (-2000000) (year t) ltac:(lia)) as L.
  pose proof (yearStart_mono (year t + 1) 2000001 ltac:(lia)) as U.
  let v := eval vm_compute in (yearStart (-2000000)) in
  replace (yearStart (-2000000)) with v in L by (vm_compute; reflexivity).
  let v := eval vm_compute in (yearStart 2000001) in
  replace (yearStart 2000001) with v in U by (vm_compute; reflexivity).
  lia.
Qed.

(** For valid dates and clock times, [<] and [==] are read off the sign of
    [offsetFrom]. *)
Theorem lt_offsetFrom a b sa sb :
  validDate (date a) = true -> validDate (date b) = true ->
  -2000000 <= year (date a) <= 2000000 ->
  -2000000 <= year (date b) <= 2000000 ->
  clockTime (time a) sa -> clockTime (time b) sb ->
  exists x,
    DateTime.offsetFrom a b = Some x
    /\ DateTime.lt a b = Some (Double.ltb x (Double.of_int 0))
    /\ DateTime.eqb a b = Double.eqb x (Double.of_int 0).
Proof.
  intros Va Vb Ya Yb Ca Cb.
  destruct (valid_day _ Va) as (da & Ja & _ & _).
  destruct (valid_day _ Vb) as (db & Jb & _ & _).
  pose proof (day_bounds _ _ Va Ya Ja) as Ra.
  pose proof (day_bounds _ _ Vb Yb Jb) as Rb.
  destruct (clockTime_whole _ _ Ca) as [Wa Ua].
  destruct (clockTime_whole _ _ Cb) as [Wb Ub].
  destruct (getSecondsInUTCDay_whole _ _ Wa) as [Ea _].
  destruct (getSecondsInUTCDay_whole _ _ Wb) as [Eb _].
  eexists. split; [apply (offsetFrom_whole a b da db sa sb); assumption|].
  rewrite (Int_sub_small da db) by int_small.
  assert (Dq : Date.eqb (date a) (date b) = (da =? db)).
  { destruct (Z.eqb_spec da db) as [->|N].
    - apply Date_eqb_eq. eapply getJ2000Day_inj; eauto.
    - destruct (Date.eqb (date a) (date b)) eqn:Q; [|reflexivity].
      apply Date_eqb_eq in Q. rewrite Q in Ja. congruence. }
  destruct Ca as (Ha & Ma & Sa & Oa & Qa). destruct Cb as (Hb & Mb & Sb & Ob & Qb).
  unfold utcSeconds in *. rewrite Oa, Ob in *.
  rewrite !(Int_sub_small _ 0) in * by int_small. rewrite !Z.sub_0_r in *.
  split.
  - rewrite ltb_of_int by lia.
    unfold DateTime.lt. rewrite Dq.
    destruct (Z.eqb_spec da db) as [->|N].
    + unfold Time.lt. rewrite Ea, Eb. rewrite ltb_of_int by lia.
      f_equal. destruct (Z.ltb_spec (sa + 60 * minute (time a) + 3600 * hour (time a))
                           (sb + 60 * minute (time b) + 3600 * hour (time b)));
        symmetry; [apply Z.ltb_lt | apply Z.ltb_ge]; lia.
    + unfold Date.lt. rewrite Ja, Jb. cbn [bind]. f_equal.
      destruct (Z.ltb_spec da db); symmetry; [apply Z.ltb_lt | apply Z.ltb_ge]; lia.
  - rewrite eqb_of_int_zero by lia.
    unfold DateTime.eqb. rewrite Dq. unfold Time.eqb. rewrite Qa, Qb, Oa, Ob.
    rewrite sub_of_int by lia. rewrite fabs_of_int_tolerance by lia.
    destruct (Z.eqb_spec da db), (Z.eqb_spec (hour (time a)) (hour (time b))),
      (Z.eqb_spec (minute (time a)) (minute (time b))), (Z.eqb_spec (sa - sb) 0);
      cbn [andb]; symmetry; first [apply Z.eqb_eq | apply Z.eqb_neq]; lia.
Qed.

(** ** The order of dates *)

Lemma tripleFactory_same_year a b :
  year a = year b -> year a <> 1582 -> Date.tripleFactory a = Date.tripleFactory b.
Proof.
  intros E N. unfold Date.tripleFactory. rewrite <- E.
  destruct (Z.ltb_spec (year a) 1583); [|reflexivity].
  destruct (Z.ltb_spec (year a) 1); [reflexivity|].
  destruct (Z.ltb_spec (year a) 1582); [reflexivity|lia].
Qed.

Lemma tripleFactory_1582 t :
  year t = 1582 ->
  Date.tripleFactory t
  = if julianTest (month t) (day t) then JULIAN_FACTORY else GREGORIAN_FACTORY.
Proof.
  intros E. unfold Date.tripleFactory, julianTest. rewrite E. cbn.
  destruct (month t <? 10), (month t <? 11), (day t <? 5); reflexivity.
Qed.

(** The day-count of a day of the reform year 1582. *)
Lemma reform_year_day t p :
  validDate t = true -> tripleFacts t p -> year t = 1582 ->
  (p + day t <= 277 /\ dayNumber t p = -152662 + (p + day t))
  \/ (288 <= p + day t /\ dayNumber t p = -152672 + (p + day t)).
Proof.
  intros V F Y.
  destruct (validDate_unfold t V) as (Hm & Hd & G & _).
  destruct F as [T M D _ _ _].
  assert (Md : mdFactoryOf (Date.tripleFactory t) (year t) = COMMON_YEAR_FACTORY)
    by (unfold mdFactoryOf; rewrite Y; now rewrite isLeap_1582).
  rewrite Md in *. cbn [daysInYear] in D.
  pose proof (julianTest_1582 (day t + p) D) as J. cbv zeta in J.
  rewrite M in J. specialize (J p T).
  replace (day t + p - p) with (day t) in J by ring.
  pose proof (gap_1582 (day t + p) D p) as Q. rewrite M in Q. specialize (Q T).
  replace (day t + p - p) with (day t) in Q by ring.
  assert (Et : mkDate 1582 (month t) (day t) = t) by (destruct t; cbn in *; congruence).
  rewrite Et, G in Q. unfold gapDayInYear in Q.
  unfold dayNumber. rewrite (tripleFactory_1582 t Y), J, Y.
  destruct (Z.leb_spec (day t + p) 277).
  - left. split; [lia|].
    replace (lastDay JULIAN_FACTORY (1582 - 1)) with (-152662) by (vm_compute; reflexivity).
    ring.
  - right.
    replace (lastDay GREGORIAN_FACTORY (1582 - 1)) with (-152672) by (vm_compute; reflexivity).
    destruct (Z.leb_spec 278 (day t + p)), (Z.leb_spec (day t + p) 287);
      cbn in Q; try discriminate; split; lia.
Qed.

(** Day-counts grow with (year, month, day). *)
Lemma dayNumber_order a b pa pb :
  validDate a = true -> validDate b = true ->
  tripleFacts a pa -> tripleFacts b pb ->
  tripleLeb a b = (dayNumber a pa <=? dayNumber b pb).
Proof.
  intros Va Vb Fa Fb.
  destruct (validDate_unfold a Va) as (Hma & Hda & Ga & _).
  destruct (validDate_unfold b Vb) as (Hmb & Hdb & Gb & _).
  destruct (valid_day a Va) as (da & Ja & _ & _ & Ba).
  destruct (valid_day b Vb) as (db & Jb & _ & _ & Bb).
  rewrite (getJ2000Day_valid a pa Fa) in Ja. injection Ja as <-.
  rewrite (getJ2000Day_valid b pb Fb) in Jb. injection Jb as <-.
  unfold tripleLeb.
  destruct (Z.ltb_spec (year a) (year b)) as [L|G].
  { cbn [orb]. symmetry. apply Z.leb_le.
    pose proof (yearStart_mono (year a + 1) (year b) ltac:(lia)). lia. }
  destruct (Z.eqb_spec (year a) (year b)) as [E|N]; cbn [orb andb].
  2:{ symmetry. apply Z.leb_gt.
      pose proof (yearStart_mono (year b + 1) (year a) ltac:(lia)). lia. }
  destruct (Z.eq_dec (year a) 1582) as [Y|Y].
  - (* the reform year *)
    pose proof (reform_year_day a pa Va Fa Y) as Ra.
    pose proof (reform_year_day b pb Vb Fb ltac:(lia)) as Rb.
    destruct Fa as [Ta _ _ _ _ _]. destruct Fb as [Tb _ _ _ _ _].
    assert (Ma : mdFactoryOf (Date.tripleFactory a) (year a) = COMMON_YEAR_FACTORY)
      by (unfold mdFactoryOf; rewrite Y; now rewrite isLeap_1582).
    assert (Mb : mdFactoryOf (Date.tripleFactory b) (year b) = COMMON_YEAR_FACTORY)
      by (unfold mdFactoryOf; rewrite <- E, Y; now rewrite isLeap_1582).
    rewrite Ma in *. rewrite Mb in *.
    rewrite (monthDay_order COMMON_YEAR_FACTORY _ _ pa _ _ pb Hma Hda Ta Hmb Hdb Tb).
    destruct (Z.leb_spec (pa + day a) (pb + day b)); symmetry;
      first [apply Z.leb_le | apply Z.leb_gt]; lia.
  - destruct Fa as [Ta _ _ _ _ _]. destruct Fb as [Tb _ _ _ _ _].
    unfold dayNumber. rewrite <- E in *.
    rewrite <- (tripleFactory_same_year a b E Y) in *.
    rewrite (monthDay_order _ _ _ pa _ _ pb Hma Hda Ta Hmb Hdb Tb).
    destruct (Z.leb_spec (pa + day a) (pb + day b)); symmetry;
      first [apply Z.leb_le | apply Z.leb_gt]; lia.
Qed.

(** [operator<] is the order of (year, month, day). *)
Theorem lt_lexicographic a b :
  validDate a = true -> validDate b = true ->
  Date.lt a b = Some (negb (tripleLeb b a)).
Proof.
  intros Va Vb.
  destruct (validDate_facts a Va) as [pa Fa]. destruct (validDate_facts b Vb) as [pb Fb].
  unfold Date.lt.
  rewrite (getJ2000Day_valid a pa Fa), (getJ2000Day_valid b pb Fb). cbn [bind].
  rewrite (dayNumber_order b a pb pa Vb Va Fb Fa). f_equal.
  destruct (Z.ltb_spec (dayNumber a pa) (dayNumber b pb)),
    (Z.leb_spec (dayNumber b pb) (dayNumber a pa)); cbn; try reflexivity; lia.
Qed.

(** ** Rounding of a quotient of doubles *)

Lemma loc_of_record_of_loc m l :
  loc_of_shr_record (shr_record_of_loc m l) = l.
Proof. destruct l as [|[]]; reflexivity. Qed.

Lemma round_nearest_even_cases m l :
  (round_nearest_even m l = m \/ round_nearest_even m l = m + 1)
  /\ (l = loc_Exact -> round_nearest_even m l = m).
Proof.
  split.
  - destruct l as [|[]]; cbn; auto. destruct (Z.even m); auto.
  - intros ->. reflexivity.
Qed.

(** The second normalisation of [binary_round_aux] on a rounded 53-bit
    mantissa. *)
Lemma shr_fexp_53 p e :
  2 ^ 52 <= Z.pos p < 2 ^ 53 -> -1074 <= e <= 971 ->
  shr_fexp Double.prec Double.emax (Z.pos p) e loc_Exact
  = (Build_shr_record (Z.pos p) false false, e).
Proof.
  intros Hp He. apply shr_fexp_canonical. split; [|lia].
  rewrite (digits2_pos_unique p 53) by (simpl; lia).
  rewrite fexp64_eq. lia.
Qed.

Lemma shr_fexp_carry e :
  -1074 <= e ->
  shr_fexp Double.prec Double.emax (2 ^ 53) e loc_Exact
  = (Build_shr_record (2 ^ 52) false false, e + 1).
Proof.
  intros He. unfold shr_fexp. fold fexp64.
  replace (Zdigits2 (2 ^ 53)) with 54 by reflexivity.
  rewrite fexp64_eq.
  replace (Z.max (54 + e - 53) (-1074) - e) with 1 by lia.
  reflexivity.
Qed.

Lemma finish_round s M1 e1 :
  2 ^ 52 <= M1 <= 2 ^ 53 -> -1074 <= e1 <= 970 ->
  exists M E,
    (let '(mrs, e2) := shr_fexp Double.prec Double.emax M1 e1 loc_Exact in
     match shr_m mrs with
     | 0 => S754_zero s
     | Z.pos m =>
         if e2 <=? Double.emax - Double.prec then S754_finite s m e2
         else S754_infinity s
     | Z.neg _ => S754_nan
     end) = S754_finite s M E
    /\ e1 <= E <= e1 + 1 /\ Z.pos M * 2 ^ (E - e1) = M1.
Proof.
  intros HM He.
  destruct (Z.eq_dec M1 (2 ^ 53)) as [->|N].
  - rewrite shr_fexp_carry by lia. cbn [shr_m].
    replace (e1 + 1 <=? Double.emax - Double.prec) with true
      by (symmetry; apply Z.leb_le; unfold Double.emax, Double.prec; lia).
    exists 4503599627370496%positive, (e1 + 1). split; [reflexivity|].
    split; [lia|]. replace (e1 + 1 - e1) with 1 by ring. reflexivity.
  - destruct M1 as [|p|p]; try lia.
    rewrite shr_fexp_53 by lia. cbn [shr_m].
    replace (e1 <=? Double.emax - Double.prec) with true
      by (symmetry; apply Z.leb_le; unfold Double.emax, Double.prec; lia).
    exists p, e1. split; [reflexivity|]. split; [lia|].
    rewrite Z.sub_diag. simpl. lia.
Qed.

(** Rounding a quotient of 53 or 54 bits. *)
Lemma div_round s q e l :
  2 ^ 52 <= Z.pos q < 2 ^ 54 -> -1000 <= e <= 900 ->
  exists M E,
    binary_round_aux Double.prec Double.emax s (Z.pos q) e l = S754_finite s M E
    /\ e <= E <= e + 2
    /\ Z.pos q - 4 <= Z.pos M * 2 ^ (E - e) <= Z.pos q + 4
    /\ (l = loc_Exact -> Z.pos q mod 4 = 0 -> Z.pos M * 2 ^ (E - e) = Z.pos q).
Proof.
  intros Hq He. unfold binary_round_aux.
  destruct (Z_lt_le_dec (Z.pos q) (2 ^ 53)) as [L|G].
  - (* 53 bits: no shift *)
    assert (E1 : shr_fexp Double.prec Double.emax (Z.pos q) e l
                 = (shr_record_of_loc (Z.pos q) l, e)).
    { unfold shr_fexp. cbn [Zdigits2]. fold fexp64.
      rewrite (digits2_pos_unique q 53) by (simpl; lia).
      rewrite fexp64_eq. replace (Z.max (53 + e - 53) (-1074) - e) with 0 by lia.
      reflexivity. }
    rewrite E1. rewrite shr_m_of_loc, loc_of_record_of_loc.
    destruct (round_nearest_even_cases (Z.pos q) l) as [C X].
    destruct (finish_round s (round_nearest_even (Z.pos q) l) e) as (M & E & R & HE & HM);
      [destruct C as [->| ->]; lia | lia |].
    exists M, E. split; [exact R|]. split; [lia|]. rewrite HM.
    split; [destruct C as [->| ->]; lia|]. intros -> _. apply X. reflexivity.
  - (* 54 bits: one shift *)
    assert (E1 : shr_fexp Double.prec Double.emax (Z.pos q) e l
                 = (shr_1 (shr_record_of_loc (Z.pos q) l), e + 1)).
    { unfold shr_fexp. cbn [Zdigits2]. fold fexp64.
      rewrite (digits2_pos_unique q 54) by (simpl; lia).
      rewrite fexp64_eq. replace (Z.max (54 + e - 53) (-1074) - e) with 1 by lia.
      reflexivity. }
    rewrite E1.
    set (mrs := shr_1 (shr_record_of_loc (Z.pos q) l)).
    assert (Hm : shr_m mrs = Z.pos q / 2).
    { subst mrs. rewrite shr_1_m by (rewrite shr_m_of_loc; lia).
      now rewrite shr_m_of_loc. }
    assert (Hx : l = loc_Exact -> Z.pos q mod 4 = 0 -> loc_of_shr_record mrs = loc_Exact).
    { intros -> H4. subst mrs. cbn [shr_record_of_loc].
      replace (Z.pos q) with (2 * (Z.pos q / 2)) by (Z.div_mod_to_equations; lia).
      rewrite shr_1_exact by (Z.div_mod_to_equations; lia). reflexivity. }
    destruct (round_nearest_even_cases (shr_m mrs) (loc_of_shr_record mrs)) as [C X].
    rewrite Hm in *.
    destruct (finish_round s (round_nearest_even (Z.pos q / 2) (loc_of_shr_record mrs)) (e + 1))
      as (M & E & R & HE & HM);
      [destruct C as [->| ->]; Z.div_mod_to_equations; lia | lia |].
    exists M, E. split; [exact R|]. split; [lia|].
    assert (P : Z.pos M * 2 ^ (E - e)
                = 2 * round_nearest_even (Z.pos q / 2) (loc_of_shr_record mrs)).
    { rewrite <- HM. replace (E - e) with (E - (e + 1) + 1) by ring.
      rewrite Z.pow_add_r by lia. change (2 ^ 1) with 2. ring. }
    rewrite P. split.
    + destruct C as [->| ->]; Z.div_mod_to_equations; lia.
    + intros HlE H4. rewrite (X (Hx HlE H4)). Z.div_mod_to_equations; lia.
Qed.

(** ** Shifting a date-time by whole seconds *)

Lemma JULIAN_DAY_form : JULIAN_DAY = S754_finite false 5937362789990400 (-36).
Proof. reflexivity. Qed.

Lemma intMantissa_bounds t :
  Z.pos t < 2 ^ 53 -> 2 ^ 52 <= Z.pos (intMantissa t) < 2 ^ 53.
Proof.
  intros H. destruct (int_canonical t H) as (M & R & _).
  pose proof (digits2_pos_bounds t) as B. unfold intExponent in *.
  set (d := Z.pos (digits2_pos t)) in *. rewrite M.
  replace (- (d - 53)) with (53 - d) by ring.
  assert (P52 : 2 ^ 52 = 2 ^ (d - 1) * 2 ^ (53 - d))
    by (rewrite <- Z.pow_add_r by lia; f_equal; lia).
  assert (P53 : 2 ^ 53 = 2 ^ d * 2 ^ (53 - d))
    by (rewrite <- Z.pow_add_r by lia; f_equal; lia).
  assert (0 < 2 ^ (53 - d)) by (apply Z.pow_pos_nonneg; lia).
  rewrite P52, P53. split.
  - apply Z.mul_le_mono_nonneg_r; lia.
  - apply Z.mul_lt_mono_pos_r; lia.
Qed.

(** The quotient of a positive integer below [2^36] by 86400, as the
    division of doubles computes it: between the integer part and the next
    integer, and exact when the division is. *)
Lemma div_day_form s t :
  Z.pos t < 2 ^ 36 ->
  exists M E,
    Double.div (S754_finite s (intMantissa t) (intExponent t)) JULIAN_DAY
    = S754_finite s M E
    /\ E < 0
    /\ (Z.pos t mod 86400 = 0 -> Z.pos M = Z.pos t / 86400 * 2 ^ (- E))
    /\ (0 < Z.pos t mod 86400 ->
        Z.pos t / 86400 * 2 ^ (- E) < Z.pos M < (Z.pos t / 86400 + 1) * 2 ^ (- E)).
Proof.
  intros Ht.
  destruct (int_canonical t ltac:(lia)) as (Mx & Rx & _).
  pose proof (intMantissa_bounds t ltac:(lia)) as Bx.
  pose proof (digits2_pos_bounds t) as Bt.
  set (mx := intMantissa t) in *. set (ex := intExponent t) in *.
  assert (Hex : -52 <= ex <= -17).
  { split; [lia|]. subst ex. unfold intExponent.
    destruct (Z_lt_le_dec 36 (Z.pos (digits2_pos t))); [|lia].
    assert (2 ^ 36 <= 2 ^ (Z.pos (digits2_pos t) - 1)) by (apply Z.pow_le_mono_r; lia).
    lia. }
  rewrite JULIAN_DAY_form. unfold Double.div, SFdiv, SFdiv_core_binary.
  cbn [Zdigits2 xorb]. rewrite xorb_false_r.
  rewrite (digits2_pos_unique mx 53) by (simpl; lia).
  replace (Z.pos (digits2_pos 5937362789990400)) with 53 by reflexivity.
  fold fexp64. rewrite fexp64_eq.
  replace (Z.min (Z.max (53 + ex - (53 + -36) - 53) (-1074)) (ex - -36))
    with (ex - 17) by lia.
  replace (ex - -36 - (ex - 17)) with 53 by ring.
  rewrite Z.shiftl_mul_pow2 by lia.
  set (my := 5937362789990400%positive) in *.
  pose proof (Z_div_mod (Z.pos mx * 2 ^ 53) (Z.pos my) ltac:(lia)) as Hdm.
  destruct (Z.div_eucl (Z.pos mx * 2 ^ 53) (Z.pos my)) as [q r].
  destruct Hdm as [Hq Hr].
  assert (Bq : 2 ^ 52 <= q < 2 ^ 54) by (subst my; lia).
  destruct q as [|q|q]; try lia.
  set (lz := new_location (Z.pos my) r).
  destruct (div_round s q (ex - 17) lz Bq ltac:(lia)) as (M & E & R & HE & HM & HX).
  exists M, E. split; [exact R|]. split; [lia|].
  (* the quotient in terms of t *)
  set (c := 17 - ex) in *.
  set (P := 2 ^ c).
  assert (HP : 2 ^ 34 <= P) by (apply Z.pow_le_mono_r; lia).
  assert (Emx : Z.pos mx * 2 ^ 53 = Z.pos t * P * 2 ^ 36).
  { rewrite Mx. unfold P, c. rewrite <- !Z.mul_assoc, <- !Z.pow_add_r by lia.
    f_equal. f_equal. ring. }
  assert (Emy : Z.pos my = 86400 * 2 ^ 36) by reflexivity.
  assert (Hr36 : exists r', r = r' * 2 ^ 36).
  { exists (Z.pos t * P - Z.pos q * 86400). lia. }
  destruct Hr36 as [r' Hr']. subst r.
  assert (Hq' : Z.pos t * P = Z.pos q * 86400 + r' /\ 0 <= r' < 86400) by lia.
  destruct Hq' as [Hq' Hr''].
  set (K := Z.pos t / 86400). set (rho := Z.pos t mod 86400).
  assert (Et : Z.pos t = 86400 * K + rho /\ 0 <= rho < 86400)
    by (subst K rho; Z.div_mod_to_equations; lia).
  destruct Et as [Et Hrho].
  assert (HKP : 0 <= K * P) by (subst K; apply Z.mul_nonneg_nonneg; [Z.div_mod_to_equations|]; lia).
  assert (Hw : P * rho = rho * P) by ring.
  rewrite Et in Hq'. rewrite Z.mul_add_distr_r, <- Z.mul_assoc in Hq'.
  set (u := K * P) in *. set (w := rho * P) in *.
  set (j := E - (ex - 17)) in *.
  assert (Hj : 0 <= j <= 2) by lia.
  assert (EP : P = 2 ^ (- E) * 2 ^ j).
  { unfold P, c, j. rewrite <- Z.pow_add_r by lia. f_equal. ring. }
  assert (H2j : 0 < 2 ^ j) by (apply Z.pow_pos_nonneg; lia).
  assert (H2E : 0 < 2 ^ (- E)) by (apply Z.pow_pos_nonneg; lia).
  split.
  - intros H0. assert (w = 0) by (subst w; rewrite H0; ring).
    assert (Eq0 : Z.pos q = u /\ r' = 0) by lia. destruct Eq0 as [Eq0 Er0].
    assert (Lz : lz = loc_Exact) by (subst lz; rewrite Er0; reflexivity).
    assert (Q4 : Z.pos q mod 4 = 0).
    { rewrite Eq0. subst u. unfold P.
      replace c with (c - 2 + 2) by ring. rewrite Z.pow_add_r by lia.
      change (2 ^ 2) with 4. rewrite Z.mul_assoc. apply Z_mod_mult. }
    specialize (HX Lz Q4). rewrite Eq0 in HX. subst u. rewrite EP in HX.
    rewrite Z.mul_assoc in HX. apply Z.mul_cancel_r in HX; lia.
  - intros Hpos.
    assert (Hw1 : P <= w <= 86399 * P).
    { subst w. split; [nia|]. apply Z.mul_le_mono_nonneg_r; lia. }
    assert (Bq' : u + 198841 <= Z.pos q <= u + P - 198841) by lia.
    assert (B2 : u < Z.pos M * 2 ^ j < u + P) by lia.
    subst u. rewrite EP in B2.
    replace (K * (2 ^ (- E) * 2 ^ j) + 2 ^ (- E) * 2 ^ j)
      with ((K + 1) * 2 ^ (- E) * 2 ^ j) in B2 by ring.
    rewrite Z.mul_assoc in B2. destruct B2 as [B2 B3].
    apply Z.mul_lt_mono_pos_r in B2; [|lia].
    apply Z.mul_lt_mono_pos_r in B3; [|lia]. lia.
Qed.

(** [floor(x / 86400.0)] is the quotient of the integers, rounded down. *)
Lemma floor_div_day T :
  - 2 ^ 36 < T < 2 ^ 36 ->
  Double.floorZ (Double.div (Double.of_int T) JULIAN_DAY) = Some (T / 86400).
Proof.
  intros HT. destruct T as [|t|t].
  - reflexivity.
  - rewrite of_int_pos by lia.
    destruct (div_day_form false t ltac:(lia)) as (M & E & -> & HE & H0 & H1).
    rewrite floorZ_finite.
    replace (0 <=? E) with false by (symmetry; apply Z.leb_gt; lia).
    cbn [cond_Zopp]. f_equal.
    assert (0 < 2 ^ (- E)) by (apply Z.pow_pos_nonneg; lia).
    set (D := 2 ^ (- E)) in *. set (K := Z.pos t / 86400) in *.
    destruct (Z.eq_dec (Z.pos t mod 86400) 0) as [Z0|NZ].
    + rewrite (H0 Z0). apply Z.div_mul. lia.
    + assert (B : K * D < Z.pos M < (K + 1) * D)
        by (apply H1; Z.div_mod_to_equations; lia).
      symmetry. apply (Z.div_unique_pos _ _ _ (Z.pos M - K * D)); lia.
  - rewrite of_int_neg by lia.
    destruct (div_day_form true t ltac:(lia)) as (M & E & -> & HE & H0 & H1).
    rewrite floorZ_finite.
    replace (0 <=? E) with false by (symmetry; apply Z.leb_gt; lia).
    cbn [cond_Zopp]. f_equal.
    assert (0 < 2 ^ (- E)) by (apply Z.pow_pos_nonneg; lia).
    set (D := 2 ^ (- E)) in *. set (K := Z.pos t / 86400) in *.
    assert (Et : Z.pos t = 86400 * K + Z.pos t mod 86400 /\ 0 <= Z.pos t mod 86400 < 86400)
      by (subst K; Z.div_mod_to_equations; lia).
    change (Z.neg t) with (- Z.pos t).
    destruct (Z.eq_dec (Z.pos t mod 86400) 0) as [Z0|NZ].
    + rewrite (H0 Z0).
      replace (- (K * D)) with (- K * D) by ring. rewrite Z.div_mul by lia.
      apply (Z.div_unique_pos _ _ _ 0); lia.
    + assert (B : K * D < Z.pos M < (K + 1) * D) by (apply H1; lia).
      transitivity (- (K + 1)).
      * symmetry. apply (Z.div_unique_pos _ _ _ ((K + 1) * D - Z.pos M)); lia.
      * apply (Z.div_unique_pos _ _ _ (86400 - Z.pos t mod 86400)); lia.
Qed.

Lemma getSecondsInLocalDay_whole t s :
  localClock t s ->
  Time.getSecondsInLocalDay t = Double.of_int (localSeconds t s)
  /\ 0 <= localSeconds t s <= 86399.
Proof.
  intros (Hh & Hm & Hs & E). unfold Time.getSecondsInLocalDay, localSeconds.
  rewrite E. rewrite !mul_of_int by lia. rewrite !add_of_int by lia.
  split; [reflexivity|lia].
Qed.

(** Shifting a date-time by a whole number of seconds. *)
Theorem fromReferenceOffset_whole reference d s k :
  Date.getJ2000Day (date reference) = Some d ->
  localClock (time reference) s -> - 2 ^ 35 < k < 2 ^ 35 ->
  let T := localSeconds (time reference) s + k in
  exists date',
    Date.fromOffset (Int.add d (T / 86400)) = Some date'
    /\ Date.getJ2000Day date' = Some (Int.add d (T / 86400))
    /\ validDate date' = true
    /\ DateTime.fromReferenceOffset reference (Double.of_int k)
       = Some (mkDateTime date'
                 (mkTime (T mod 86400 / 3600) (T mod 86400 mod 3600 / 60)
                    (Double.of_int (T mod 86400 mod 60))
                    (minutesFromUTC (time reference)))).
Proof.
  intros J C Hk T.
  destruct (getSecondsInLocalDay_whole _ _ C) as [EL BL].
  set (L := localSeconds (time reference) s) in *.
  assert (HT : - 2 ^ 36 < T < 2 ^ 36) by (subst T; lia).
  assert (HD : - 2 ^ 20 < T / 86400 < 2 ^ 20) by (Z.div_mod_to_equations; lia).
  assert (HR : 0 <= T mod 86400 <= 86399) by (Z.div_mod_to_equations; lia).
  destruct (fromOffset_day (Int.add d (T / 86400)) (wrap_range _)) as (date' & E' & J' & V').
  exists date'. split; [exact E'|]. split; [exact J'|]. split; [exact V'|].
  unfold DateTime.fromReferenceOffset. rewrite J. cbn [bind].
  rewrite EL. rewrite add_of_int by lia. fold T.
  rewrite (to_int_floor _ (T / 86400) (floor_div_day T HT)) by int_small.
  cbn [bind]. unfold JULIAN_DAY at 1.
  rewrite mul_of_int by lia. rewrite sub_of_int by lia.
  replace (T - 86400 * (T / 86400)) with (T mod 86400)
    by (Z.div_mod_to_equations; lia).
  unfold Time.fromSecondInDay.
  destruct (fromSecondsAB_whole 0 (T mod 86400)) as (t & Et & Hh & Hm & Hs & Hu & _);
    [int_small | int_small | lia |].
  rewrite Et. cbn [bind]. rewrite E'. cbn [bind].
  rewrite Hh, Hm, Hs. unfold Time.fromHMSU.
  rewrite Z.add_0_l. reflexivity.
Qed.

(** The offset of the shifted date-time from the reference is the shift. *)
Theorem offsetFrom_fromReferenceOffset reference d s k :
  Date.getJ2000Day (date reference) = Some d ->
  localClock (time reference) s -> - 2 ^ 35 < k < 2 ^ 35 ->
  - 2 ^ 30 <= minutesFromUTC (time reference) <= 2 ^ 30 ->
  exists shifted,
    DateTime.fromReferenceOffset reference (Double.of_int k) = Some shifted
    /\ DateTime.offsetFrom shifted reference = Some (Double.of_int k).
Proof.
  intros J C Hk Hu.
  destruct (fromReferenceOffset_whole reference d s k J C Hk) as (date' & E' & J' & V' & R).
  cbv zeta in *.
  pose proof C as (Hh & Hm & Hs & Es).
  set (T := localSeconds (time reference) s + k) in *.
  assert (HT : - 2 ^ 36 < T < 2 ^ 36) by (subst T; unfold localSeconds; lia).
  assert (HD : - 2 ^ 20 < T / 86400 < 2 ^ 20) by (Z.div_mod_to_equations; lia).
  assert (HR : 0 <= T mod 86400 <= 86399) by (Z.div_mod_to_equations; lia).
  eexists. split; [exact R|].
  assert (HM : 0 <= T mod 86400 / 3600 <= 23
               /\ 0 <= T mod 86400 mod 3600 / 60 <= 59
               /\ 0 <= T mod 86400 mod 60 <= 59
               /\ T mod 86400 = T mod 86400 mod 60
                                 + 60 * (T mod 86400 mod 3600 / 60)
                                 + 3600 * (T mod 86400 / 3600)
               /\ T = 86400 * (T / 86400) + T mod 86400)
    by (Z.div_mod_to_equations; lia).
  revert HM.
  generalize (T mod 86400 / 3600) (T mod 86400 mod 3600 / 60) (T mod 86400 mod 60).
  intros h' m' s' (Bh & Bm & Bs & Er & ET).
  rewrite (offsetFrom_whole _ reference (Int.add d (T / 86400)) d s' s);
    cbn [date time]; try assumption.
  - f_equal. f_equal.
    assert (Ed : Int.sub (Int.add d (T / 86400)) d = T / 86400).
    { transitivity (Int.wrap (T / 86400)).
      - unfold Int.sub, Int.add. wrap_solve.
      - apply wrap_small. int_small. }
    rewrite Ed. unfold utcSeconds. cbn [hour minute minutesFromUTC].
    rewrite !Int_sub_small by int_small.
    unfold T in ET at 1. unfold localSeconds in ET. lia.
  - unfold wholeTime. cbn [hour minute second minutesFromUTC].
    repeat split; int_small.
  - unfold wholeTime. repeat split; try int_small. assumption.
Qed.

Lemma getDayOfYear_valid t :
  validDate t = true -> -5877489 <= year t <= 5881609 ->
  exists n, Date.getDayOfYear t = Some n
            /\ 1 <= n <= yearDays (year t)
            /\ Date.fromYearDay (year t) n = Some t.
Proof.
  intros V Hy. destruct (valid_day t V) as (d & J & Hr & E & B).
  remember (year t) as y eqn:Ey.
  pose proof (yearStart_bounds y ltac:(lia)) as B0.
  pose proof (yearStart_bounds (y + 1) ltac:(lia)) as B1.
  pose proof (yearStart_step_exact y) as S.
  pose proof (yearStart_step_bounds y) as S'.
  exists (d - (yearStart y - 1)).
  unfold Date.getDayOfYear, Date.fromYearDay, Date.fromYMD. rewrite J. cbn [bind].
  rewrite <- Ey. rewrite (Int_sub_small y 1) by int_small.
  rewrite (getJ2000Day_dec31 y) by lia. cbn [bind].
  rewrite Int_sub_small by int_small.
  split; [reflexivity|]. split; [lia|].
  unfold Date.fromEpochOffset.
  replace (Date.getJ2000Day Date.J2000_EPOCH) with (Some 0) by (vm_compute; reflexivity).
  cbn [bind].
  rewrite (Int_add_small (yearStart y - 1) _) by int_small.
  rewrite (Int_add_small 0 _) by int_small.
  replace (0 + (yearStart y - 1 + (d - (yearStart y - 1)))) with d by ring.
  exact E.
Qed.

(** ** The properties *)

(** X1. [DateComponents(int offset)] builds a valid calendar date from
    every 32-bit day-count: a month in 1..12, a day of that month, never
    a day of the reform gap. *)
Theorem X1_fromOffset_valid d :
  Int.in_range d ->
  exists t, Date.fromOffset d = Some t /\ validDate t = true.
Proof. exact (fromOffset_valid d). Qed.

Lemma X1_fromOffset_valid_witness :
  exists t, Date.fromOffset (-152384) = Some t /\ validDate t = true.
Proof.
  apply (X1_fromOffset_valid (-152384)).
  unfold Int.in_range, Int.min_signed, Int.max_signed. lia.
Defined.

(** X2. [DateComponents(int offset)] preserves order and equality: the
    dates of two day-counts compare under [<] and [==] as the day-counts
    do. *)
Theorem X2_fromOffset_order d1 d2 :
  Int.in_range d1 -> Int.in_range d2 ->
  exists t1 t2,
    Date.fromOffset d1 = Some t1 /\ Date.fromOffset d2 = Some t2
    /\ Date.lt t1 t2 = Some (d1 <? d2)
    /\ Date.eqb t1 t2 = (d1 =? d2).
Proof. exact (fromOffset_order d1 d2). Qed.

Lemma X2_fromOffset_order_witness :
  exists t1 t2,
    Date.fromOffset (-152385) = Some t1 /\ Date.fromOffset (-152384) = Some t2
    /\ Date.lt t1 t2 = Some (-152385 <? -152384)
    /\ Date.eqb t1 t2 = (-152385 =? -152384).
Proof.
  apply (X2_fromOffset_order (-152385) (-152384));
    unfold Int.in_range, Int.min_signed, Int.max_signed; lia.
Defined.

(** X3. On valid dates [operator<] is the lexicographic order of
    (year, month, day): [a < b] holds exactly when [b] does not come
    before or at [a]. *)
Theorem X3_lt_lexicographic a b :
  validDate a = true -> validDate b = true ->
  Date.lt a b = Some (negb (tripleLeb b a)).
Proof. exact (lt_lexicographic a b). Qed.

Lemma X3_lt_lexicographic_witness :
  Date.lt (mkDate 1582 10 4) (mkDate 1582 10 15)
  = Some (negb (tripleLeb (mkDate 1582 10 15) (mkDate 1582 10 4))).
Proof.
  apply (X3_lt_lexicographic (mkDate 1582 10 4) (mkDate 1582 10 15));
    vm_compute; reflexivity.
Defined.

(** X4. [DateComponents(epoch, offset)]: an offset of 0 returns a valid
    epoch itself, the day-count of the result is the epoch's plus the
    offset, and two shifts in a row are one shift by the (32-bit) sum. *)
Theorem X4_epoch_offset :
  (forall epoch, validDate epoch = true ->
     Date.fromEpochOffset epoch 0 = Some epoch)
  /\ (forall epoch e a b t,
        Date.getJ2000Day epoch = Some e ->
        Date.fromEpochOffset epoch a = Some t ->
        Date.fromEpochOffset t b = Date.fromEpochOffset epoch (Int.add a b)
        /\ Date.getJ2000Day t = Some (Int.add e a)).
Proof.
  split; [exact fromEpochOffset_zero | exact fromEpochOffset_compose].
Qed.

Lemma X4_epoch_offset_witness :
  Date.fromEpochOffset Date.J2000_EPOCH 0 = Some Date.J2000_EPOCH
  /\ Date.fromEpochOffset (mkDate 2000 2 1) 29
     = Date.fromEpochOffset Date.J2000_EPOCH (Int.add 31 29)
  /\ Date.getJ2000Day (mkDate 2000 2 1) = Some (Int.add 0 31).
Proof.
  split.
  - apply (proj1 X4_epoch_offset). vm_compute. reflexivity.
  - apply (proj2 X4_epoch_offset Date.J2000_EPOCH 0 31 29 (mkDate 2000 2 1));
      vm_compute; reflexivity.
Defined.

(** X5. Modified Julian days: the date [n] days after
    [MODIFIED_JULIAN_EPOCH] is valid and its [getMJD()] is [n], for every
    32-bit [n]. *)
Theorem X5_getMJD_roundtrip n :
  Int.in_range n ->
  exists t, Date.fromEpochOffset Date.MODIFIED_JULIAN_EPOCH n = Some t
            /\ Date.getMJD t = Some n
            /\ validDate t = true.
Proof. exact (getMJD_roundtrip n). Qed.

Lemma X5_getMJD_roundtrip_witness :
  exists t, Date.fromEpochOffset Date.MODIFIED_JULIAN_EPOCH 51544 = Some t
            /\ Date.getMJD t = Some 51544
            /\ validDate t = true.
Proof.
  apply (X5_getMJD_roundtrip 51544).
  unfold Int.in_range, Int.min_signed, Int.max_signed. lia.
Defined.

(** X6. Day in year: [DateComponents(year, dayNumber)] for a day number
    from 1 to the length of the year (355 in 1582) is a valid date of that
    year whose [getDayOfYear()] is the day number; and every valid date is
    the date of its year and its [getDayOfYear()]. *)
Theorem X6_dayOfYear_roundtrip :
  (forall y n,
     -5877489 <= y <= 5881609 -> 1 <= n <= yearDays y ->
     exists t, Date.fromYearDay y n = Some t
               /\ validDate t = true
               /\ Date.getYear t = y
               /\ Date.getDayOfYear t = Some n)
  /\ (forall t,
        validDate t = true -> -5877489 <= year t <= 5881609 ->
        exists n, Date.getDayOfYear t = Some n
                  /\ 1 <= n <= yearDays (year t)
                  /\ Date.fromYearDay (year t) n = Some t).
Proof. split; [exact fromYearDay_roundtrip | exact getDayOfYear_valid]. Qed.

Lemma X6_dayOfYear_roundtrip_witness :
  (exists t, Date.fromYearDay 1582 355 = Some t
             /\ validDate t = true
             /\ Date.getYear t = 1582
             /\ Date.getDayOfYear t = Some 355)
  /\ (exists n, Date.getDayOfYear (mkDate 1582 10 15) = Some n
                /\ 1 <= n <= yearDays 1582
                /\ Date.fromYearDay 1582 n = Some (mkDate 1582 10 15)).
Proof.
  split.
  - apply (proj1 X6_dayOfYear_roundtrip 1582 355); [lia | vm_compute; split; discriminate].
  - apply (proj2 X6_dayOfYear_roundtrip (mkDate 1582 10 15));
      [vm_compute; reflexivity | cbn; lia].
Defined.

(** X7. Days of the week follow each other: for a day-count [d] up to
    [INT_MAX - 7], [getDayOfWeek()] is in 1..7, the next day has the next
    day of week (1 after 7), and Monday (1) falls on the days congruent
    to 2 modulo 7. *)
Theorem X7_getDayOfWeek_succ d :
  Int.in_range d -> d + 7 <= Int.max_signed ->
  exists t t' w,
    Date.fromOffset d = Some t /\ Date.fromOffset (d + 1) = Some t'
    /\ Date.getDayOfWeek t = Some w /\ 1 <= w <= 7
    /\ Date.getDayOfWeek t' = Some (if w =? 7 then 1 else w + 1)
    /\ (w = 1 <-> (d - 2) mod 7 = 0).
Proof. exact (getDayOfWeek_succ d). Qed.

Lemma X7_getDayOfWeek_succ_witness :
  exists t t' w,
    Date.fromOffset (-152385) = Some t /\ Date.fromOffset (-152385 + 1) = Some t'
    /\ Date.getDayOfWeek t = Some w /\ 1 <= w <= 7
    /\ Date.getDayOfWeek t' = Some (if w =? 7 then 1 else w + 1)
    /\ (w = 1 <-> (-152385 - 2) mod 7 = 0).
Proof.
  apply (X7_getDayOfWeek_succ (-152385));
    unfold Int.in_range, Int.min_signed, Int.max_signed; lia.
Defined.

(** X8. ISO week 1: [getFirstWeekMonday(year)] is a Monday within three
    days of January 1st, it lies in calendar week 1, and so does
    January 4th. *)
Theorem X8_first_week y :
  -5877488 <= y <= 5881609 ->
  exists m jan1 t,
    Date.getFirstWeekMonday y = Some m
    /\ Date.getJ2000Day (Date.fromYMD y 1 1) = Some jan1
    /\ jan1 - 3 <= m <= jan1 + 3
    /\ Date.fromOffset m = Some t
    /\ Date.getDayOfWeek t = Some 1
    /\ Date.getCalendarWeek t = Some 1
    /\ Date.getCalendarWeek (Date.fromYMD y 1 4) = Some 1.
Proof. exact (first_week y). Qed.

Lemma X8_first_week_witness :
  exists m jan1 t,
    Date.getFirstWeekMonday 1583 = Some m
    /\ Date.getJ2000Day (Date.fromYMD 1583 1 1) = Some jan1
    /\ jan1 - 3 <= m <= jan1 + 3
    /\ Date.fromOffset m = Some t
    /\ Date.getDayOfWeek t = Some 1
    /\ Date.getCalendarWeek t = Some 1
    /\ Date.getCalendarWeek (Date.fromYMD 1583 1 4) = Some 1.
Proof. apply (X8_first_week 1583). lia. Defined.

(** X9. Every valid date is the date of its own week components: for some
    week-year within one year of its calendar year,
    [createFromWeekComponents(wYear, getCalendarWeek(), getDayOfWeek())]
    is the date; the week is in 1..53 and the day of week in 1..7. *)
Theorem X9_week_components_roundtrip t :
  validDate t = true -> -5877487 <= year t <= 5881608 ->
  exists wYear week dayOfWeek,
    Date.getCalendarWeek t = Some week
    /\ Date.getDayOfWeek t = Some dayOfWeek
    /\ 1 <= week <= 53 /\ 1 <= dayOfWeek <= 7
    /\ year t - 1 <= wYear <= year t + 1
    /\ Date.createFromWeekComponents wYear week dayOfWeek = Some t.
Proof. exact (week_components_roundtrip t). Qed.

Lemma X9_week_components_roundtrip_witness :
  exists wYear week dayOfWeek,
    Date.getCalendarWeek (mkDate 1995 1 1) = Some week
    /\ Date.getDayOfWeek (mkDate 1995 1 1) = Some dayOfWeek
    /\ 1 <= week <= 53 /\ 1 <= dayOfWeek <= 7
    /\ 1995 - 1 <= wYear <= 1995 + 1
    /\ Date.createFromWeekComponents wYear week dayOfWeek = Some (mkDate 1995 1 1).
Proof.
  apply (X9_week_components_roundtrip (mkDate 1995 1 1));
    [vm_compute; reflexivity | cbn; lia].
Defined.

(** X10. In each calendar [isLeap] agrees with [getLastJ2000DayOfYear]: a
    year has 366 days from the last day of the previous year to its own
    last day when it is a leap year, and 365 otherwise (years up to -1 for
    the proleptic Julian calendar, from 1 on for the other two). *)
Theorem X10_isLeap_year_length f y :
  -5800000 < y <= 5800000 ->
  match f with PROLEPTIC_JULIAN_FACTORY => y <= -1 | _ => 1 <= y end ->
  Year.getLastJ2000DayOfYear f y - Year.getLastJ2000DayOfYear f (y - 1)
  = if Year.isLeap f y then 366 else 365.
Proof. exact (isLeap_year_length f y). Qed.

Lemma X10_isLeap_year_length_witness :
  Year.getLastJ2000DayOfYear GREGORIAN_FACTORY 1900
  - Year.getLastJ2000DayOfYear GREGORIAN_FACTORY (1900 - 1)
  = if Year.isLeap GREGORIAN_FACTORY 1900 then 366 else 365.
Proof. apply (X10_isLeap_year_length GREGORIAN_FACTORY 1900); lia. Defined.

(** X11. The year of [DateComponents(int offset)] is the one whose
    January 1st is the last one not after the day. *)
Theorem X11_fromOffset_year_bracket d :
  Int.in_range d ->
  exists t, Date.fromOffset d = Some t
    /\ (-5877489 <= year t <= 5881609 ->
        exists a b,
          Date.getJ2000Day (Date.fromYMD (year t) 1 1) = Some a
          /\ Date.getJ2000Day (Date.fromYMD (year t + 1) 1 1) = Some b
          /\ a <= d < b).
Proof. exact (fromOffset_year_bracket d). Qed.

Lemma X11_fromOffset_year_bracket_witness :
  exists t, Date.fromOffset (-1) = Some t
    /\ (-5877489 <= year t <= 5881609 ->
        exists a b,
          Date.getJ2000Day (Date.fromYMD (year t) 1 1) = Some a
          /\ Date.getJ2000Day (Date.fromYMD (year t + 1) 1 1) = Some b
          /\ a <= -1 < b).
Proof.
  apply (X11_fromOffset_year_bracket (-1)).
  unfold Int.in_range, Int.min_signed, Int.max_signed. lia.
Defined.

(** X12. The month tables: a day number of the year (1..365, or 366 in a
    leap year) splits into a month in 1..12 and a day of that month from
    which [getDayInYear] gives it back; and a month and day of month give a
    day number from which [getMonth] and [getDay] give them back. *)
Theorem X12_monthDay_roundtrip md :
  (forall n, 1 <= n <= daysInYear md ->
     exists dd,
       MonthDay.getDay md n (MonthDay.getMonth md n) = Some dd
       /\ 1 <= MonthDay.getMonth md n <= 12
       /\ 1 <= dd <= monthLength md (MonthDay.getMonth md n)
       /\ MonthDay.getDayInYear md (MonthDay.getMonth md n) dd = Some n)
  /\ (forall m dd, 1 <= m <= 12 -> 1 <= dd <= monthLength md m ->
        exists n,
          MonthDay.getDayInYear md m dd = Some n
          /\ 1 <= n <= daysInYear md
          /\ MonthDay.getMonth md n = m
          /\ MonthDay.getDay md n m = Some dd).
Proof. exact (monthDay_roundtrip md). Qed.

Lemma X12_monthDay_roundtrip_witness :
  (exists dd,
     MonthDay.getDay LEAP_YEAR_FACTORY 60 (MonthDay.getMonth LEAP_YEAR_FACTORY 60)
     = Some dd
     /\ 1 <= MonthDay.getMonth LEAP_YEAR_FACTORY 60 <= 12
     /\ 1 <= dd <= monthLength LEAP_YEAR_FACTORY (MonthDay.getMonth LEAP_YEAR_FACTORY 60)
     /\ MonthDay.getDayInYear LEAP_YEAR_FACTORY (MonthDay.getMonth LEAP_YEAR_FACTORY 60) dd
        = Some 60)
  /\ (exists n,
        MonthDay.getDayInYear COMMON_YEAR_FACTORY 12 31 = Some n
        /\ 1 <= n <= daysInYear COMMON_YEAR_FACTORY
        /\ MonthDay.getMonth COMMON_YEAR_FACTORY n = 12
        /\ MonthDay.getDay COMMON_YEAR_FACTORY n 12 = Some 31).
Proof.
  split.
  - apply (proj1 (X12_monthDay_roundtrip LEAP_YEAR_FACTORY) 60). cbn. lia.
  - apply (proj2 (X12_monthDay_roundtrip COMMON_YEAR_FACTORY) 12 31); cbn; lia.
Defined.

(** X13. [DateComponents::hashCode] has no collisions among dates with a
    year in -32768..32767 and month and day in 0..255: equal hashes mean
    equal dates. *)
Theorem X13_Date_hashCode_injective a b :
  -32768 <= year a <= 32767 -> 0 <= month a <= 255 -> 0 <= day a <= 255 ->
  -32768 <= year b <= 32767 -> 0 <= month b <= 255 -> 0 <= day b <= 255 ->
  Date.hashCode a = Date.hashCode b -> a = b.
Proof. exact (Date_hashCode_injective a b). Qed.

Lemma X13_Date_hashCode_injective_witness :
  Date.fromYMD (-4712) 1 1 = mkDate (-4712) 1 1.
Proof.
  apply (X13_Date_hashCode_injective (Date.fromYMD (-4712) 1 1) (mkDate (-4712) 1 1));
    cbn; first [lia | reflexivity].
Defined.

(** X14. A whole number of seconds of the day, given as an [int] and an
    integer-valued [double] whose sum is in 0..86399, is split exactly:
    hour, minute and second are the quotients and remainders of the sum,
    and both seconds-in-day accessors return the sum. *)
Theorem X14_fromSecondsAB_whole a b :
  Int.in_range a -> Int.in_range b -> 0 <= a + b <= 86399 ->
  exists t,
    Time.fromSecondsAB a (Double.of_int b) = Some t
    /\ Time.getHour t = (a + b) / 3600
    /\ Time.getMinute t = (a + b) mod 3600 / 60
    /\ Time.getSecond t = Double.of_int ((a + b) mod 60)
    /\ Time.getMinutesFromUTC t = 0
    /\ Time.getSecondsInLocalDay t = Double.of_int (a + b)
    /\ Time.getSecondsInUTCDay t = Double.of_int (a + b).
Proof. exact (fromSecondsAB_whole a b). Qed.

Lemma X14_fromSecondsAB_whole_witness :
  exists t,
    Time.fromSecondsAB 86000 (Double.of_int 399) = Some t
    /\ Time.getHour t = (86000 + 399) / 3600
    /\ Time.getMinute t = (86000 + 399) mod 3600 / 60
    /\ Time.getSecond t = Double.of_int ((86000 + 399) mod 60)
    /\ Time.getMinutesFromUTC t = 0
    /\ Time.getSecondsInLocalDay t = Double.of_int (86000 + 399)
    /\ Time.getSecondsInUTCDay t = Double.of_int (86000 + 399).
Proof.
  apply (X14_fromSecondsAB_whole 86000 399);
    unfold Int.in_range, Int.min_signed, Int.max_signed; lia.
Defined.

(** X15. The second after 23:59:59: when the two integer parts sum to
    86400, [TimeComponents(secondInDayA, secondInDayB)] is the leap second
    23:59:60. *)
Theorem X15_fromSecondsAB_leap a b :
  Int.in_range a -> Int.in_range b -> a + b = 86400 ->
  Time.fromSecondsAB a (Double.of_int b)
  = Some (mkTime 23 59 (Double.of_int 60) 0).
Proof. exact (fromSecondsAB_leap a b). Qed.

Lemma X15_fromSecondsAB_leap_witness :
  Time.fromSecondsAB 86399 (Double.of_int 1)
  = Some (mkTime 23 59 (Double.of_int 60) 0).
Proof.
  apply (X15_fromSecondsAB_leap 86399 1);
    first [reflexivity | unfold Int.in_range, Int.min_signed, Int.max_signed; lia].
Defined.

(** X16. [operator==] on times is symmetric; a time equals itself exactly
    when its second is finite, so a time with a NaN second equals nothing;
    and it is not transitive, since seconds are compared up to [1e-8]. *)
Theorem X16_Time_eqb_properties :
  (forall a b, Time.eqb a b = Time.eqb b a)
  /\ (forall a, Time.eqb a a = isfinite (second a))
  /\ (forall a b, Double.isnan (second a) = true -> Time.eqb a b = false)
  /\ (exists a b c,
        Time.eqb a b = true /\ Time.eqb b c = true /\ Time.eqb a c = false).
Proof. exact Time_eqb_properties. Qed.

Lemma X16_Time_eqb_properties_witness :
  Time.eqb (mkTime 12 0 S754_nan 0) Time.H12 = false.
Proof.
  apply (proj1 (proj2 (proj2 X16_Time_eqb_properties))). reflexivity.
Defined.

(** X17. [operator<] on times is a strict partial order: irreflexive,
    asymmetric and transitive; a time whose seconds in the UTC day are NaN
    is below and above nothing. *)
Theorem X17_Time_lt_strict_order :
  (forall a, Time.lt a a = false)
  /\ (forall a b, Time.lt a b = true -> Time.lt b a = false)
  /\ (forall a b c,
        Time.lt a b = true -> Time.lt b c = true -> Time.lt a c = true)
  /\ (forall a b,
        Double.isnan (Time.getSecondsInUTCDay a) = true ->
        Time.lt a b = false /\ Time.lt b a = false).
Proof. exact Time_lt_strict_order. Qed.

Lemma X17_Time_lt_strict_order_witness :
  Time.lt Time.H12 Time.H00 = false
  /\ Time.lt Time.H00 (mkTime 12 0 one_half 0) = true.
Proof.
  split.
  - apply (proj1 (proj2 X17_Time_lt_strict_order) Time.H00 Time.H12).
    vm_compute. reflexivity.
  - apply (proj1 (proj2 (proj2 X17_Time_lt_strict_order)) Time.H00 Time.H12);
      vm_compute; reflexivity.
Defined.

(** X18. [operator<] on date-times is a strict partial order: irreflexive,
    asymmetric and transitive. *)
Theorem X18_DateTime_lt_strict_order :
  (forall a, DateTime.lt a a = Some false)
  /\ (forall a b, DateTime.lt a b = Some true -> DateTime.lt b a = Some false)
  /\ (forall a b c,
        DateTime.lt a b = Some true -> DateTime.lt b c = Some true ->
        DateTime.lt a c = Some true).
Proof. exact DateTime_lt_strict_order. Qed.

Lemma X18_DateTime_lt_strict_order_witness :
  DateTime.lt (DateTime.fromYMD 1582 10 15) (DateTime.fromYMD 1582 10 4)
  = Some false
  /\ DateTime.lt (DateTime.fromYMD 1582 10 4)
       (DateTime.fromYMDHMS 1582 10 15 12 0 one_half) = Some true.
Proof.
  split.
  - apply (proj1 (proj2 X18_DateTime_lt_strict_order)
             (DateTime.fromYMD 1582 10 4) (DateTime.fromYMD 1582 10 15)).
    vm_compute. reflexivity.
  - apply (proj2 (proj2 X18_DateTime_lt_strict_order)
             (DateTime.fromYMD 1582 10 4) (DateTime.fromYMD 1582 10 15));
      vm_compute; reflexivity.
Defined.

(** X19. Between two date-times with whole seconds [offsetFrom] is exact:
    86400 times the 32-bit difference of the day-counts plus the
    difference of the seconds in the UTC day, with no rounding. *)
Theorem X19_offsetFrom_whole a b da db sa sb :
  Date.getJ2000Day (date a) = Some da ->
  Date.getJ2000Day (date b) = Some db ->
  wholeTime (time a) sa -> wholeTime (time b) sb ->
  DateTime.offsetFrom a b
  = Some (Double.of_int (86400 * Int.sub da db
                         + (utcSeconds (time a) sa - utcSeconds (time b) sb))).
Proof. exact (offsetFrom_whole a b da db sa sb). Qed.

Lemma X19_offsetFrom_whole_witness :
  DateTime.offsetFrom
    (mkDateTime (mkDate 2000 1 2) (mkTime 1 30 (Double.of_int 15) 60))
    (DateTime.fromYMD 2000 1 1)
  = Some (Double.of_int
            (86400 * Int.sub 1 0
             + (utcSeconds (mkTime 1 30 (Double.of_int 15) 60) 15
                - utcSeconds Time.H00 0))).
Proof.
  apply (X19_offsetFrom_whole
           (mkDateTime (mkDate 2000 1 2) (mkTime 1 30 (Double.of_int 15) 60))
           (DateTime.fromYMD 2000 1 1) 1 0 15 0);
    try (vm_compute; reflexivity);
    unfold wholeTime, Int.in_range, Int.min_signed, Int.max_signed; cbn;
    repeat split; try lia; discriminate.
Defined.

(** X20. For valid dates of the years -2000000..2000000 and UTC clock
    times 00:00:00..23:59:59 with whole seconds, [<] and [==] are read off
    [offsetFrom]: [a < b] exactly when the offset of [a] from [b] is
    negative, [a == b] exactly when it is zero. *)
Theorem X20_lt_offsetFrom a b sa sb :
  validDate (date a) = true -> validDate (date b) = true ->
  -2000000 <= year (date a) <= 2000000 ->
  -2000000 <= year (date b) <= 2000000 ->
  clockTime (time a) sa -> clockTime (time b) sb ->
  exists x,
    DateTime.offsetFrom a b = Some x
    /\ DateTime.lt a b = Some (Double.ltb x (Double.of_int 0))
    /\ DateTime.eqb a b = Double.eqb x (Double.of_int 0).
Proof. exact (lt_offsetFrom a b sa sb). Qed.

Lemma X20_lt_offsetFrom_witness :
  exists x,
    DateTime.offsetFrom (DateTime.fromYMD 1582 10 4)
      (DateTime.fromYMDHMS 1582 10 15 0 0 (Double.of_int 1)) = Some x
    /\ DateTime.lt (DateTime.fromYMD 1582 10 4)
         (DateTime.fromYMDHMS 1582 10 15 0 0 (Double.of_int 1))
       = Some (Double.ltb x (Double.of_int 0))
    /\ DateTime.eqb (DateTime.fromYMD 1582 10 4)
         (DateTime.fromYMDHMS 1582 10 15 0 0 (Double.of_int 1))
       = Double.eqb x (Double.of_int 0).
Proof.
  apply (X20_lt_offsetFrom (DateTime.fromYMD 1582 10 4)
           (DateTime.fromYMDHMS 1582 10 15 0 0 (Double.of_int 1)) 0 1);
    try (vm_compute; reflexivity);
    try (cbn; lia);
    unfold clockTime; cbn; repeat split; try lia; reflexivity.
Defined.

(** X21. [DateTimeComponents(reference, offset)] with a whole number of
    seconds: for a reference whose date has a day-count [d] and whose
    local clock time is 00:00:00..23:59:59 with a whole second, and an
    offset of [k] seconds with [|k| < 2^35], let [T] be the seconds of the
    reference in its local day plus [k].  The constructor returns the
    valid date of day-count [d + floor(T / 86400)] (in 32-bit arithmetic),
    the clock time that [T mod 86400] seconds after midnight gives, with
    an exact second, and the reference's offset from UTC. *)
Theorem X21_fromReferenceOffset_whole reference d s k :
  Date.getJ2000Day (date reference) = Some d ->
  localClock (time reference) s -> - 2 ^ 35 < k < 2 ^ 35 ->
  let T := localSeconds (time reference) s + k in
  exists date',
    Date.fromOffset (Int.add d (T / 86400)) = Some date'
    /\ Date.getJ2000Day date' = Some (Int.add d (T / 86400))
    /\ validDate date' = true
    /\ DateTime.fromReferenceOffset reference (Double.of_int k)
       = Some (mkDateTime date'
                 (mkTime (T mod 86400 / 3600) (T mod 86400 mod 3600 / 60)
                    (Double.of_int (T mod 86400 mod 60))
                    (minutesFromUTC (time reference)))).
Proof. exact (fromReferenceOffset_whole reference d s k). Qed.

Lemma X21_fromReferenceOffset_whole_witness :
  let reference :=
    mkDateTime (mkDate 1999 12 31) (mkTime 23 59 (Double.of_int 59) 60) in
  let T := localSeconds (time reference) 59 + (-172801) in
  exists date',
    Date.fromOffset (Int.add (-1) (T / 86400)) = Some date'
    /\ Date.getJ2000Day date' = Some (Int.add (-1) (T / 86400))
    /\ validDate date' = true
    /\ DateTime.fromReferenceOffset reference (Double.of_int (-172801))
       = Some (mkDateTime date'
                 (mkTime (T mod 86400 / 3600) (T mod 86400 mod 3600 / 60)
                    (Double.of_int (T mod 86400 mod 60))
                    (minutesFromUTC (time reference)))).
Proof.
  apply (X21_fromReferenceOffset_whole
           (mkDateTime (mkDate 1999 12 31) (mkTime 23 59 (Double.of_int 59) 60))
           (-1) 59 (-172801)).
  - vm_compute; reflexivity.
  - unfold localClock; cbn; repeat split; try lia; discriminate.
  - lia.
Defined.

(** X22. [offsetFrom] undoes the shift: under the conditions of X21 and
    with the reference's offset from UTC between [-2^30] and [2^30]
    minutes, the date-time [DateTimeComponents(reference, k)] exists and
    its [offsetFrom(reference)] is exactly [k]. *)
Theorem X22_offsetFrom_fromReferenceOffset reference d s k :
  Date.getJ2000Day (date reference) = Some d ->
  localClock (time reference) s -> - 2 ^ 35 < k < 2 ^ 35 ->
  - 2 ^ 30 <= minutesFromUTC (time reference) <= 2 ^ 30 ->
  exists shifted,
    DateTime.fromReferenceOffset reference (Double.of_int k) = Some shifted
    /\ DateTime.offsetFrom shifted reference = Some (Double.of_int k).
Proof. exact (offsetFrom_fromReferenceOffset reference d s k). Qed.

Lemma X22_offsetFrom_fromReferenceOffset_witness :
  exists shifted,
    DateTime.fromReferenceOffset
      (mkDateTime (mkDate 1582 10 15) (mkTime 0 0 (Double.of_int 0) (-90)))
      (Double.of_int (-1)) = Some shifted
    /\ DateTime.offsetFrom shifted
         (mkDateTime (mkDate 1582 10 15) (mkTime 0 0 (Double.of_int 0) (-90)))
       = Some (Double.of_int (-1)).
Proof.
  apply (X22_offsetFrom_fromReferenceOffset
           (mkDateTime (mkDate 1582 10 15) (mkTime 0 0 (Double.of_int 0) (-90)))
           (-152384) 0 (-1)).
  - vm_compute; reflexivity.
  - unfold localClock; cbn; repeat split; try lia; discriminate.
  - lia.
  - cbn; lia.
Defined.

(** X23. Week-date round trip: for a week date whose week lies in its
    week-year, with January 1st of the week-year and the day-count of the
    day plus 6 inside the 32-bit range, the date built by
    [createFromWeekComponents] has that calendar week and that day of
    week; 1995-01-01 is 1994-W52-7 and 1996-12-31 is 1997-W01-2. *)
Theorem X23_week_roundtrip :
  (forall wYear week dayOfWeek,
     validWeekDate wYear week dayOfWeek = true ->
     exists t, Date.createFromWeekComponents wYear week dayOfWeek = Some t
               /\ Date.getCalendarWeek t = Some week
               /\ Date.getDayOfWeek t = Some dayOfWeek)
  /\ Date.getCalendarWeek (mkDate 1995 1 1) = Some 52
  /\ Date.getDayOfWeek (mkDate 1995 1 1) = Some 7
  /\ Date.createFromWeekComponents 1994 52 7 = Some (mkDate 1995 1 1)
  /\ Date.getCalendarWeek (mkDate 1996 12 31) = Some 1
  /\ Date.getDayOfWeek (mkDate 1996 12 31) = Some 2
  /\ Date.createFromWeekComponents 1997 1 2 = Some (mkDate 1996 12 31).
Proof.
  split; [exact week_roundtrip|]. vm_compute. repeat split; reflexivity.
Qed.

Lemma X23_week_roundtrip_witness :
  exists t, Date.createFromWeekComponents 1582 51 7 = Some t
            /\ Date.getCalendarWeek t = Some 51
            /\ Date.getDayOfWeek t = Some 7.
Proof. apply (proj1 X23_week_roundtrip 1582 51 7). vm_compute. reflexivity. Defined.

(** X24. When the two day-counts are defined and their 32-bit difference
    is not [INT_MIN] (so that it has a negation), [a.offsetFrom(b)] and
    the negation of [b.offsetFrom(a)] are the same double: equal under
    [==], or both not-a-number. *)
Theorem X24_offsetFrom_antisymmetric :
  forall a b da db,
    Date.getJ2000Day (date a) = Some da ->
    Date.getJ2000Day (date b) = Some db ->
    Int.sub da db <> Int.min_signed ->
    exists x y,
      DateTime.offsetFrom a b = Some x
      /\ DateTime.offsetFrom b a = Some y
      /\ same x (Double.opp y) = true.
Proof. exact offsetFrom_antisym. Qed.

Lemma X24_offsetFrom_antisymmetric_witness :
  exists x y,
    DateTime.offsetFrom (DateTime.fromYMDHMS 2000 1 2 12 0 one_half)
      (DateTime.fromYMD 1999 12 31) = Some x
    /\ DateTime.offsetFrom (DateTime.fromYMD 1999 12 31)
         (DateTime.fromYMDHMS 2000 1 2 12 0 one_half) = Some y
    /\ same x (Double.opp y) = true.
Proof.
  apply (X24_offsetFrom_antisymmetric
           (DateTime.fromYMDHMS 2000 1 2 12 0 one_half)
           (DateTime.fromYMD 1999 12 31) 1 (-1)).
  - vm_compute. reflexivity.
  - vm_compute. reflexivity.
  - vm_compute. discriminate.
Defined.
